(** * A ReAct agent over tabular call records: model and verified properties

  The development follows the three modules of the program:
  [tools.py] (the [Tool] class and the two registered tools),
  [llm_interface.py] ([LLMClient.call_llm]) and [react_agent.py]
  ([ReActAgent._parse_llm_response] and [ReActAgent.run]).

  Text is modelled by [string]: a character is an 8-bit code point, read as
  the Unicode code point of the same number, so that [str.isspace],
  [str.lower], and the classes [\s], [\w] and [.] of [re] are the Python
  ones on every string whose code points are below 256. *)

From Stdlib Require Import String Ascii List ZArith NArith Lia Bool DecimalString.
Import ListNotations.
Open Scope string_scope.

(** ** Python [str] operations used by the program *)

Module PyStr.

Definition code (c : ascii) : N := N_of_ascii c.

Definition between (lo hi : N) (c : ascii) : bool :=
  ((lo <=? code c) && (code c <=? hi))%N.

(** [str.isspace] on one character; also the class [\s] of [re]. *)
Definition isspace (c : ascii) : bool :=
  between 9 13 c || between 28 32 c || (code c =? 133)%N || (code c =? 160)%N.

Definition isupper (c : ascii) : bool :=
  between 65 90 c || (between 192 222 c && negb (code c =? 215)%N).

Definition lower_char (c : ascii) : ascii :=
  if isupper c then ascii_of_N (code c + 32) else c.

(** [s.lower()] *)
Fixpoint lower (s : string) : string :=
  match s with
  | EmptyString => EmptyString
  | String c s' => String (lower_char c) (lower s')
  end.

Definition isdigit (c : ascii) : bool := between 48 57 c.

(** The class [\w] of [re] for [str] patterns: alphanumeric or underscore. *)
Definition isword (c : ascii) : bool :=
  isdigit c || between 65 90 c || (code c =? 95)%N || between 97 122 c
  || (code c =? 170)%N || between 178 179 c || (code c =? 181)%N
  || between 185 186 c || between 188 190 c
  || between 192 214 c || between 216 246 c || between 248 255 c.

(** The class [.] of [re] without DOTALL. *)
Definition notnewline (c : ascii) : bool := negb (code c =? 10)%N.

(** Strip the leading (resp. trailing) characters that satisfy [p]. *)
Fixpoint lstrip_by (p : ascii -> bool) (s : string) : string :=
  match s with
  | EmptyString => EmptyString
  | String c s' => if p c then lstrip_by p s' else s
  end.

Fixpoint rstrip_by (p : ascii -> bool) (s : string) : string :=
  match s with
  | EmptyString => EmptyString
  | String c s' =>
      match rstrip_by p s' with
      | EmptyString => if p c then EmptyString else String c EmptyString
      | r => String c r
      end
  end.

Definition strip_by (p : ascii -> bool) (s : string) : string :=
  rstrip_by p (lstrip_by p s).

(** [s.strip()] *)
Definition strip (s : string) : string := strip_by isspace s.

Fixpoint mem (c : ascii) (s : string) : bool :=
  match s with
  | EmptyString => false
  | String d s' => Ascii.eqb c d || mem c s'
  end.

(** [s.strip(chars)] *)
Definition strip_chars (chars : string) (s : string) : string :=
  strip_by (fun c => mem c chars) s.

(** [s.startswith(p)] *)
Definition startswith (s p : string) : bool := String.prefix p s.

(** [s[n:]] *)
Fixpoint slice_from (n : nat) (s : string) : string :=
  match n, s with
  | O, _ => s
  | S _, EmptyString => EmptyString
  | S n', String _ s' => slice_from n' s'
  end.

(** [s[:n]] *)
Fixpoint slice_to (n : nat) (s : string) : string :=
  match n, s with
  | O, _ => EmptyString
  | S _, EmptyString => EmptyString
  | S n', String c s' => String c (slice_to n' s')
  end.

(** [s.split(sep)] for a one-character separator: never empty. *)
Fixpoint split (sep : ascii) (s : string) : list string :=
  match s with
  | EmptyString => [EmptyString]
  | String c s' =>
      if Ascii.eqb c sep then EmptyString :: split sep s'
      else match split sep s' with
           | [] => [String c EmptyString]
           | w :: ws => String c w :: ws
           end
  end.

(** [s.split(sep, 1)] when [sep in s]: the text before the first [sep] and
    the text after it; [None] when [sep] does not occur. *)
Fixpoint split_once (sep : ascii) (s : string) : option (string * string) :=
  match s with
  | EmptyString => None
  | String c s' =>
      if Ascii.eqb c sep then Some (EmptyString, s')
      else match split_once sep s' with
           | Some (k, v) => Some (String c k, v)
           | None => None
           end
  end.

(** [sep.join(parts)] *)
Fixpoint join (sep : string) (parts : list string) : string :=
  match parts with
  | [] => EmptyString
  | [p] => p
  | p :: ps => p ++ sep ++ join sep ps
  end.

(** Every character of [s] satisfies [p]. *)
Fixpoint all (p : ascii -> bool) (s : string) : bool :=
  match s with
  | EmptyString => true
  | String c s' => p c && all p s'
  end.

(** The text of [s] before its first newline. *)
Fixpoint first_line (s : string) : string :=
  match s with
  | EmptyString => EmptyString
  | String c s' => if notnewline c then String c (first_line s') else EmptyString
  end.

(** [c * n] for a one-character string [c]. *)
Fixpoint repeat (c : ascii) (n : nat) : string :=
  match n with
  | O => EmptyString
  | S n' => String c (repeat c n')
  end.

(** [sub in s] as a proposition. *)
Definition contains (s sub : string) : Prop :=
  exists pre post, s = pre ++ sub ++ post.

(** [str(n)] for a non-negative integer. *)
Definition of_nat (n : nat) : string := NilEmpty.string_of_uint (Nat.to_uint n).

(** The texts that [s] starts with, and the texts that occur in [s]. *)
Fixpoint prefixes (s : string) : list string :=
  EmptyString :: match s with
                 | EmptyString => []
                 | String c s' => map (String c) (prefixes s')
                 end.

Fixpoint parts (s : string) : list string :=
  (prefixes s ++ match s with
                 | EmptyString => []
                 | String _ s' => parts s'
                 end)%list.

End PyStr.

(** ** JSON values and Python dictionaries *)

(** A decoded JSON document, as [json.loads] returns it: [None], [bool],
  [int], [float] (kept as the literal that was read), [str], [list] and
  [dict].  A [dict] is an association list in insertion order. *)
#[warnings="-register-all"]
Inductive json : Type :=
| JNull
| JBool (b : bool)
| JInt (z : Z)
| JFloat (literal : string)
| JString (s : string)
| JArray (items : list json)
| JObject (members : list (string * json)).

Definition dict (V : Type) : Type := list (string * V).

(** [d[k] = v]: an existing key keeps its place and takes the new value. *)
Fixpoint dict_set {V : Type} (k : string) (v : V) (d : dict V) : dict V :=
match d with
| [] => [(k, v)]
| (k', v') :: d' =>
    if String.eqb k k' then (k, v) :: d' else (k', v') :: dict_set k v d'
end.

(** [d.get(k)] *)
Fixpoint dict_get {V : Type} (k : string) (d : dict V) : option V :=
match d with
| [] => None
| (k', v) :: d' => if String.eqb k k' then Some v else dict_get k d'
end.

(** [type(v).__name__] *)
Definition json_type_name (v : json) : string :=
match v with
| JNull => "NoneType"
| JBool _ => "bool"
| JInt _ => "int"
| JFloat _ => "float"
| JString _ => "str"
| JArray _ => "list"
| JObject _ => "dict"
end.

(** ** Exceptions

  The class that decides which handler catches, and [str(e)].  Every
  exception modelled here derives from [Exception]. *)
Inductive exception_class : Type :=
| ValidationError
| ValueError
| TypeError
| RecursionError
| OtherException (cls : string).

Record exception : Type := { exc_class : exception_class; exc_str : string }.

Inductive outcome (A : Type) : Type :=
| Returned (a : A)
| Raised (e : exception).
Arguments Returned {A} a.
Arguments Raised {A} e.

(** The text of a [json.JSONDecodeError]. *)
Definition JSONDecodeError : Type := string.

(** What a call of [json.loads] comes to: the decoded value; a
  [json.JSONDecodeError], the one class that the handlers around the calls
  name; or any other exception, which those handlers let through (an integer
  literal beyond the digit limit of [int] is a plain [ValueError], brackets
  nested beyond the recursion limit a [RecursionError]). *)
Inductive decoding : Type :=
| Decoded (v : json)
| DecodeError (e : JSONDecodeError)
| DecodeRaised (e : exception).

(** ** A reference decoder

  [json.loads] belongs to the Python library, so the agent is modelled over
  an arbitrary decoder (a field of the environment below).  [PyJson.loads]
  is the decoder used to run the model on concrete inputs: the grammar, the
  error positions and the two limits of CPython's scanner (the digits of an
  integer literal, 4300 by default in Python 3.11, and the depth of
  nesting, which is what the recursion limit leaves when the scanner is
  called).  Escapes [\uXXXX] above U+00FF leave the 8-bit alphabet and are
  written as their UTF-8 bytes. *)

Module PyJson.
Import PyStr.

(** Why the scanner stops: a syntax error at a position (a
    [JSONDecodeError]), an integer literal of more digits than [int] converts,
    or a bracket that opens when the recursion limit is reached. *)
Inductive error : Type :=
| Syntax (msg : string) (pos : nat)
| TooManyDigits (digits : nat)
| TooDeep (container : string).

Definition result (A : Type) : Type := (A * string * nat + error)%type.

(** [sys.get_int_max_str_digits()], which the program leaves at its default. *)
Definition max_str_digits : nat := 4300.

Definition is_ws (c : ascii) : bool :=
  (code c =? 32)%N || (code c =? 9)%N || (code c =? 10)%N || (code c =? 13)%N.

Fixpoint skip_ws (s : string) (pos : nat) : string * nat :=
  match s with
  | String c s' => if is_ws c then skip_ws s' (S pos) else (s, pos)
  | EmptyString => (s, pos)
  end.

Fixpoint span (p : ascii -> bool) (s : string) : string * string :=
  match s with
  | String c s' =>
      if p c then let (a, b) := span p s' in (String c a, b) else (EmptyString, s)
  | EmptyString => (EmptyString, EmptyString)
  end.

Definition hex_value (c : ascii) : option N :=
  if between 48 57 c then Some (code c - 48)%N
  else if between 97 102 c then Some (code c - 87)%N
  else if between 65 70 c then Some (code c - 55)%N
  else None.

Fixpoint hex4 (n : nat) (s : string) (acc : N) : option N :=
  match n with
  | O => Some acc
  | S n' =>
      match s with
      | String c s' =>
          match hex_value c with
          | Some d => hex4 n' s' (acc * 16 + d)%N
          | None => None
          end
      | EmptyString => None
      end
  end.

Definition chr (n : N) : string := String (ascii_of_N n) EmptyString.

Definition encode_code_point (n : N) : string :=
  if (n <? 256)%N then chr n
  else if (n <? 2048)%N then chr (192 + n / 64) ++ chr (128 + n mod 64)
  else chr (224 + n / 4096) ++ chr (128 + (n / 64) mod 64) ++ chr (128 + n mod 64).

Definition unescape (c : ascii) : option string :=
  match c with
  | "034"%char => Some (chr 34)
  | "\"%char => Some "\"
  | "/"%char => Some "/"
  | "b"%char => Some (chr 8)
  | "f"%char => Some (chr 12)
  | "n"%char => Some (chr 10)
  | "r"%char => Some (chr 13)
  | "t"%char => Some (chr 9)
  | _ => None
  end.

(** The body of a string literal; [pos] is the index of the head of [s] and
    [start] the index of the opening quote. *)
Fixpoint scanstring (fuel : nat) (s : string) (pos start : nat) : result string :=
  match fuel with
  | O => inr (Syntax "Unterminated string starting at" start)
  | S fuel' =>
      match s with
      | EmptyString => inr (Syntax "Unterminated string starting at" start)
      | String "034" s' => inl (EmptyString, s', S pos)
      | String "\" EmptyString => inr (Syntax "Unterminated string starting at" start)
      | String "\" (String "u" s') =>
          if Nat.leb (String.length s') 4 then inr (Syntax "Invalid \uXXXX escape" (S pos))
          else match hex4 4 s' 0 with
               | None => inr (Syntax "Invalid \uXXXX escape" (S pos))
               | Some n =>
                   match scanstring fuel' (slice_from 4 s') (pos + 6) start with
                   | inl (t, r, p) => inl (encode_code_point n ++ t, r, p)
                   | inr e => inr e
                   end
               end
      | String "\" (String c s') =>
          match unescape c with
          | None => inr (Syntax "Invalid \escape" pos)
          | Some u =>
              match scanstring fuel' s' (pos + 2) start with
              | inl (t, r, p) => inl (u ++ t, r, p)
              | inr e => inr e
              end
          end
      | String c s' =>
          if (code c <=? 31)%N then inr (Syntax "Invalid control character at" pos)
          else match scanstring fuel' s' (S pos) start with
               | inl (t, r, p) => inl (String c t, r, p)
               | inr e => inr e
               end
      end
  end.

Fixpoint decimal (s : string) (acc : Z) : Z :=
  match s with
  | String c s' => decimal s' (acc * 10 + Z.of_N (code c - 48))%Z
  | EmptyString => acc
  end.

(** The number at the head of [s]: its value and its length, or the number
    of digits of an integer literal that [int] refuses to convert. *)
Definition match_number (s : string) : option (json * nat + nat) :=
  let (sign, s1) := match s with
                    | String "-" r => ("-", r)
                    | _ => (EmptyString, s)
                    end in
  let int_part := match s1 with
                  | String c r =>
                      if between 49 57 c then
                        let (ds, r') := span isdigit r in Some (String c ds, r')
                      else if (code c =? 48)%N then Some ("0", r)
                      else None
                  | EmptyString => None
                  end in
  match int_part with
  | None => None
  | Some (ip, s2) =>
      let (frac, s3) := match s2 with
                        | String "." (String d r) =>
                            if isdigit d then
                              let (ds, r') := span isdigit r in
                              ("." ++ String d ds, r')
                            else (EmptyString, s2)
                        | _ => (EmptyString, s2)
                        end in
      let exp := match s3 with
                 | String e r =>
                     if Ascii.eqb e "e" || Ascii.eqb e "E" then
                       let (sg, r1) := match r with
                                       | String "-" r' => ("-", r')
                                       | String "+" r' => ("+", r')
                                       | _ => (EmptyString, r)
                                       end in
                       let (ds, _) := span isdigit r1 in
                       match ds with
                       | EmptyString => EmptyString
                       | _ => String e (sg ++ ds)
                       end
                     else EmptyString
                 | EmptyString => EmptyString
                 end in
      let text := sign ++ ip ++ frac ++ exp in
      match frac, exp with
      | EmptyString, EmptyString =>
          if (max_str_digits <? String.length ip)%nat then Some (inr (String.length ip))
          else
            Some (inl (JInt (if String.eqb sign "-" then - decimal ip 0
                             else decimal ip 0)%Z,
                       String.length text))
      | _, _ => Some (inl (JFloat text, String.length text))
      end
  end.

Definition keyword (s : string) : option (json * nat + nat) :=
  if startswith s "null" then Some (inl (JNull, 4))
  else if startswith s "true" then Some (inl (JBool true, 4))
  else if startswith s "false" then Some (inl (JBool false, 5))
  else if startswith s "NaN" then Some (inl (JFloat "NaN", 3))
  else if startswith s "Infinity" then Some (inl (JFloat "Infinity", 8))
  else if startswith s "-Infinity" then Some (inl (JFloat "-Infinity", 9))
  else match_number s.

(** [scan_once]: one JSON term at the head of [s]. [members] and [elements]
    are the loops of the object and array scanners, entered after the
    opening bracket and the white space that follows it.  [room] is the
    number of brackets that may still open before the recursion limit of the
    interpreter is reached. *)
Fixpoint scan_once (fuel room : nat) (s : string) (pos : nat) : result json :=
  match fuel with
  | O => inr (Syntax "Expecting value" pos)
  | S fuel' =>
      match s with
      | String "034" s' =>
          match scanstring (S (String.length s')) s' (S pos) pos with
          | inl (t, r, p) => inl (JString t, r, p)
          | inr e => inr e
          end
      | String "{" s' =>
          match room with
          | O => inr (TooDeep "object")
          | S room' =>
              let (s1, p1) := skip_ws s' (S pos) in
              match s1 with
              | String "}" r => inl (JObject [], r, S p1)
              | _ => match members fuel' room' s1 p1 [] with
                     | inl (d, r, p) => inl (JObject d, r, p)
                     | inr e => inr e
                     end
              end
          end
      | String "[" s' =>
          match room with
          | O => inr (TooDeep "array")
          | S room' =>
              let (s1, p1) := skip_ws s' (S pos) in
              match s1 with
              | String "]" r => inl (JArray [], r, S p1)
              | _ => match elements fuel' room' s1 p1 with
                     | inl (l, r, p) => inl (JArray l, r, p)
                     | inr e => inr e
                     end
              end
          end
      | _ =>
          match keyword s with
          | Some (inl (v, n)) => inl (v, slice_from n s, pos + n)
          | Some (inr digits) => inr (TooManyDigits digits)
          | None => inr (Syntax "Expecting value" pos)
          end
      end
  end

with members (fuel room : nat) (s : string) (pos : nat) (acc : dict json)
  : result (dict json) :=
  match fuel with
  | O => inr (Syntax "Expecting value" pos)
  | S fuel' =>
      match s with
      | String "034" s' =>
          match scanstring (S (String.length s')) s' (S pos) pos with
          | inr e => inr e
          | inl (key, r, p) =>
              let (r1, p1) := skip_ws r p in
              match r1 with
              | String ":" r2 =>
                  let (r3, p3) := skip_ws r2 (S p1) in
                  match scan_once fuel' room r3 p3 with
                  | inr e => inr e
                  | inl (v, r4, p4) =>
                      let acc' := dict_set key v acc in
                      let (r5, p5) := skip_ws r4 p4 in
                      match r5 with
                      | String "}" r6 => inl (acc', r6, S p5)
                      | String "," r6 =>
                          let (r7, p7) := skip_ws r6 (S p5) in
                          members fuel' room r7 p7 acc'
                      | _ => inr (Syntax "Expecting ',' delimiter" p5)
                      end
                  end
              | _ => inr (Syntax "Expecting ':' delimiter" p1)
              end
          end
      | _ => inr (Syntax "Expecting property name enclosed in double quotes" pos)
      end
  end

with elements (fuel room : nat) (s : string) (pos : nat) : result (list json) :=
  match fuel with
  | O => inr (Syntax "Expecting value" pos)
  | S fuel' =>
      match scan_once fuel' room s pos with
      | inr e => inr e
      | inl (v, r, p) =>
          let (r1, p1) := skip_ws r p in
          match r1 with
          | String "]" r2 => inl ([v], r2, S p1)
          | String "," r2 =>
              let (r3, p3) := skip_ws r2 (S p1) in
              match elements fuel' room r3 p3 with
              | inl (l, r4, p4) => inl (v :: l, r4, p4)
              | inr e => inr e
              end
          | _ => inr (Syntax "Expecting ',' delimiter" p1)
          end
      end
  end.

(** Line and column of an error position, as [JSONDecodeError] prints them. *)
Fixpoint line_col (s : string) (pos line col : nat) : nat * nat :=
  match pos, s with
  | S pos', String c s' =>
      if (code c =? 10)%N then line_col s' pos' (S line) 1
      else line_col s' pos' line (S col)
  | _, _ => (line, col)
  end.

Definition describe (s msg : string) (pos : nat) : JSONDecodeError :=
  let (line, col) := line_col s pos 1 1 in
  msg ++ ": line " ++ of_nat line ++ " column " ++ of_nat col
      ++ " (char " ++ of_nat pos ++ ")".

(** The exception that [json.loads(s)] raises when the scanner stops. *)
Definition raised (s : string) (e : error) : decoding :=
  match e with
  | Syntax msg pos => DecodeError (describe s msg pos)
  | TooManyDigits digits =>
      DecodeRaised
        {| exc_class := ValueError;
           exc_str := "Exceeds the limit (" ++ of_nat max_str_digits
                      ++ " digits) for integer string conversion: value has "
                      ++ of_nat digits
                      ++ " digits; use sys.set_int_max_str_digits() to increase the limit" |}
  | TooDeep container =>
      DecodeRaised
        {| exc_class := RecursionError;
           exc_str := "maximum recursion depth exceeded while decoding a JSON "
                      ++ container ++ " from a unicode string" |}
  end.

(** [json.loads(s)], called where the interpreter has room for [room] nested
    brackets. *)
Definition loads (room : nat) (s : string) : decoding :=
  let (s0, p0) := skip_ws s 0 in
  match scan_once (2 * String.length s + 2) room s0 p0 with
  | inr e => raised s e
  | inl (v, r, p) =>
      let (r1, p1) := skip_ws r p in
      match r1 with
      | EmptyString => Decoded v
      | _ => raised s (Syntax "Extra data" p1)
      end
  end.

End PyJson.

(** ** The fragment of [re] used by the program

  A backtracking matcher in continuation-passing style: alternatives are
  tried in the order of [re] (a greedy repetition tries the longest run
  first) and the first complete match wins. *)

Module Re.
Import PyStr.

Inductive regex : Type :=
| Eps
| Chr (p : ascii -> bool)
| Star (p : ascii -> bool)
| Group (r : regex)
| Seq (r1 r2 : regex).

Definition groups : Type := list string.
Definition cont : Type := string -> groups -> option groups.

Fixpoint star (p : ascii -> bool) (s : string) (gs : groups) (k : cont)
  : option groups :=
  match s with
  | String c s' =>
      if p c then
        match star p s' gs k with
        | Some r => Some r
        | None => k s gs
        end
      else k s gs
  | EmptyString => k s gs
  end.

Fixpoint exec (r : regex) (s : string) (gs : groups) (k : cont) : option groups :=
  match r with
  | Eps => k s gs
  | Chr p =>
      match s with
      | String c s' => if p c then k s' gs else None
      | EmptyString => None
      end
  | Star p => star p s gs k
  | Group r' =>
      exec r' s gs
        (fun rest gs' =>
           k rest (gs' ++ [slice_to (String.length s - String.length rest) s])%list)
  | Seq r1 r2 => exec r1 s gs (fun rest gs' => exec r2 rest gs' k)
  end.

(** [re.match(r, s)]: anchored at the start of [s]; the result lists
    [group(1)], [group(2)], ... *)
Definition match_ (r : regex) (s : string) : option groups :=
  exec r s [] (fun _ gs => Some gs).

(** One literal character ([ignorecase]: under [re.IGNORECASE]). *)
Definition lit (ignorecase : bool) (c : ascii) : regex :=
  Chr (fun d => if ignorecase then Ascii.eqb (lower_char d) (lower_char c)
                else Ascii.eqb d c).

Fixpoint literal (ignorecase : bool) (s : string) : regex :=
  match s with
  | EmptyString => Eps
  | String c s' => Seq (lit ignorecase c) (literal ignorecase s')
  end.

Definition plus (p : ascii -> bool) : regex := Seq (Chr p) (Star p).

End Re.

(** The pattern of [_parse_llm_response], compiled with [re.IGNORECASE]: the
  literal [Action:], then [\s*], the group [\w+], an opening parenthesis,
  the group of a greedy run of [.] and a closing parenthesis. *)
Definition action_pattern : Re.regex :=
Re.Seq (Re.literal true "Action:")
  (Re.Seq (Re.Star PyStr.isspace)
     (Re.Seq (Re.Group (Re.plus PyStr.isword))
        (Re.Seq (Re.lit true "(")
           (Re.Seq (Re.Group (Re.Star PyStr.notnewline))
              (Re.lit true ")"))))).

(** ** Data of the program *)

(** A [pandas.DataFrame]: column labels and rows of cells (kept as text). *)
Record DataFrame : Type := { columns : list string; rows : list (list string) }.

(** [df.head(n)] *)
Definition head (n : nat) (df : DataFrame) : DataFrame :=
{| columns := columns df; rows := firstn n (rows df) |}.

(** [df.empty] *)
Definition empty (df : DataFrame) : bool :=
match columns df, rows df with
| [], _ | _, [] => true
| _, _ => false
end.

(** What a tool function returns: a data frame, or any other object, of which
  the program only takes [str(...)]. *)
Inductive PyValue : Type :=
| VDataFrame (df : DataFrame)
| VObject (str : string).

(** A message of the chat history (a dict with a ["role"] entry). *)
Inductive Turn : Type :=
| Message (role content : string)
| ToolCallsMessage (role : string) (tool_calls : list (string * string * string))
| ToolMessage (role tool_call_id content : string).

Definition role_of (t : Turn) : string :=
match t with
| Message r _ | ToolCallsMessage r _ | ToolMessage r _ _ => r
end.

Definition is_tool (t : Turn) : bool := String.eqb (role_of t) "tool".

(** A call request as [call_llm] hands it over: ["name"] and ["arguments"]. *)
Record ToolCall : Type := { call_name : string; call_arguments : string }.

(** The dict returned by [call_llm], by its ["type"] entry. *)
Inductive LLMResponse : Type :=
| tool_calls_response (tool_calls : list ToolCall)
| text_response (content : string)
| empty_response (content : string)
| error_response (content : string).

Definition response_type (r : LLMResponse) : string :=
match r with
| tool_calls_response _ => "tool_calls"
| text_response _ => "text"
| empty_response _ => "empty"
| error_response _ => "error"
end.

(** The ["message"] of the first choice of a chat completion: [None] stands
  for an absent or null entry. *)
Record ChoiceMessage : Type :=
{ msg_tool_calls : option (list ToolCall); msg_content : option string }.

(** What the [try] block of [call_llm] meets: a decoded completion, or the
  exception that one of its handlers catches. *)
Inductive HttpOutcome : Type :=
| Completion (message : ChoiceMessage)
| HTTPError (err response_text : string)
| ConnectionError (err : string)
| Timeout (err : string)
| RequestException (err : string)
| ResponseJSONDecodeError (err : string)
| UnknownError (err : string).

Record LLMClient : Type := { api_base : string; api_key : string; model : string }.

(** The result of [_parse_llm_response], by its ["type"] entry. *)
Inductive parsed : Type :=
| Thought (content : string)
| Action (tool_name : string) (tool_args : json)
| Error (content : string)
| FinalAnswer (content : string)
| Text (content : string).

Definition parsed_type (p : parsed) : string :=
match p with
| Thought _ => "thought"
| Action _ _ => "action"
| Error _ => "error"
| FinalAnswer _ => "final_answer"
| Text _ => "text"
end.

(** The entries of [prompts.yaml] that the program reads.  The file is not
  part of the sources: its two required entries are taken as given. *)
Record Prompts : Type :=
{ system_message_template : string;
  initial_user_query_for_schema : string;
  sql_query_tool_description : option string;
  describe_table_tool_description : option string }.

(** The return statement that ended a run. *)
Inductive Exit : Type :=
| ExitFinalAnswer
| ExitCommunicationError
| ExitUnexpectedResponse
| ExitMaxSteps.

Definition nl : string := String "010" EmptyString.

Definition mock_id : string := "mock_id".

(** ** The program

    What lies outside the interpreter (the network, the database, and the
    pandas, pydantic and json libraries) is an interface: [World] is the state
    of the outside, threaded through every call that may read or change it.
    Writes to the standard output are not modelled. *)

Record FunctionDef : Type :=
  { fn_name : string;
    fn_description : string;
    fn_properties : json;
    fn_required : json }.

Record Payload : Type :=
  { payload_model : string;
    payload_messages : list Turn;
    payload_temperature : json;
    payload_max_tokens : Z;
    payload_tools : option (list FunctionDef);
    payload_tool_choice : option string }.

Class Environment : Type :=
  { World : Type;
    (** [json.loads]: the decoded value, the text of the [JSONDecodeError],
        or the other exception that it raises. *)
    json_loads : string -> decoding;
    (** [df.to_markdown(index=False)] and [str(df)]. *)
    to_markdown : DataFrame -> string;
    str_DataFrame : DataFrame -> string;
    (** [template.format(tool_descriptions=..., initial_db_info=...)]. *)
    format_template : string -> string -> string -> string;
    (** [str(e)] for the pydantic [ValidationError] of a model class, given
        the offending fields with the rejected input ([None]: field missing). *)
    validation_error_str : string -> list (string * option json) -> string;
    (** database.py, the storage backend behind the two tools. *)
    execute_sql_query : dict json -> World -> outcome PyValue * World;
    get_table_schema : dict json -> World -> outcome PyValue * World;
    (** The prompts as tools.py loads them when it is imported. *)
    tools_prompts : Prompts;
    (** [requests.post(url, headers=..., json=payload, timeout=60)] followed
        by [raise_for_status], [json()] and the look-up of the first choice. *)
    requests_post :
      string -> list (string * string) -> Payload -> World -> HttpOutcome * World }.

Section Agent.

Context {env : Environment}.

(** *** tools.py *)

(** A pydantic model class used as [args_schema]: building an instance from
    the keyword arguments and dumping it, and [cls.model_json_schema()]. *)
Record BaseModel : Type :=
  { model_validate : dict json -> dict json + string;
    model_json_schema : dict json }.

Record Tool : Type :=
  { name : string;
    description : string;
    func : dict json -> World -> outcome PyValue * World;
    args_schema : option BaseModel }.

Definition validation_failed (self : Tool) (e : string) : exception :=
  {| exc_class := ValueError;
     exc_str := "Tool '" ++ name self ++ "' argument validation failed: " ++ e |}.

(** The [TypeError] of a call of the bound method [run] with a keyword
    named [self]: the keyword collides with the first parameter. *)
Definition multiple_values : exception :=
  {| exc_class := TypeError;
     exc_str := "Tool.run() got multiple values for argument 'self'" |}.

(** [Tool.run], called with the keyword arguments [kwargs].  A keyword named
    [self] makes the call itself fail, before the body runs. *)
Definition Tool_run (self : Tool) (kwargs : dict json) (w : World)
  : outcome PyValue * World :=
  match dict_get "self" kwargs with
  | Some _ => (Raised multiple_values, w)
  | None =>
      match args_schema self with
      | Some schema =>
          match model_validate schema kwargs with
          | inl validated_args =>
              match func self validated_args w with
              | (Raised {| exc_class := ValidationError; exc_str := e |}, w') =>
                  (Raised (validation_failed self e), w')
              | r => r
              end
          | inr e => (Raised (validation_failed self e), w)
          end
      | None => func self kwargs w
      end
  end.

Definition get_default {V : Type} (k : string) (default : V) (d : dict V) : V :=
  match dict_get k d with
  | Some v => v
  | None => default
  end.

(** [Tool.to_openai_function_format()] *)
Definition to_openai_function_format (self : Tool) : FunctionDef :=
  match args_schema self with
  | Some schema =>
      {| fn_name := name self;
         fn_description := description self;
         fn_properties := get_default "properties" (JObject []) (model_json_schema schema);
         fn_required := get_default "required" (JArray []) (model_json_schema schema) |}
  | None =>
      {| fn_name := name self;
         fn_description := description self;
         fn_properties := JObject [];
         fn_required := JArray [] |}
  end.

(** A model class with one required field of type [str]
    ([SQLQueryParams], [DescribeTableParams]). *)
Definition str_field_model (cls field title field_description : string) : BaseModel :=
  {| model_validate := fun kwargs =>
       match dict_get field kwargs with
       | Some (JString s) => inl [(field, JString s)]
       | other => inr (validation_error_str cls [(field, other)])
       end;
     model_json_schema :=
       [("properties",
          JObject [(field, JObject [("description", JString field_description);
                                   ("title", JString title);
                                   ("type", JString "string")])]);
        ("required", JArray [JString field]);
        ("title", JString cls);
        ("type", JString "object")] |}.

Definition SQLQueryParams : BaseModel :=
  str_field_model "SQLQueryParams" "query" "Query"
    "The SQL query to execute against the call records database. Ensure the query is valid SQLite syntax. The table name is 'call_records'.".

Definition DescribeTableParams : BaseModel :=
  str_field_model "DescribeTableParams" "table_name" "Table Name"
    "The name of the table to describe. Only 'call_records' is available.".

Definition sql_query_tool : Tool :=
  {| name := "sql_query";
     description :=
       match sql_query_tool_description tools_prompts with
       | Some d => d
       | None => "Executes a SQL query on the 'call_records' database."
       end;
     func := execute_sql_query;
     args_schema := Some SQLQueryParams |}.

Definition describe_table_tool : Tool :=
  {| name := "describe_table";
     description :=
       match describe_table_tool_description tools_prompts with
       | Some d => d
       | None => "Returns the schema of a specified table."
       end;
     func := get_table_schema;
     args_schema := Some DescribeTableParams |}.

Definition ALL_TOOLS : dict Tool :=
  [(name sql_query_tool, sql_query_tool);
   (name describe_table_tool, describe_table_tool)].

(** *** llm_interface.py *)

(** The request of [call_llm]: the payload, the URL and the call of
    [requests.post]. *)
Definition post_completion (self : LLMClient) (messages : list Turn)
    (tools : list FunctionDef) (w : World) : HttpOutcome * World :=
  let headers := [("Authorization", "Bearer " ++ api_key self);
                  ("Content-Type", "application/json")] in
  let payload :=
    {| payload_model := model self;
       payload_messages := messages;
       payload_temperature := JFloat "0.7";
       payload_max_tokens := 1024;
       payload_tools := match tools with [] => None | _ => Some tools end;
       payload_tool_choice := match tools with [] => None | _ => Some "auto" end |} in
  let url := api_base self ++ "/chat/completions" in
  requests_post url headers payload w.

(** What [call_llm] returns: the three branches on the message of a decoded
    completion, and one result per exception handler. *)
Definition llm_result (response : HttpOutcome) : LLMResponse :=
  match response with
  | Completion message =>
      match msg_tool_calls message with
      | Some (tc :: tcs) =>
          tool_calls_response
            (map (fun tc => {| call_name := call_name tc;
                               call_arguments := call_arguments tc |}) (tc :: tcs))
      | _ =>
          match msg_content message with
          | Some (String c s) => text_response (String c s)
          | _ => empty_response EmptyString
          end
      end
  | HTTPError e response_text =>
      error_response ("HTTP Error: " ++ e ++ " - " ++ response_text)
  | ConnectionError e => error_response ("Connection Error: " ++ e)
  | Timeout e => error_response ("Timeout Error: " ++ e)
  | RequestException e => error_response ("Request Error: " ++ e)
  | ResponseJSONDecodeError e => error_response ("JSON Decode Error: " ++ e)
  | UnknownError e => error_response ("Unknown Error: " ++ e)
  end.

(** [LLMClient.call_llm(messages, tools)] *)
Definition call_llm (self : LLMClient) (messages : list Turn)
    (tools : list FunctionDef) (w : World) : LLMResponse * World :=
  let (response, w') := post_completion self messages tools w in
  (llm_result response, w').

(** *** react_agent.py *)

Record ReActAgent : Type :=
  { llm_client : LLMClient;
    tools : dict Tool;
    chat_history : list Turn;
    _prompts : Prompts }.

Definition set_chat_history (self : ReActAgent) (h : list Turn) : ReActAgent :=
  {| llm_client := llm_client self;
     tools := tools self;
     chat_history := h;
     _prompts := _prompts self |}.

(** [self.chat_history.append(t)] *)
Definition chat_history_append (self : ReActAgent) (t : Turn) : ReActAgent :=
  set_chat_history self (chat_history self ++ [t]).

(** [ReActAgent._initialize_system_message(initial_db_info)] *)
Definition _initialize_system_message (self : ReActAgent)
    (initial_db_info : option string) : ReActAgent :=
  let tool_descriptions :=
    PyStr.join nl
      (map (fun tool => "  - " ++ name tool ++ ": " ++ description tool)
           (map snd (tools self))) in
  let system_message :=
    format_template (system_message_template (_prompts self))
      tool_descriptions
      (match initial_db_info with
       | Some (String c s) => String c s
       | _ => EmptyString
       end) in
  set_chat_history self [Message "system" (PyStr.strip system_message)].

(** The two quote characters that the fallback strips from a value. *)
Definition quotes : string := String "'" (String "034" EmptyString).

(** The body of the loop of the fallback of the action branch: a piece that
    holds [=] is a key and a value, written into [args]; an exception of the
    decoder other than [JSONDecodeError] is not caught. *)
Definition parse_key_value (args : dict json) (arg_pair : string) : outcome (dict json) :=
  if PyStr.mem "=" arg_pair then
    match PyStr.split_once "=" arg_pair with
    | Some (key, value) =>
        match json_loads (PyStr.strip value) with
        | Decoded v => Returned (dict_set (PyStr.strip key) v args)
        | DecodeError _ =>
            Returned
              (dict_set (PyStr.strip key)
                 (JString (PyStr.strip_chars quotes (PyStr.strip value)))
                 args)
        | DecodeRaised e => Raised e
        end
    | None => Returned args
    end
  else Returned args.

(** [for arg_pair in args_str.split(',')] *)
Fixpoint parse_pairs (pieces : list string) (args : dict json) : outcome (dict json) :=
  match pieces with
  | [] => Returned args
  | arg_pair :: pieces' =>
      match parse_key_value args arg_pair with
      | Returned args' => parse_pairs pieces' args'
      | Raised e => Raised e
      end
  end.

(** The [try] statement of the action branch, with its handler. *)
Definition parse_action_args (args_str : string) : outcome json :=
  match json_loads ("{" ++ args_str ++ "}") with
  | Decoded args => Returned args
  | DecodeError _ =>
      match parse_pairs (PyStr.split "," args_str) [] with
      | Returned args => Returned (JObject args)
      | Raised e => Raised e
      end
  | DecodeRaised e => Raised e
  end.

(** [ReActAgent._parse_llm_response(response_content)]: the result, or the
    exception that leaves the method, and the agent after the call. *)
Definition _parse_llm_response (self : ReActAgent) (response_content : string)
  : outcome parsed * ReActAgent :=
  let content_lower := PyStr.lower (PyStr.strip response_content) in
  if PyStr.startswith content_lower "thought:" then
    (Returned (Thought (PyStr.strip
                          (PyStr.slice_from (String.length "thought:") response_content))),
     self)
  else if PyStr.startswith content_lower "action:" then
    match Re.match_ action_pattern response_content with
    | Some [tool_name; args_str] =>
        match parse_action_args args_str with
        | Returned args => (Returned (Action tool_name args), self)
        | Raised e => (Raised e, self)
        end
    | _ => (Returned (Error ("Invalid Action format: " ++ response_content)), self)
    end
  else if PyStr.startswith content_lower "final answer:" then
    (Returned (FinalAnswer
                 (PyStr.strip
                    (PyStr.slice_from (String.length "final answer:") response_content))),
     self)
  else (Returned (Text (PyStr.strip response_content)), self).

Definition truncation_notice : string :=
  nl ++ "... (results truncated due to length, showing first 5 rows)".

(** The text of a tool result (the body of the [try] block of [run]). *)
Definition format_observation (observation_result : PyValue) : string :=
  match observation_result with
  | VDataFrame df =>
      let observation_str := to_markdown df in
      if (2000 <? String.length observation_str)%nat then
        to_markdown (head 5 df) ++ truncation_notice
      else observation_str
  | VObject s => s
  end.

(** The [try] block of [run] with its handler: call the tool with the
    decoded arguments as keyword arguments and render what comes back. *)
Definition observe (tool : Tool) (tool_args : json) (w : World) : string * World :=
  let (result, w') :=
    match tool_args with
    | JObject kwargs => Tool_run tool kwargs w
    | other =>
        (Raised {| exc_class := TypeError;
                   exc_str := "tools.Tool.run() argument after ** must be a mapping, not "
                              ++ json_type_name other |}, w)
    end in
  match result with
  | Returned observation_result => (format_observation observation_result, w')
  | Raised e => ("Tool execution failed: " ++ exc_str e, w')
  end.

(** The state of a run.  [sent] is not program state: it records, in order,
    the chat history passed to each call of [call_llm]. *)
Record RunState : Type :=
  { self : ReActAgent; world : World; sent : list (list Turn) }.

Definition history (st : RunState) : list Turn := chat_history (self st).

Definition append (t : Turn) (st : RunState) : RunState :=
  {| self := chat_history_append (self st) t; world := world st; sent := sent st |}.

Definition set_world (w : World) (st : RunState) : RunState :=
  {| self := self st; world := w; sent := sent st |}.

Definition not_found (tool_name : string) : string :=
  "Error: Tool '" ++ tool_name ++ "' not found.".

Definition arguments_error (tool_name e tool_args_str : string) : string :=
  "Error parsing tool arguments for " ++ tool_name ++ ": " ++ e
    ++ ". Raw arguments: " ++ tool_args_str.

(** How the body of a loop of [run] is left: at its end or by [continue],
    to the next round; by a [return] statement; or by an exception that no
    handler of [run] catches.  Each with the state reached. *)
Inductive Flow : Type :=
| Next (st : RunState)
| Return (exit : Exit) (result : string) (st : RunState)
| Raise (e : exception) (st : RunState).

(** The body of [for tool_call in tool_calls].  The handler around
    [json.loads] names [json.JSONDecodeError]: any other exception of the
    decoder leaves the loop and [run]. *)
Definition dispatch (st : RunState) (tool_call : ToolCall) : Flow :=
  let tool_name := call_name tool_call in
  let tool_args_str := call_arguments tool_call in
  match dict_get tool_name (tools (self st)) with
  | None => Next (append (ToolMessage "tool" mock_id (not_found tool_name)) st)
  | Some tool =>
      match json_loads tool_args_str with
      | DecodeError e =>
          Next (append (ToolMessage "tool" mock_id
                          (arguments_error tool_name e tool_args_str)) st)
      | DecodeRaised e => Raise e st
      | Decoded tool_args =>
          let st1 :=
            append (ToolCallsMessage "assistant"
                      [(mock_id, tool_name, tool_args_str)]) st in
          let (observation_str, w') := observe tool tool_args (world st1) in
          Next (append (ToolMessage "tool" mock_id observation_str) (set_world w' st1))
      end
  end.

(** [for tool_call in tool_calls]: the requests in order, up to the first
    one that leaves the loop. *)
Fixpoint dispatch_all (tool_calls : list ToolCall) (st : RunState) : Flow :=
  match tool_calls with
  | [] => Next st
  | tool_call :: tool_calls' =>
      match dispatch st tool_call with
      | Next st' => dispatch_all tool_calls' st'
      | flow => flow
      end
  end.

Definition max_steps_reached : string :=
  "Max steps reached without providing a final answer.".

Definition communication_error (content : string) : string :=
  "Agent terminated due to LLM communication error: " ++ content.

Definition unexpected_response : string :=
  "Agent terminated due to unexpected LLM response type.".

(** The capability list that [run] passes to [call_llm]: one entry per
    registered tool. *)
Definition capabilities (agent : ReActAgent) : list FunctionDef :=
  map to_openai_function_format (map snd (tools agent)).

(** The state of the run once [call_llm] has returned: the call is on
    record, with the chat history it was given. *)
Definition called (st : RunState) (w : World) : RunState :=
  {| self := self st; world := w; sent := sent st ++ [history st] |}.

(** The body of [for step in range(max_steps)]. *)
Definition iteration (st : RunState) : Flow :=
  let (llm_response, w') :=
    call_llm (llm_client (self st)) (history st) (capabilities (self st)) (world st) in
  let st1 := called st w' in
  match llm_response with
  | tool_calls_response tool_calls => dispatch_all tool_calls st1
  | text_response content =>
      let (parsed_response, self') := _parse_llm_response (self st1) content in
      let st2 := {| self := self'; world := world st1; sent := sent st1 |} in
      match parsed_response with
      | Raised e => Raise e st2
      | Returned (Thought _) => Next (append (Message "assistant" content) st2)
      | Returned (FinalAnswer answer) =>
          Return ExitFinalAnswer answer (append (Message "assistant" content) st2)
      | Returned _ => Next (append (Message "assistant" content) st2)
      end
  | error_response content =>
      Return ExitCommunicationError (communication_error content) st1
  | empty_response _ => Return ExitUnexpectedResponse unexpected_response st1
  end.

(** How [run] ends: by one of its [return] statements, with the value
    returned, or by an exception that it does not catch; each with the final
    state. *)
Inductive Ending : Type :=
| Returns (exit : Exit) (result : string) (st : RunState)
| Raises (e : exception) (st : RunState).

Definition final (ending : Ending) : RunState :=
  match ending with
  | Returns _ _ st => st
  | Raises _ st => st
  end.

(** The [for] loop over [range(steps)] and the statement after it. *)
Fixpoint loop (steps : nat) (st : RunState) : Ending :=
  match steps with
  | O => Returns ExitMaxSteps max_steps_reached st
  | S steps' =>
      match iteration st with
      | Next st' => loop steps' st'
      | Return exit result st' => Returns exit result st'
      | Raise e st' => Raises e st'
      end
  end.

(** Schema discovery at the start of [run]. *)
Definition discover_schema (self : ReActAgent) (w : World) : string * World :=
  match dict_get "describe_table" (tools self) with
  | Some schema_tool =>
      match Tool_run schema_tool [("table_name", JString "call_records")] w with
      | (Returned (VDataFrame schema_df), w') =>
          if negb (empty schema_df) then
            ("Table 'call_records' schema:" ++ nl ++ to_markdown schema_df, w')
          else
            ("Could not retrieve schema for 'call_records': "
               ++ str_DataFrame schema_df, w')
      | (Returned (VObject s), w') =>
          ("Could not retrieve schema for 'call_records': " ++ s, w')
      | (Raised e, w') =>
          ("Error executing describe_table during init: " ++ exc_str e, w')
      end
  | None =>
      ("Table 'call_records' is the primary table. Its schema is unknown; LLM should use `describe_table` tool to find it.", w)
  end.

(** The state in which the loop of [run] starts. *)
Definition start (agent : ReActAgent) (task : string) (w : World) : RunState :=
  let (initial_db_info, w') := discover_schema agent w in
  let agent1 := _initialize_system_message agent (Some initial_db_info) in
  {| self := chat_history_append agent1 (Message "user" task);
     world := w';
     sent := [] |}.

(** [ReActAgent.run(task, max_steps)], with the way it ends and the final
    state. *)
Definition run_trace (agent : ReActAgent) (task : string) (max_steps : Z) (w : World)
  : Ending :=
  loop (Z.to_nat max_steps) (start agent task w).

(** [ReActAgent.run(task, max_steps)]: the value returned, or the exception
    raised. *)
Definition run (agent : ReActAgent) (task : string) (max_steps : Z) (w : World)
  : outcome string :=
  match run_trace agent task max_steps w with
  | Returns _ result _ => Returned result
  | Raises e _ => Raised e
  end.

(** The default of the parameter [max_steps]. *)
Definition default_max_steps : Z := 10.

(** [n] iterations of the loop in a row, none of which returns or raises. *)
Fixpoint iterate (n : nat) (st : RunState) : option RunState :=
  match n with
  | O => Some st
  | S n' =>
      match iteration st with
      | Next st' => iterate n' st'
      | Return _ _ _ | Raise _ _ => None
      end
  end.

Definition flow_state (f : Flow) : RunState :=
  match f with
  | Next st => st
  | Return _ _ st => st
  | Raise _ st => st
  end.

(** The argument text of an action as the specification words it: parsed
    as an object literal; when that fails, split on commas and on [=] into
    keys and values, each value parsed as a literal or else kept as text
    without surrounding white space and quotes. *)
Definition literal_or_text (value : string) : json :=
  match json_loads value with
  | Decoded v => v
  | _ => JString (PyStr.strip_chars quotes value)
  end.

Definition key_value (piece : string) : list (string * json) :=
  match PyStr.split_once "=" piece with
  | Some (key, value) => [(PyStr.strip key, literal_or_text (PyStr.strip value))]
  | None => []
  end.

Definition dict_of_pairs (pairs : list (string * json)) : dict json :=
  fold_left (fun d kv => dict_set (fst kv) (snd kv) d) pairs [].

Definition spec_action_args (args_str : string) : json :=
  match json_loads args_str with
  | Decoded (JObject members) => JObject members
  | _ => JObject (dict_of_pairs (flat_map key_value (PyStr.split "," args_str)))
  end.

(** What the program makes of the argument text, said without its own
    operations on text.  [t] is [s] without the characters of class [p] at
    its two ends. *)
Definition trimmed (p : ascii -> bool) (s t : string) : Prop :=
  exists l r,
    s = l ++ t ++ r
    /\ PyStr.all p l = true
    /\ PyStr.all p r = true
    /\ (forall c t', t = String c t' -> p c = false)
    /\ (forall t' c, t = t' ++ String c EmptyString -> p c = false).

Definition is_quote (c : ascii) : bool := Ascii.eqb c "'" || Ascii.eqb c "034".

(** A value is read as a literal, or else is its text without surrounding
    white space and quotes. *)
Definition value_reads (value : string) (v : json) : Prop :=
  exists text,
    trimmed PyStr.isspace value text
    /\ match json_loads text with
       | Decoded literal => v = literal
       | DecodeError _ => exists bare, trimmed is_quote text bare /\ v = JString bare
       | DecodeRaised _ => False
       end.

(** The pieces of a text between its commas. *)
Definition pieces_of (text : string) (pieces : list string) : Prop :=
  PyStr.join "," pieces = text
  /\ pieces <> []
  /\ Forall (fun piece => PyStr.mem "," piece = false) pieces.

(** The keys and values among the pieces: a piece that holds [=] is cut at
    its first [=], the others are passed over. *)
Inductive pairs_of : list string -> list (string * string) -> Prop :=
| pairs_nil : pairs_of [] []
| pairs_skip (piece : string) (pieces : list string) (kvs : list (string * string)) :
    PyStr.mem "=" piece = false ->
    pairs_of pieces kvs ->
    pairs_of (piece :: pieces) kvs
| pairs_cut (key value : string) (pieces : list string) (kvs : list (string * string)) :
    PyStr.mem "=" key = false ->
    pairs_of pieces kvs ->
    pairs_of ((key ++ "=" ++ value) :: pieces) ((key, value) :: kvs).

(** The dictionary [d] holds the pairs: one entry per key, every entry read
    from a pair, every pair with an entry under its key, and of the pairs
    that share a key the last one gives the value. *)
Definition holds_pairs (kvs : list (string * string)) (d : dict json) : Prop :=
  NoDup (map fst d)
  /\ (forall k v,
        In (k, v) d ->
        exists key value,
          In (key, value) kvs /\ trimmed PyStr.isspace key k /\ value_reads value v)
  /\ (forall key value,
        In (key, value) kvs ->
        exists k, trimmed PyStr.isspace key k /\ In k (map fst d))
  /\ (forall kvs1 key value kvs2,
        kvs = (kvs1 ++ (key, value) :: kvs2)%list ->
        (forall key' value' k,
            In (key', value') kvs2 ->
            trimmed PyStr.isspace key k -> ~ trimmed PyStr.isspace key' k) ->
        exists k v,
          trimmed PyStr.isspace key k /\ In (k, v) d /\ value_reads value v).

(** The arguments that the program reads from the argument text: the text
    set between braces, as an object literal; when that is no JSON, the keys
    and values of its pieces. *)
Definition reads_as (args_str : string) (v : json) : Prop :=
  match json_loads ("{" ++ args_str ++ "}") with
  | Decoded object => v = object
  | DecodeError _ =>
      exists pieces kvs d,
        pieces_of args_str pieces /\ pairs_of pieces kvs /\ holds_pairs kvs d
        /\ v = JObject d
  | DecodeRaised _ => False
  end.

(** No part of the text makes the decoder raise anything but a
    [JSONDecodeError]. *)
Definition decodes_quietly (text : string) : Prop :=
  forall part e, PyStr.contains text part -> json_loads part <> DecodeRaised e.

(** The contents of the tool-result turns of a list of turns, in order. *)
Definition tool_results (turns : list Turn) : list string :=
  flat_map (fun t => match t with
                     | ToolMessage "tool" _ content => [content]
                     | _ => []
                     end) turns.

(** [obs] is the observation that answers the request [tc]: the tool is
    unknown, or its payload does not decode, or the tool was called with the
    decoded payload (in some state of the world). *)
Inductive answers (registry : dict Tool) (tc : ToolCall) (obs : string) : Prop :=
| answers_unknown :
    dict_get (call_name tc) registry = None ->
    obs = not_found (call_name tc) ->
    answers registry tc obs
| answers_malformed (tool : Tool) (e : JSONDecodeError) :
    dict_get (call_name tc) registry = Some tool ->
    json_loads (call_arguments tc) = DecodeError e ->
    obs = arguments_error (call_name tc) e (call_arguments tc) ->
    answers registry tc obs
| answers_invoked (tool : Tool) (tool_args : json) (w : World) :
    dict_get (call_name tc) registry = Some tool ->
    json_loads (call_arguments tc) = Decoded tool_args ->
    obs = fst (observe tool tool_args w) ->
    answers registry tc obs.

(** The bound of the specification on an observation: at most 2000
    characters, or at most 2000 characters followed by the truncation
    notice. *)
Definition within_bound (obs : string) : Prop :=
  String.length obs <= 2000
  \/ exists body, obs = body ++ truncation_notice /\ String.length body <= 2000.

End Agent.

(** ** A test double of the outside world

    A scripted reasoning service (the replies still to come), a database
    that answers every query with one fixed row and records the queries it
    ran, a plain renderer for data frames, and the reference decoder. *)

Module Demo.

Record scripted : Type := { replies : list HttpOutcome; queries : list string }.

Definition render (df : DataFrame) : string :=
  PyStr.join nl
    (map (fun cells => "| " ++ PyStr.join " | " cells ++ " |") (columns df :: rows df)).

Definition post (url : string) (headers : list (string * string)) (payload : Payload)
    (w : scripted) : HttpOutcome * scripted :=
  match replies w with
  | [] => (Timeout "no reply", w)
  | r :: rs => (r, {| replies := rs; queries := queries w |})
  end.

Definition missing_argument (f param : string) : exception :=
  {| exc_class := TypeError;
     exc_str := f ++ "() missing 1 required positional argument: '" ++ param ++ "'" |}.

Definition sql (kwargs : dict json) (w : scripted) : outcome PyValue * scripted :=
  match dict_get "query" kwargs with
  | Some (JString q) =>
      (Returned (VDataFrame {| columns := ["n"]; rows := [["3"]] |}),
       {| replies := replies w; queries := queries w ++ [q] |})
  | _ => (Raised (missing_argument "execute_sql_query" "query"), w)
  end.

Definition table_info (kwargs : dict json) (w : scripted) : outcome PyValue * scripted :=
  match dict_get "table_name" kwargs with
  | Some (JString t) =>
      (Returned (VDataFrame
                   {| columns := ["Column Name"; "Data Type"; "Not Null"; "Primary Key"];
                      rows := [["call_id"; "INTEGER"; "0"; "0"];
                               ["call_type"; "TEXT"; "0"; "0"]] |}),
       {| replies := replies w;
          queries := queries w ++ ["PRAGMA table_info(" ++ t ++ ");"] |})
  | _ => (Raised (missing_argument "get_table_schema" "table_name"), w)
  end.

(** The nesting that the decoder has room for: the default recursion limit
    of 1000 less the frames in use where the program calls it (the exact
    number depends on the call site and on the interpreter). *)
Definition room : nat := 990.

Definition prompts : Prompts :=
  {| system_message_template := "You answer questions about call records with the tools below.";
     initial_user_query_for_schema := "Describe the table call_records.";
     sql_query_tool_description := None;
     describe_table_tool_description := None |}.

Definition environment : Environment :=
  {| World := scripted;
     json_loads := PyJson.loads room;
     to_markdown := render;
     str_DataFrame := render;
     format_template := fun template tool_descriptions initial_db_info =>
       template ++ nl ++ tool_descriptions ++ nl ++ initial_db_info;
     validation_error_str := fun cls fields =>
       "1 validation error for " ++ cls ++ nl ++ PyStr.join nl (map fst fields);
     execute_sql_query := sql;
     get_table_schema := table_info;
     tools_prompts := prompts;
     requests_post := post |}.

Definition client : LLMClient :=
  {| api_base := "https://api.siliconflow.cn/v1/";
     api_key := "YOUR_SILICONFLOW_API_KEY";
     model := "mistralai/mixtral-8x7b-instruct-v0.1" |}.

Definition agent : @ReActAgent environment :=
  {| llm_client := client;
     tools := @ALL_TOOLS environment;
     chat_history := [];
     _prompts := prompts |}.

Definition request (tool_name arguments : string) : ToolCall :=
  {| call_name := tool_name; call_arguments := arguments |}.

Definition calls (tcs : list ToolCall) : HttpOutcome :=
  Completion {| msg_tool_calls := Some tcs; msg_content := None |}.

Definition says (content : string) : HttpOutcome :=
  Completion {| msg_tool_calls := None; msg_content := Some content |}.

Definition script (rs : list HttpOutcome) : scripted := {| replies := rs; queries := [] |}.

Definition dq : string := String "034" EmptyString.

(** The payload [{"query": "SELECT 1"}]. *)
Definition select_1 : string :=
  "{" ++ dq ++ "query" ++ dq ++ ": " ++ dq ++ "SELECT 1" ++ dq ++ "}".

(** One batch of three requests: a good one, an unknown tool and a payload
    that is not JSON. *)
Definition batch : list ToolCall :=
  [request "sql_query" select_1; request "foo_tool" "{}"; request "sql_query" "{bad"].

Definition task : string := "How many calls are there?".

(** Three scripts that open with the batch. *)
Definition batch_then_answer : scripted :=
  script [calls batch; says "Thought: one more step"; says "Final Answer: 42"].

Definition batch_then_refused : scripted :=
  script [calls batch; ConnectionError "refused"].

Definition batch_then_nothing : scripted :=
  script [calls batch;
          Completion {| msg_tool_calls := Some []; msg_content := Some EmptyString |}].

(** The state of a run on the task when its loop starts, and after the
    iteration that dispatches the batch. *)
Definition opening (w : scripted) : @RunState environment :=
  @start environment agent task w.

(** The world once the reasoning service has given its next reply. *)
Definition answered (w : scripted) : scripted :=
  {| replies := tl (replies w); queries := queries w |}.

Definition after_batch (w : scripted) : @RunState environment :=
  @flow_state environment
    (@dispatch_all environment batch
       (@called environment (opening w) (answered (@world environment (opening w))))).

(** A text of 2100 characters. *)
Definition long_text : string := PyStr.repeat "x" 2100.

(** A table of one cell that holds the long text. *)
Definition wide_table : DataFrame :=
  {| columns := ["text"]; rows := [[long_text]] |}.

End Demo.

(** ** Notions used to state further properties of the program *)

Section Notions.

Context {env : Environment}.

(** A turn that the loop of [run] may append: its role is ["assistant"] or
    ["tool"]. *)
Definition conversational (t : Turn) : Prop :=
  role_of t = "assistant" \/ role_of t = "tool".

(** The fields of the agent that [run] reads and never assigns. *)
Definition same_setup (a b : ReActAgent) : Prop :=
  llm_client a = llm_client b /\ tools a = tools b /\ _prompts a = _prompts b.

(** The key and the value of a piece of an argument text, when it holds
    [=]. *)
Definition cut (piece : string) : list (string * string) :=
  match PyStr.split_once "=" piece with
  | Some kv => [kv]
  | None => []
  end.

(** The payload of the request is never decoded (no such tool), or the
    decoder raises nothing but a [JSONDecodeError] on it. *)
Definition decodable (registry : dict Tool) (tc : ToolCall) : Prop :=
  dict_get (call_name tc) registry = None
  \/ forall e, json_loads (call_arguments tc) <> DecodeRaised e.

(** The ["type"] entry of what [_parse_llm_response] returns, when it
    returns. *)
Definition result_type (r : outcome parsed) : option string :=
  match r with
  | Returned p => Some (parsed_type p)
  | Raised _ => None
  end.

(** One of the [except] handlers of [call_llm] ran. *)
Definition handled (response : HttpOutcome) : Prop :=
  match response with
  | Completion _ => False
  | _ => True
  end.

(** The text that the handler of [call_llm] puts before [str(e)] (and, for
    an HTTP error, the body of the response after it). *)
Definition handler_text (response : HttpOutcome) : string :=
  match response with
  | Completion _ => EmptyString
  | HTTPError e response_text => "HTTP Error: " ++ e ++ " - " ++ response_text
  | ConnectionError e => "Connection Error: " ++ e
  | Timeout e => "Timeout Error: " ++ e
  | RequestException e => "Request Error: " ++ e
  | ResponseJSONDecodeError e => "JSON Decode Error: " ++ e
  | UnknownError e => "Unknown Error: " ++ e
  end.

End Notions.

(** ** Further parts of the program *)

Section FurtherParts.

Context {env : Environment}.

(** What [Tool.run] makes of the result of the tool function when a schema
    is attached: a [ValidationError] becomes the [ValueError] of the tool,
    anything else passes. *)
Definition converted (self : Tool) (r : outcome PyValue * World) : outcome PyValue * World :=
  match r with
  | (Raised {| exc_class := ValidationError; exc_str := e |}, w') =>
      (Raised (validation_failed self e), w')
  | _ => r
  end.

(** [LLMClient.__init__(api_base, api_key, model)]; [environ_key] is what
    [os.getenv("SILICONFLOW_API_KEY")] returns. *)
Definition LLMClient_init (base : string) (key : option string) (model_name : string)
    (environ_key : option string) : outcome LLMClient :=
  let chosen :=
    match key with
    | Some (String c s) => Some (String c s)
    | _ => environ_key
    end in
  match chosen with
  | Some (String c s) =>
      Returned {| api_base := base; api_key := String c s; model := model_name |}
  | _ =>
      Raised {| exc_class := ValueError;
                exc_str := "API key not provided and SILICONFLOW_API_KEY environment variable not set." |}
  end.

End FurtherParts.

(** *** database.py

    The SQLite file and pandas are an interface as well, over the same
    world.  A connection, once made, is used through the operations below;
    [conn.cursor()] and [conn.close()] do not fail. *)

Class Storage {env : Environment} : Type :=
  { Connection : Type;
    (** [os.path.exists(path)] *)
    path_exists : string -> World -> bool;
    (** [sqlite3.connect(name)] *)
    sqlite3_connect : string -> World -> outcome Connection * World;
    (** [conn.close()] *)
    conn_close : Connection -> World -> World;
    (** [pd.read_sql_query(query, conn)] *)
    read_sql_query : string -> Connection -> World -> outcome DataFrame * World;
    (** [pd.read_csv(path)] *)
    read_csv : string -> World -> outcome DataFrame * World;
    (** The column [call_time] parsed as dates and printed back in the
        format of SQLite. *)
    format_call_time : DataFrame -> outcome DataFrame;
    (** [cursor.execute(statement)] and [conn.commit()] *)
    cursor_execute : string -> Connection -> World -> outcome unit * World;
    conn_commit : Connection -> World -> outcome unit * World;
    (** [df.to_sql(table_name, conn, if_exists='replace', index=False)] *)
    to_sql : string -> DataFrame -> Connection -> World -> outcome unit * World;
    (** [str(e)] for the [KeyError] of a selection of columns, given the
        labels that are missing. *)
    key_error_str : list string -> string }.

Section Database.

Context {env : Environment} {storage : Storage}.

Definition DATABASE_NAME : string := "call_records.db".

(** [pd.DataFrame({"error": [str(e)]})] *)
Definition error_frame (e : exception) : DataFrame :=
  {| columns := ["error"]; rows := [[exc_str e]] |}.

(** The positions of a label among the column labels. *)
Fixpoint positions (label : string) (labels : list string) (i : nat) : list nat :=
  match labels with
  | [] => []
  | l :: ls =>
      if String.eqb l label then i :: positions label ls (S i)
      else positions label ls (S i)
  end.

(** [df[labels]]: the columns with these labels, in the order of [labels];
    a label that no column carries is a [KeyError]. *)
Definition select_columns (labels : list string) (df : DataFrame) : outcome DataFrame :=
  match filter (fun l => match positions l (columns df) 0 with
                         | [] => true
                         | _ => false
                         end) labels with
  | [] =>
      let picked := flat_map (fun l => positions l (columns df) 0) labels in
      Returned {| columns := map (fun i => nth i (columns df) EmptyString) picked;
                  rows := map (fun row => map (fun i => nth i row EmptyString) picked)
                            (rows df) |}
  | missing =>
      Raised {| exc_class := OtherException "KeyError";
                exc_str := key_error_str missing |}
  end.

(** [df.columns = labels]: a [ValueError] unless there is one label per
    column. *)
Definition set_columns (labels : list string) (df : DataFrame) : outcome DataFrame :=
  if Nat.eqb (length labels) (length (columns df)) then
    Returned {| columns := labels; rows := rows df |}
  else
    Raised {| exc_class := ValueError;
              exc_str := "Length mismatch: Expected axis has "
                         ++ PyStr.of_nat (length (columns df))
                         ++ " elements, new values have "
                         ++ PyStr.of_nat (length labels) ++ " elements" |}.

(** [execute_sql_query(query)] *)
Definition db_execute_sql_query (query : string) (w : World) : outcome DataFrame * World :=
  match sqlite3_connect DATABASE_NAME w with
  | (Raised e, w1) => (Raised e, w1)
  | (Returned conn, w1) =>
      match read_sql_query query conn w1 with
      | (Returned df, w2) => (Returned df, conn_close conn w2)
      | (Raised e, w2) => (Returned (error_frame e), conn_close conn w2)
      end
  end.

(** The [try] block of [get_table_schema] after the query. *)
Definition shape_schema (schema_df : DataFrame) : outcome DataFrame :=
  if negb (empty schema_df) then
    match select_columns ["name"; "type"; "notnull"; "pk"] schema_df with
    | Returned selected =>
        set_columns ["Column Name"; "Data Type"; "Not Null"; "Primary Key"] selected
    | Raised e => Raised e
    end
  else Returned schema_df.

(** [get_table_schema(table_name)] *)
Definition db_get_table_schema (table_name : string) (w : World)
  : outcome DataFrame * World :=
  match sqlite3_connect DATABASE_NAME w with
  | (Raised e, w1) => (Raised e, w1)
  | (Returned conn, w1) =>
      match read_sql_query ("PRAGMA table_info(" ++ table_name ++ ");") conn w1 with
      | (Returned schema_df, w2) =>
          match shape_schema schema_df with
          | Returned df => (Returned df, conn_close conn w2)
          | Raised e => (Returned (error_frame e), conn_close conn w2)
          end
      | (Raised e, w2) => (Returned (error_frame e), conn_close conn w2)
      end
  end.

(** The [try] block of [init_db_from_csv]. *)
Definition load_csv (csv_path table_name : string) (conn : Connection) (w : World)
  : outcome unit * World :=
  match read_csv csv_path w with
  | (Raised e, w1) => (Raised e, w1)
  | (Returned df, w1) =>
      match (if existsb (String.eqb "call_time") (columns df)
             then format_call_time df else Returned df) with
      | Raised e => (Raised e, w1)
      | Returned df1 =>
          match cursor_execute ("DROP TABLE IF EXISTS " ++ table_name ++ ";") conn w1 with
          | (Raised e, w2) => (Raised e, w2)
          | (Returned _, w2) =>
              match conn_commit conn w2 with
              | (Raised e, w3) => (Raised e, w3)
              | (Returned _, w3) => to_sql table_name df1 conn w3
              end
          end
      end
  end.

(** [init_db_from_csv(csv_path, table_name)] *)
Definition init_db_from_csv (csv_path table_name : string) (w : World)
  : outcome bool * World :=
  if negb (path_exists csv_path w) then (Returned false, w)
  else
    match sqlite3_connect DATABASE_NAME w with
    | (Raised e, w1) => (Raised e, w1)
    | (Returned conn, w1) =>
        match load_csv csv_path table_name conn w1 with
        | (Returned _, w2) => (Returned true, conn_close conn w2)
        | (Raised _, w2) => (Returned false, conn_close conn w2)
        end
    end.

End Database.

(** ** More test doubles *)

Module Cases.

Import Demo.

(** A reasoning service that writes an action as text. *)
Definition action_as_text : scripted :=
  script [says "Action: sql_query(query='SELECT 1')"].

Definition answer_at_once : scripted := script [says "Final Answer: 42"].

(** Payloads on which [json.loads] raises something other than a
    [JSONDecodeError]: an integer of 4301 digits, and 1000 opening brackets. *)
Definition long_integer : string := PyStr.repeat "1" 4301.

Definition deep_brackets : string := PyStr.repeat "[" 1000.

(** A batch of three requests, the second with the long integer as its
    payload, and a reasoning service that would answer after it. *)
Definition overlong_batch : list ToolCall :=
  [request "sql_query" select_1; request "sql_query" long_integer;
   request "sql_query" select_1].

Definition overlong_then_answer : scripted :=
  script [calls overlong_batch; says "Final Answer: 42"].

(** One request whose payload is the deep brackets. *)
Definition nested_then_answer : scripted :=
  script [calls [request "sql_query" deep_brackets]; says "Final Answer: 42"].

(** An action whose argument text is an object literal, and one whose
    argument text runs over two lines. *)
Definition action_with_object : string := "Action: sql_query(" ++ select_1 ++ ")".

Definition action_on_two_lines : string :=
  "Action: sql_query(query='SELECT 1" ++ nl ++ "FROM call_records')".

Definition timed_out : scripted := script [Timeout "read timed out"].

(** An environment whose schema function reports a failure the way
    database.py does, as an error frame. *)
Definition no_such_table : exception :=
  {| exc_class := OtherException "DatabaseError";
     exc_str := "Execution failed on sql 'PRAGMA table_info(call_records);': no such table" |}.

Definition broken_schema (kwargs : dict json) (w : scripted) : outcome PyValue * scripted :=
  (Returned (VDataFrame {| columns := ["error"]; rows := [[exc_str no_such_table]] |}), w).

Definition broken_environment : Environment :=
  {| World := scripted;
     json_loads := PyJson.loads room;
     to_markdown := render;
     str_DataFrame := render;
     format_template := fun template tool_descriptions initial_db_info =>
       template ++ nl ++ tool_descriptions ++ nl ++ initial_db_info;
     validation_error_str := fun cls fields =>
       "1 validation error for " ++ cls ++ nl ++ PyStr.join nl (map fst fields);
     execute_sql_query := sql;
     get_table_schema := broken_schema;
     tools_prompts := prompts;
     requests_post := post |}.

Definition broken_agent : @ReActAgent broken_environment :=
  {| llm_client := client;
     tools := @ALL_TOOLS broken_environment;
     chat_history := [];
     _prompts := prompts |}.

(** A storage over the scripted world: one table, [call_records], with two
    columns; every operation leaves its name in the record of queries. *)
Definition noted (event : string) (w : scripted) : scripted :=
  {| replies := replies w; queries := queries w ++ [event] |}.

Definition pragma_answer : DataFrame :=
  {| columns := ["cid"; "name"; "type"; "notnull"; "dflt_value"; "pk"];
     rows := [["0"; "call_id"; "INTEGER"; "0"; "None"; "1"];
              ["1"; "call_type"; "TEXT"; "0"; "None"; "0"]] |}.

Definition query_frame (query : string) (conn : unit) (w : scripted)
  : outcome DataFrame * scripted :=
  if String.eqb query "PRAGMA table_info(call_records);" then
    (Returned pragma_answer, noted query w)
  else if PyStr.startswith query "PRAGMA table_info(" then
    (Returned {| columns := ["cid"; "name"; "type"; "notnull"; "dflt_value"; "pk"];
                 rows := [] |}, noted query w)
  else if PyStr.startswith query "SELECT" then
    (Returned {| columns := ["n"]; rows := [["3"]] |}, noted query w)
  else
    (Raised {| exc_class := OtherException "DatabaseError";
               exc_str := "Execution failed on sql '" ++ query ++ "': syntax error" |},
     noted query w).

Definition storage : @Storage environment :=
  {| Connection := unit;
     path_exists := fun path (w : @World environment) => String.eqb path "data/sample_call_records.csv";
     sqlite3_connect := fun file (w : @World environment) => (Returned tt, noted ("connect " ++ file) w);
     conn_close := fun (conn : unit) (w : @World environment) => noted "close" w;
     read_sql_query := query_frame;
     read_csv := fun path (w : @World environment) =>
       (Returned {| columns := ["call_id"; "call_time"];
                    rows := [["1"; "2024-01-01 10:00"]] |}, noted ("read " ++ path) w);
     format_call_time := fun df => Returned df;
     cursor_execute := fun statement (conn : unit) (w : @World environment) => (Returned tt, noted statement w);
     conn_commit := fun (conn : unit) (w : @World environment) => (Returned tt, noted "commit" w);
     to_sql := fun table_name df (conn : unit) (w : @World environment) => (Returned tt, noted ("write " ++ table_name) w);
     key_error_str := fun missing => "[" ++ PyStr.join ", " missing ++ "] not in index" |}.

End Cases.

(** ** Facts about text *)

Section TextFacts.

Import PyStr.

Lemma append_assoc (a b c : string) : (a ++ b) ++ c = a ++ b ++ c.
Proof. induction a as [|x a IH]; simpl; [reflexivity | now rewrite IH]. Qed.

Lemma length_append (a b : string) :
  String.length (a ++ b) = String.length a + String.length b.
Proof. induction a as [|x a IH]; simpl; [reflexivity | now rewrite IH]. Qed.

Lemma slice_to_length (a b : string) : slice_to (String.length a) (a ++ b) = a.
Proof. induction a as [|x a IH]; simpl; [now destruct b | now rewrite IH]. Qed.

Lemma slice_to_append (a b : string) :
  slice_to (String.length (a ++ b) - String.length b) (a ++ b) = a.
Proof.
  rewrite length_append.
  replace (String.length a + String.length b - String.length b)
    with (String.length a) by lia.
  apply slice_to_length.
Qed.

Lemma slice_from_append (a b : string) : slice_from (String.length a) (a ++ b) = b.
Proof. induction a as [|x a IH]; simpl; [reflexivity | exact IH]. Qed.

Lemma startswith_append (p s : string) : startswith (p ++ s) p = true.
Proof.
  unfold startswith. induction p as [|x p IH]; simpl; [now destruct s |].
  destruct (ascii_dec x x); [exact IH | contradiction].
Qed.

(** The case analysis on the 256 characters. *)
Ltac each_char c :=
  destruct c as [[] [] [] [] [] [] [] []]; vm_compute; try reflexivity;
  try discriminate.

Lemma isspace_lower_char (c : ascii) : isspace (lower_char c) = isspace c.
Proof. each_char c. Qed.

Lemma isspace_not_word (c : ascii) : isword c = true -> isspace c = false.
Proof. each_char c. Qed.

Lemma lower_char_paren (c : ascii) :
  Ascii.eqb (lower_char c) (lower_char ")") = Ascii.eqb c ")".
Proof. each_char c. Qed.

Lemma rstrip_by_cons (p : ascii -> bool) (c : ascii) (s : string) :
  p c = false -> rstrip_by p (String c s) = String c (rstrip_by p s).
Proof. intros H. simpl. rewrite H. now destruct (rstrip_by p s). Qed.

Lemma rstrip_by_prefix (p : ascii -> bool) (m : string) (c : ascii) (s : string) :
  p c = false ->
  rstrip_by p (m ++ String c s) = m ++ String c (rstrip_by p s).
Proof.
  intros H. induction m as [|x m IH].
  - now apply rstrip_by_cons.
  - simpl. rewrite IH. now destruct m.
Qed.

Lemma lstrip_by_stop (p : ascii -> bool) (c : ascii) (s : string) :
  p c = false -> lstrip_by p (String c s) = String c s.
Proof. intros H. simpl. now rewrite H. Qed.

Lemma split_once_mem (sep : ascii) (s : string) :
  mem sep s = match split_once sep s with Some _ => true | None => false end.
Proof.
  induction s as [|c s IH]; simpl; [reflexivity |].
  rewrite (Ascii.eqb_sym sep c).
  destruct (Ascii.eqb c sep); simpl; [reflexivity |].
  rewrite IH. now destruct (split_once sep s) as [[k v]|].
Qed.

Lemma append_empty (a : string) : a ++ EmptyString = a.
Proof. induction a as [|x a IH]; simpl; [reflexivity | now rewrite IH]. Qed.

Lemma split_not_nil (sep : ascii) (s : string) : split sep s <> [].
Proof.
  destruct s as [|c s]; cbn [split]; [discriminate |].
  destruct (Ascii.eqb c sep); [discriminate |]. now destruct (split sep s).
Qed.

Lemma join_cons (sep p : string) (ps : list string) :
  ps <> [] -> join sep (p :: ps) = p ++ sep ++ join sep ps.
Proof. destruct ps; [contradiction | reflexivity]. Qed.

(** Joining the pieces of a text with the separator gives the text back. *)
Lemma join_split (sep : ascii) (s : string) :
  join (String sep EmptyString) (split sep s) = s.
Proof.
  induction s as [|c s IH]; [reflexivity |]. cbn [split].
  pose proof (split_not_nil sep s) as Hne.
  destruct (Ascii.eqb_spec c sep) as [->|Hc].
  - rewrite join_cons by exact Hne. now rewrite IH.
  - destruct (split sep s) as [|w ws]; [contradiction |].
    destruct ws as [|w' ws].
    + cbn [join] in *. now rewrite IH.
    + rewrite join_cons by discriminate. rewrite join_cons in IH by discriminate.
      now rewrite <- IH.
Qed.

Lemma split_no_sep (sep : ascii) (s : string) :
  Forall (fun piece => mem sep piece = false) (split sep s).
Proof.
  induction s as [|c s IH]; cbn [split]; [now repeat constructor |].
  destruct (Ascii.eqb_spec c sep) as [->|Hc].
  - constructor; [reflexivity | exact IH].
  - destruct (split sep s) as [|w ws]; [now repeat constructor; cbn;
      destruct (Ascii.eqb_spec sep c); [congruence |] |].
    inversion IH as [|? ? Hw Hws]. subst. constructor; [| exact Hws].
    cbn [mem]. rewrite Hw. destruct (Ascii.eqb_spec sep c); [congruence | reflexivity].
Qed.

(** [split_once] cuts at the first separator. *)
Lemma split_once_cut (sep : ascii) (s k v : string) :
  split_once sep s = Some (k, v) -> s = k ++ String sep v /\ mem sep k = false.
Proof.
  revert k. induction s as [|c s IH]; intros k H; cbn [split_once] in H; [discriminate H |].
  destruct (Ascii.eqb_spec c sep) as [->|Hc].
  - injection H as <- <-. now split.
  - destruct (split_once sep s) as [[k' v']|]; [| discriminate H].
    injection H as <- <-. destruct (IH k' eq_refl) as (-> & Hk).
    split; [reflexivity |]. cbn [mem]. rewrite Hk.
    destruct (Ascii.eqb_spec sep c); [congruence | reflexivity].
Qed.

Lemma contains_refl (s : string) : contains s s.
Proof. exists EmptyString, EmptyString. cbn. now rewrite append_empty. Qed.

Lemma contains_trans (a b c : string) : contains a b -> contains b c -> contains a c.
Proof.
  intros (p1 & q1 & ->) (p2 & q2 & ->). exists (p1 ++ p2), (q2 ++ q1).
  now rewrite !append_assoc.
Qed.

Lemma contains_joined (sep piece : string) (pieces : list string) :
  In piece pieces -> contains (join sep pieces) piece.
Proof.
  induction pieces as [|p ps IH]; intros Hin; [destruct Hin |].
  destruct ps as [|p' ps].
  - destruct Hin as [<- | []]. apply contains_refl.
  - rewrite join_cons by discriminate. destruct Hin as [<- | Hin].
    + now exists EmptyString, (sep ++ join sep (p' :: ps)).
    + destruct (IH Hin) as (pre & post & ->).
      exists (p ++ sep ++ pre), post. now rewrite !append_assoc.
Qed.

Lemma contains_piece (sep : ascii) (s piece : string) :
  In piece (split sep s) -> contains s piece.
Proof.
  intros Hin. rewrite <- (join_split sep s) at 1. now apply contains_joined.
Qed.

Lemma lstrip_by_head (p : ascii -> bool) (s : string) :
  match lstrip_by p s with
  | EmptyString => True
  | String c _ => p c = false
  end.
Proof.
  induction s as [|c s IH]; [exact I |]. cbn [lstrip_by].
  destruct (p c) eqn:Hc; [exact IH | exact Hc].
Qed.

(** What [lstrip_by] and [rstrip_by] take away. *)
Lemma lstrip_by_cut (p : ascii -> bool) (s : string) :
  exists l, s = l ++ lstrip_by p s /\ all p l = true.
Proof.
  induction s as [|c s IH]; [now exists EmptyString |]. cbn [lstrip_by].
  destruct (p c) eqn:Hc; [| now exists EmptyString].
  destruct IH as (l & Hs & Hl). exists (String c l). cbn. rewrite Hc, Hl.
  split; [now rewrite <- Hs | reflexivity].
Qed.

Lemma rstrip_by_cut (p : ascii -> bool) (s : string) :
  exists r, s = rstrip_by p s ++ r /\ all p r = true.
Proof.
  induction s as [|c s IH]; [now exists EmptyString |]. cbn [rstrip_by].
  destruct IH as (r & Hs & Hr).
  destruct (rstrip_by p s) as [|d t] eqn:Ht.
  - destruct (p c) eqn:Hc.
    + exists (String c s). cbn [String.append all]. rewrite Hc. cbn in Hs. subst r.
      now split.
    + exists s. cbn in Hs. subst r. now split.
  - exists r. cbn [String.append]. split; [now rewrite Hs | exact Hr].
Qed.

Lemma rstrip_by_last (p : ascii -> bool) (s t : string) (c : ascii) :
  rstrip_by p s = t ++ String c EmptyString -> p c = false.
Proof.
  revert t. induction s as [|d s IH]; intros t H; cbn [rstrip_by] in H.
  - now destruct t.
  - destruct (rstrip_by p s) as [|e r] eqn:Hr.
    + destruct (p d) eqn:Hd; [now destruct t |].
      destruct t as [|x t]; cbn in H.
      * now injection H as <-.
      * injection H as _ H. now destruct t.
    + destruct t as [|x t]; cbn in H; [discriminate H |].
      injection H as _ H. now apply (IH t).
Qed.

(** [strip_by] trims. *)
Lemma strip_by_trimmed (p : ascii -> bool) (s : string) : trimmed p s (strip_by p s).
Proof.
  unfold strip_by. destruct (lstrip_by_cut p s) as (l & Hs & Hl).
  destruct (rstrip_by_cut p (lstrip_by p s)) as (r & Ht & Hr).
  exists l, r. split; [now rewrite <- Ht |]. split; [exact Hl |]. split; [exact Hr |].
  split.
  - intros c t' Heq. rewrite Heq in Ht. cbn in Ht.
    pose proof (lstrip_by_head p s) as Hh. rewrite Ht in Hh. exact Hh.
  - intros t' c Heq. now apply (rstrip_by_last p _ _ _ Heq).
Qed.

(** Every part of a text is among its [parts]. *)
Lemma prefixes_append (a b : string) : In a (prefixes (a ++ b)).
Proof.
  induction a as [|c a IH]; [destruct b; now left |].
  cbn [String.append prefixes]. right. now apply in_map.
Qed.

Lemma parts_contains (s part : string) : contains s part -> In part (parts s).
Proof.
  intros (pre & post & ->). induction pre as [|c pre IH].
  - cbn [String.append]. destruct (part ++ post) eqn:H; cbn [parts];
      apply in_or_app; left; rewrite <- H; apply prefixes_append.
  - cbn [String.append parts]. apply in_or_app. now right.
Qed.

End TextFacts.

(** ** Facts about the matcher *)

Section MatcherFacts.

Import PyStr Re.

(** A greedy run goes as far as it can when what follows then matches. *)
Lemma star_longest (p : ascii -> bool) (w rest : string) (gs : groups) (k : cont)
    (r : groups) :
  all p w = true ->
  star p rest gs k = Some r ->
  star p (w ++ rest) gs k = Some r.
Proof.
  intros Hw Hr. induction w as [|c w IH]; simpl in *; [exact Hr |].
  apply andb_true_iff in Hw as [Hc Hw]. rewrite Hc, (IH Hw). reflexivity.
Qed.

Lemma star_stop (p : ascii -> bool) (c : ascii) (s : string) (gs : groups) (k : cont) :
  p c = false -> star p (String c s) gs k = k (String c s) gs.
Proof. intros H. simpl. now rewrite H. Qed.

(** A continuation that needs a character of class [q] first. *)
Definition needs (q : ascii -> bool) (k : cont) : Prop :=
  forall s gs,
    match s with
    | String c _ => q c = false
    | EmptyString => True
    end -> k s gs = None.

(** No split of a run works when no closing parenthesis is on the line. *)
Lemma star_blocked (s : string) (gs : groups) (k : cont) :
  needs (fun c => Ascii.eqb c ")") k ->
  mem ")" (first_line s) = false ->
  star notnewline s gs k = None.
Proof.
  intros Hk. induction s as [|c s IH]; intros Hs.
  - simpl. now apply Hk.
  - simpl in *. destruct (notnewline c) eqn:Hc.
    + simpl in Hs. apply orb_false_iff in Hs as [Hc' Hs].
      rewrite (IH Hs). apply Hk. now rewrite Ascii.eqb_sym.
    + apply Hk. unfold notnewline in Hc. apply negb_false_iff in Hc.
      apply N.eqb_eq in Hc. destruct (Ascii.eqb_spec c ")") as [->|]; [|reflexivity].
      discriminate Hc.
Qed.

(** The greedy run of [.] stops before the last closing parenthesis of the
    line. *)
Lemma star_last_paren (args rest : string) (gs : groups) (k : cont) (r : groups) :
  needs (fun c => Ascii.eqb c ")") k ->
  all notnewline args = true ->
  mem ")" (first_line rest) = false ->
  k (String ")" rest) gs = Some r ->
  star notnewline (args ++ String ")" rest) gs k = Some r.
Proof.
  intros Hk Ha Hrest Hr. apply star_longest; [exact Ha |].
  simpl. now rewrite (star_blocked rest gs k Hk Hrest).
Qed.

Lemma exec_literal (m l rest : string) (gs : groups) (k : cont) :
  lower m = lower l ->
  exec (literal true l) (m ++ rest) gs k = k rest gs.
Proof.
  revert m. induction l as [|c l IH]; intros [|d m] H; try discriminate H.
  - reflexivity.
  - simpl in H. injection H as Hc Hm. simpl. rewrite Hc, Ascii.eqb_refl.
    now apply IH.
Qed.

(** What the pattern of the action branch extracts. *)
Lemma match_action_pattern (m ws name args rest : string) :
  lower m = "action:" ->
  all isspace ws = true ->
  name <> EmptyString ->
  all isword name = true ->
  all notnewline args = true ->
  mem ")" (first_line rest) = false ->
  match_ action_pattern (m ++ ws ++ name ++ "(" ++ args ++ ")" ++ rest)
  = Some [name; args].
Proof.
  intros Hm Hws Hne Hname Hargs Hrest.
  destruct name as [|n name]; [contradiction |].
  simpl in Hname. apply andb_true_iff in Hname as [Hn Hname].
  unfold match_, action_pattern.
  cbn [exec]. rewrite exec_literal by exact Hm.
  cbn [exec]. apply star_longest; [exact Hws |].
  cbn [String.append]. rewrite star_stop by now apply isspace_not_word.
  unfold plus. cbn [exec]. rewrite Hn.
  apply star_longest; [exact Hname |].
  rewrite star_stop by reflexivity.
  change (String n (name ++ String "(" (args ++ String ")" rest)))
    with (String n name ++ String "(" (args ++ String ")" rest)).
  rewrite slice_to_append.
  cbn [exec lit]. rewrite Ascii.eqb_refl.
  apply star_last_paren; [ | exact Hargs | exact Hrest | ].
  - intros [|c s] gs H; [reflexivity |]. now rewrite lower_char_paren, H.
  - cbn [exec lit]. rewrite Ascii.eqb_refl. rewrite slice_to_append. reflexivity.
Qed.

End MatcherFacts.

(** ** Facts about the interpreter of free text *)

Section InterpreterFacts.

Context {env : Environment}.

Import PyStr.

(** Take a marker apart, character by character, along the hypothesis that
    spells its lower-case form. *)
Ltac spell H :=
  repeat match type of H with
         | lower ?m = String _ _ =>
             destruct m as [|? m]; [discriminate H |];
             simpl in H; injection H as ? H
         | lower ?m = EmptyString =>
             destruct m; [clear H | discriminate H]
         end.

Lemma not_space_of_lower (c x : ascii) :
  lower_char c = x -> isspace x = false -> isspace c = false.
Proof. intros <- H. now rewrite isspace_lower_char in H. Qed.

Lemma content_lower_action (m rest : string) :
  lower m = "action:" ->
  exists tail, lower (strip (m ++ rest)) = "action:" ++ tail.
Proof.
  intros H. spell H.
  exists (lower (rstrip_by isspace rest)).
  unfold strip, strip_by. cbn [String.append].
  rewrite lstrip_by_stop by (eapply not_space_of_lower; [eassumption | reflexivity]).
  match goal with
  | |- context [rstrip_by _ (String ?c1 (String ?c2 (String ?c3 (String ?c4
                               (String ?c5 (String ?c6 (String ?c7 rest)))))))] =>
      change (String c1 (String c2 (String c3 (String c4
                (String c5 (String c6 (String c7 rest)))))))
        with (String c1 (String c2 (String c3 (String c4
                (String c5 (String c6 EmptyString))))) ++ String c7 rest)
  end.
  rewrite rstrip_by_prefix by (eapply not_space_of_lower; [eassumption | reflexivity]).
  cbn [String.append lower]. congruence.
Qed.

Lemma content_lower_final_answer (m rest : string) :
  lower m = "final answer:" ->
  exists tail, lower (strip (m ++ rest)) = "final answer:" ++ tail.
Proof.
  intros H. spell H.
  exists (lower (rstrip_by isspace rest)).
  unfold strip, strip_by. cbn [String.append].
  rewrite lstrip_by_stop by (eapply not_space_of_lower; [eassumption | reflexivity]).
  match goal with
  | |- context [rstrip_by _ (String ?c1 (String ?c2 (String ?c3 (String ?c4
                  (String ?c5 (String ?c6 (String ?c7 (String ?c8 (String ?c9
                  (String ?c10 (String ?c11 (String ?c12 (String ?c13 rest)))))))))))))] =>
      change (String c1 (String c2 (String c3 (String c4
                (String c5 (String c6 (String c7 (String c8 (String c9
                (String c10 (String c11 (String c12 (String c13 rest)))))))))))))
        with (String c1 (String c2 (String c3 (String c4
                (String c5 (String c6 (String c7 (String c8 (String c9
                (String c10 (String c11 (String c12 EmptyString)))))))))))
              ++ String c13 rest)
  end.
  rewrite rstrip_by_prefix by (eapply not_space_of_lower; [eassumption | reflexivity]).
  cbn [String.append lower]. congruence.
Qed.

(** X12: A response that begins with the final-answer marker, with nothing
    before it, is a final answer: the text after the marker. *)
Lemma parse_final_answer (self : ReActAgent) (m rest : string) :
  lower m = "final answer:" ->
  _parse_llm_response self (m ++ rest) = (Returned (FinalAnswer (strip rest)), self).
Proof.
  intros Hm. unfold _parse_llm_response.
  destruct (content_lower_final_answer m rest Hm) as [tail ->].
  replace (startswith ("final answer:" ++ tail) "thought:") with false
    by now vm_compute.
  replace (startswith ("final answer:" ++ tail) "action:") with false
    by now vm_compute.
  rewrite startswith_append.
  assert (Hlen : String.length m = String.length "final answer:").
  { clear -Hm. spell Hm. reflexivity. }
  rewrite <- Hlen, slice_from_append. reflexivity.
Qed.

End InterpreterFacts.

(** ** Facts about the reading of the argument text of an action *)

Section ArgumentFacts.

Context {env : Environment}.

Import PyStr.

Lemma dict_set_keys {V : Type} (k : string) (v : V) (d : dict V) :
  NoDup (map fst d) ->
  NoDup (map fst (dict_set k v d))
  /\ forall k' v', In (k', v') (dict_set k v d) -> (k', v') = (k, v) \/ In (k', v') d.
Proof.
  induction d as [|[k0 v0] d IH]; cbn [dict_set map fst]; intros Hd.
  - split; [repeat constructor; intros [] |]. intros k' v' [H | []]. left. now symmetry.
  - inversion Hd as [|? ? Hk0 Hd']. subst.
    destruct (String.eqb_spec k k0) as [->|Hne].
    + split; [exact Hd |]. intros k' v' [H | H]; [left; now symmetry | right; now right].
    + destruct (IH Hd') as (Hnd & Hin). split.
      * cbn [map fst]. constructor; [| exact Hnd].
        intros Hk. apply in_map_iff in Hk as ([k1 v1] & Hk1 & Hin1). cbn in Hk1. subst k1.
        destruct (Hin _ _ Hin1) as [Heq | Hold].
        -- injection Heq as -> _. now apply Hne.
        -- apply Hk0. apply in_map_iff. now exists (k0, v1).
      * intros k' v' [H | H]; [right; now left |].
        destruct (Hin _ _ H) as [? | ?]; [now left | right; now right].
Qed.

(** After [d[k] = v] the key [k] is present, and so is every key of [d]. *)
Lemma dict_set_has {V : Type} (k : string) (v : V) (d : dict V) :
  In k (map fst (dict_set k v d))
  /\ forall k', In k' (map fst d) -> In k' (map fst (dict_set k v d)).
Proof.
  induction d as [|[k0 v0] d (IH1 & IH2)]; cbn [dict_set map fst].
  - split; [now left | intros k' []].
  - destruct (String.eqb_spec k k0) as [->|Hne]; cbn [map fst].
    + split; [now left | intros k' H; exact H].
    + split; [now right |]. intros k' [H | H]; [now left | right; now apply IH2].
Qed.

Lemma all_ext (p q : ascii -> bool) (s : string) :
  (forall c, p c = q c) -> all p s = all q s.
Proof. intros H. induction s as [|c s IH]; cbn; [reflexivity | now rewrite H, IH]. Qed.

Lemma trimmed_ext (p q : ascii -> bool) (s t : string) :
  (forall c, p c = q c) -> trimmed p s t -> trimmed q s t.
Proof.
  intros H (l & r & Hs & Hl & Hr & Hh & Ht). exists l, r.
  rewrite <- (all_ext p q l H), <- (all_ext p q r H).
  repeat split; try assumption.
  - intros c t' Heq. rewrite <- H. now apply (Hh c t').
  - intros t' c Heq. rewrite <- H. now apply (Ht t' c).
Qed.

Lemma strip_chars_quotes (text : string) :
  trimmed is_quote text (strip_chars quotes text).
Proof.
  apply (trimmed_ext (fun c => mem c quotes)); [| apply strip_by_trimmed].
  intros c. unfold quotes, is_quote. cbn [mem]. now rewrite orb_false_r.
Qed.

Lemma pairs_of_cut (pieces : list string) : pairs_of pieces (flat_map cut pieces).
Proof.
  induction pieces as [|piece pieces IH]; [constructor |]. cbn [flat_map]. unfold cut at 1.
  destruct (split_once "=" piece) as [[key value]|] eqn:H.
  - destruct (split_once_cut _ _ _ _ H) as (-> & Hk). now apply pairs_cut.
  - apply pairs_skip; [| exact IH]. now rewrite split_once_mem, H.
Qed.

(** One round of the fallback loop that does not raise. *)
Lemma parse_key_value_returned (args args' : dict json) (piece : string) :
  parse_key_value args piece = Returned args' ->
  NoDup (map fst args) ->
  NoDup (map fst args')
  /\ (forall k, In k (map fst args) -> In k (map fst args'))
  /\ (forall k v,
        In (k, v) args' ->
        In (k, v) args
        \/ exists key value,
             In (key, value) (cut piece)
             /\ trimmed isspace key k /\ value_reads value v)
  /\ (forall key value,
        In (key, value) (cut piece) ->
        exists k, trimmed isspace key k /\ In k (map fst args')).
Proof.
  unfold parse_key_value, cut. rewrite split_once_mem.
  destruct (split_once "=" piece) as [[key value]|] eqn:Hcut.
  - intros H Hnd.
    assert (Hset : exists v, args' = dict_set (strip key) v args /\ value_reads value v).
    { destruct (json_loads (strip value)) as [v | e | e] eqn:Hv; [| | discriminate H];
        injection H as <-; eexists; (split; [reflexivity |]);
        exists (strip value); (split; [apply strip_by_trimmed |]); rewrite Hv.
      - reflexivity.
      - eexists. split; [apply strip_chars_quotes | reflexivity]. }
    destruct Hset as (v & -> & Hv).
    destruct (dict_set_keys (strip key) v args Hnd) as (Hnd' & Hin).
    destruct (dict_set_has (strip key) v args) as (Hk & Hkeep).
    split; [exact Hnd' |]. split; [exact Hkeep |]. split.
    + intros k x Hkx. destruct (Hin k x Hkx) as [Heq | Hold]; [| now left].
      injection Heq as -> ->. right. exists key, value.
      split; [now left |]. split; [apply strip_by_trimmed | exact Hv].
    + intros key' value' [Heq | []]. injection Heq as <- <-.
      exists (strip key). split; [apply strip_by_trimmed | exact Hk].
  - intros H Hnd. injection H as <-.
    split; [exact Hnd |]. split; [now intros k Hk |]. split.
    + intros k v Hkv. now left.
    + intros key value [].
Qed.

Lemma parse_pairs_returned (pieces : list string) (args d : dict json) :
  parse_pairs pieces args = Returned d ->
  NoDup (map fst args) ->
  NoDup (map fst d)
  /\ (forall k, In k (map fst args) -> In k (map fst d))
  /\ (forall k v,
        In (k, v) d ->
        In (k, v) args
        \/ exists key value,
             In (key, value) (flat_map cut pieces)
             /\ trimmed isspace key k /\ value_reads value v)
  /\ (forall key value,
        In (key, value) (flat_map cut pieces) ->
        exists k, trimmed isspace key k /\ In k (map fst d)).
Proof.
  revert args. induction pieces as [|piece pieces IH]; intros args H Hnd; cbn [parse_pairs] in H.
  - injection H as <-. split; [exact Hnd |]. split; [now intros k Hk |].
    split; [intros k v Hkv; now left | intros key value []].
  - destruct (parse_key_value args piece) as [args'|e] eqn:Hstep; [| discriminate H].
    destruct (parse_key_value_returned _ _ _ Hstep Hnd) as (Hnd1 & Hkeep1 & Hin1 & Hall1).
    destruct (IH _ H Hnd1) as (Hnd2 & Hkeep2 & Hin2 & Hall2).
    split; [exact Hnd2 |]. split; [intros k Hk; apply Hkeep2, Hkeep1, Hk |]. split.
    + intros k v Hkv. cbn [flat_map].
      destruct (Hin2 k v Hkv) as [Hmid | (key & value & Hc & Hrest)].
      * destruct (Hin1 k v Hmid) as [Hold | (key & value & Hc & Hrest)]; [now left |].
        right. exists key, value. split; [apply in_or_app; now left | exact Hrest].
      * right. exists key, value. split; [apply in_or_app; now right | exact Hrest].
    + intros key value Hc. cbn [flat_map] in Hc. apply in_app_or in Hc as [Hc | Hc].
      * destruct (Hall1 key value Hc) as (k & Hk & Hkin). exists k.
        split; [exact Hk | apply Hkeep2, Hkin].
      * exact (Hall2 key value Hc).
Qed.

(** The fallback loop raises only what the decoder raised on a value. *)
Lemma parse_pairs_raised (pieces : list string) (args : dict json) (e : exception) :
  parse_pairs pieces args = Raised e ->
  exists piece key value,
    In piece pieces
    /\ split_once "=" piece = Some (key, value)
    /\ json_loads (strip value) = DecodeRaised e.
Proof.
  revert args. induction pieces as [|piece pieces IH]; intros args H; cbn [parse_pairs] in H;
    [discriminate H |].
  destruct (parse_key_value args piece) as [args'|e'] eqn:Hstep.
  - destruct (IH _ H) as (p & key & value & Hin & Hrest). exists p, key, value.
    split; [now right | exact Hrest].
  - injection H as ->. unfold parse_key_value in Hstep.
    destruct (mem "=" piece); [| discriminate Hstep].
    destruct (split_once "=" piece) as [[key value]|] eqn:Hcut; [| discriminate Hstep].
    destruct (json_loads (strip value)) as [v | e' | e'] eqn:Hv; try discriminate Hstep.
    injection Hstep as ->. exists piece, key, value. now split; [left |].
Qed.

Lemma contains_trimmed (p : ascii -> bool) (s t : string) : trimmed p s t -> contains s t.
Proof. intros (l & r & -> & _). now exists l, r. Qed.

(** The text that the decoder meets in the fallback is part of the
    argument text. *)
Lemma contains_value (args_str piece key value : string) :
  In piece (split "," args_str) ->
  split_once "=" piece = Some (key, value) ->
  contains ("{" ++ args_str ++ "}") (strip value).
Proof.
  intros Hin Hcut. destruct (split_once_cut _ _ _ _ Hcut) as (-> & _).
  apply (contains_trans _ args_str); [now exists "{", "}" |].
  apply (contains_trans _ _ _ (contains_piece _ _ _ Hin)).
  apply (contains_trans _ value); [now exists (key ++ "="), EmptyString;
    rewrite append_empty, append_assoc |].
  apply (contains_trimmed isspace). apply strip_by_trimmed.
Qed.

Lemma dict_set_in {V : Type} (k : string) (v : V) (d : dict V) :
  In (k, v) (dict_set k v d).
Proof.
  induction d as [|[k0 v0] d IH]; cbn [dict_set]; [now left |].
  destruct (String.eqb k k0); [now left | now right].
Qed.

Lemma dict_set_other {V : Type} (k k' : string) (v v' : V) (d : dict V) :
  k' <> k -> In (k, v) d -> In (k, v) (dict_set k' v' d).
Proof.
  intros Hne. induction d as [|[k0 v0] d IH]; cbn [dict_set]; intros Hin; [destruct Hin |].
  destruct (String.eqb_spec k' k0) as [->|Hk].
  - destruct Hin as [Heq | Hin]; [injection Heq as -> _; now destruct Hne | now right].
  - destruct Hin as [Heq | Hin]; [now left | right; now apply IH].
Qed.

(** An entry stays through the rounds that write under other keys. *)
Lemma parse_pairs_keeps (pieces : list string) (args d : dict json) (k : string) (v : json) :
  parse_pairs pieces args = Returned d ->
  In (k, v) args ->
  (forall key' value', In (key', value') (flat_map cut pieces) -> strip key' <> k) ->
  In (k, v) d.
Proof.
  revert args. induction pieces as [|piece pieces IH]; intros args H Hin Hother;
    cbn [parse_pairs] in H; [now injection H as <- |].
  destruct (parse_key_value args piece) as [args'|e] eqn:Hstep; [| discriminate H].
  apply (IH args' H).
  - unfold parse_key_value in Hstep. rewrite split_once_mem in Hstep.
    assert (Hcut : forall key' value', In (key', value') (cut piece) -> strip key' <> k).
    { intros key' value' Hc. apply (Hother key' value'). cbn [flat_map].
      apply in_or_app. now left. }
    unfold cut in Hcut.
    destruct (split_once "=" piece) as [[key value]|]; [| now injection Hstep as <-].
    specialize (Hcut key value (or_introl eq_refl)).
    destruct (json_loads (strip value)); [| | discriminate Hstep];
      injection Hstep as <-; now apply dict_set_other.
  - intros key' value' Hc. apply (Hother key' value'). cbn [flat_map].
    apply in_or_app. now right.
Qed.

(** Of the pairs that share a key, the last one gives the value. *)
Lemma parse_pairs_last (pieces : list string) (args d : dict json)
    (kvs1 kvs2 : list (string * string)) (key value : string) :
  parse_pairs pieces args = Returned d ->
  flat_map cut pieces = (kvs1 ++ (key, value) :: kvs2)%list ->
  (forall key' value', In (key', value') kvs2 -> strip key' <> strip key) ->
  exists v, In (strip key, v) d /\ value_reads value v.
Proof.
  revert args kvs1. induction pieces as [|piece pieces IH]; intros args kvs1 H Hkvs Hlater.
  - now destruct kvs1.
  - cbn [parse_pairs] in H. cbn [flat_map] in Hkvs.
    destruct (parse_key_value args piece) as [args'|e] eqn:Hstep; [| discriminate H].
    unfold parse_key_value in Hstep. rewrite split_once_mem in Hstep. unfold cut at 1 in Hkvs.
    destruct (split_once "=" piece) as [[key0 value0]|] eqn:Hcut.
    + destruct kvs1 as [|kv kvs1]; cbn [app] in Hkvs.
      * injection Hkvs as -> -> Hrest.
        assert (Hset : exists v, In (strip key, v) args' /\ value_reads value v).
        { destruct (json_loads (strip value)) as [v | e | e] eqn:Hv; [| | discriminate Hstep];
            injection Hstep as <-; eexists; (split; [apply dict_set_in |]);
            exists (strip value); (split; [apply strip_by_trimmed |]); rewrite Hv.
          - reflexivity.
          - eexists. split; [apply strip_chars_quotes | reflexivity]. }
        destruct Hset as (v & Hin & Hv). exists v. split; [| exact Hv].
        apply (parse_pairs_keeps pieces args' d _ _ H Hin).
        intros key' value' Hc. apply (Hlater key' value'). now rewrite <- Hrest.
      * injection Hkvs as _ Hrest. exact (IH args' kvs1 H Hrest Hlater).
    + injection Hstep as <-. exact (IH args kvs1 H Hkvs Hlater).
Qed.

(** What the fallback loop returns holds the pairs of the pieces. *)
Lemma parse_pairs_holds (pieces : list string) (d : dict json) :
  parse_pairs pieces [] = Returned d -> holds_pairs (flat_map cut pieces) d.
Proof.
  intros Hp.
  destruct (parse_pairs_returned _ _ _ Hp (NoDup_nil _)) as (Hnd & _ & Hin & Hall).
  split; [exact Hnd |]. split; [| split; [exact Hall |]].
  - intros k v Hkv. destruct (Hin k v Hkv) as [[] | H]. exact H.
  - intros kvs1 key value kvs2 Hkvs Hlater.
    destruct (parse_pairs_last pieces [] d kvs1 kvs2 key value Hp Hkvs) as (v & Hv & Hr).
    + intros key' value' Hin' Heq.
      apply (Hlater key' value' (strip key) Hin'); [apply strip_by_trimmed |].
      rewrite <- Heq. apply strip_by_trimmed.
    + exists (strip key), v. split; [apply strip_by_trimmed | now split].
Qed.

(** The arguments of an action, when the decoder raises nothing but
    [JSONDecodeError] on the argument text. *)
Lemma parse_action_args_reads (args_str : string) :
  decodes_quietly ("{" ++ args_str ++ "}") ->
  exists v, parse_action_args args_str = Returned v /\ reads_as args_str v.
Proof.
  intros Hq. unfold parse_action_args, reads_as.
  destruct (json_loads ("{" ++ args_str ++ "}")) as [object | e | e] eqn:Hb.
  - now exists object.
  - destruct (parse_pairs (split "," args_str) []) as [d|x] eqn:Hp.
    + exists (JObject d). split; [reflexivity |].
      exists (split "," args_str), (flat_map cut (split "," args_str)), d.
      split; [| split; [apply pairs_of_cut | split; [| reflexivity]]].
      * split; [apply join_split |]. split; [apply split_not_nil | apply split_no_sep].
      * now apply parse_pairs_holds.
    + destruct (parse_pairs_raised _ _ _ Hp) as (piece & key & value & Hin & Hcut & Hv).
      exfalso. exact (Hq _ x (contains_value _ _ _ _ Hin Hcut) Hv).
  - exfalso. exact (Hq _ e (contains_refl _) Hb).
Qed.

(** A response that begins with the action marker and a call on one line
    is an action, with the arguments read from the argument text. *)
Lemma parse_action (self : ReActAgent) (m ws name args rest : string) :
  lower m = "action:" ->
  all isspace ws = true ->
  name <> EmptyString ->
  all isword name = true ->
  all notnewline args = true ->
  mem ")" (first_line rest) = false ->
  decodes_quietly ("{" ++ args ++ "}") ->
  exists v,
    _parse_llm_response self (m ++ ws ++ name ++ "(" ++ args ++ ")" ++ rest)
    = (Returned (Action name v), self)
    /\ reads_as args v.
Proof.
  intros Hm Hws Hne Hname Hargs Hrest Hq.
  destruct (parse_action_args_reads args Hq) as (v & Hv & Hr).
  exists v. split; [| exact Hr]. unfold _parse_llm_response.
  destruct (content_lower_action m (ws ++ name ++ "(" ++ args ++ ")" ++ rest) Hm)
    as [tail ->].
  rewrite match_action_pattern by assumption.
  rewrite Hv.
  replace (startswith ("action:" ++ tail) "thought:") with false
    by now vm_compute.
  rewrite startswith_append.
  reflexivity.
Qed.

(** The test double of the decoder raises nothing but [JSONDecodeError] on
    a text when it does so on each of its parts. *)
Lemma quiet_parts (text : string) :
  forallb (fun part => match PyJson.loads Demo.room part with
                       | DecodeRaised _ => false
                       | _ => true
                       end) (parts text) = true ->
  decodes_quietly (env := Demo.environment) text.
Proof.
  intros H part e Hpart Hraised. rewrite forallb_forall in H.
  specialize (H part (parts_contains _ _ Hpart)).
  change (json_loads part) with (PyJson.loads Demo.room part) in Hraised.
  now rewrite Hraised in H.
Qed.

End ArgumentFacts.

(** ** Facts about the loop *)

Section LoopFacts.

Context {env : Environment}.

Lemma tool_results_app (a b : list Turn) :
  tool_results (a ++ b) = (tool_results a ++ tool_results b)%list.
Proof. unfold tool_results. apply flat_map_app. Qed.

(** What one request does: it adds one tool-result turn, the last, which
    answers the request; or the decoder raises on the payload of a known
    tool something that [run] does not catch, and nothing is added. *)
Lemma dispatch_spec (st : RunState) (tc : ToolCall) :
  match dispatch st tc with
  | Next st' =>
      exists chunk obs,
        history st' = (history st ++ chunk)%list
        /\ tool_results chunk = [obs]
        /\ answers (tools (self st)) tc obs
  | Return _ _ _ => False
  | Raise e st' =>
      st' = st
      /\ exists tool,
           dict_get (call_name tc) (tools (self st)) = Some tool
           /\ json_loads (call_arguments tc) = DecodeRaised e
  end.
Proof.
  unfold dispatch.
  destruct (dict_get (call_name tc) (tools (self st))) as [tool|] eqn:Htool.
  - destruct (json_loads (call_arguments tc)) as [tool_args|e|e] eqn:Hargs.
    + destruct (observe tool tool_args
                  (world (append (ToolCallsMessage "assistant"
                                    [(mock_id, call_name tc, call_arguments tc)]) st)))
        as [observation_str w'] eqn:Hobs.
      exists [ToolCallsMessage "assistant" [(mock_id, call_name tc, call_arguments tc)];
              ToolMessage "tool" mock_id observation_str], observation_str.
      split; [unfold history; simpl; now rewrite <- app_assoc |].
      split; [reflexivity |].
      eapply answers_invoked; [exact Htool | exact Hargs |]. now rewrite Hobs.
    + eexists [_], _. split; [reflexivity |]. split; [reflexivity |].
      eapply answers_malformed; [exact Htool | exact Hargs | reflexivity].
    + split; [reflexivity |]. now exists tool.
  - eexists [_], _. split; [reflexivity |]. split; [reflexivity |].
    now apply answers_unknown.
Qed.

(** Nothing else of the run state that the later requests or calls depend
    on changes. *)
Lemma dispatch_keeps (st : RunState) (tc : ToolCall) :
  sent (flow_state (dispatch st tc)) = sent st
  /\ tools (self (flow_state (dispatch st tc))) = tools (self st)
  /\ llm_client (self (flow_state (dispatch st tc))) = llm_client (self st).
Proof.
  unfold dispatch.
  destruct (dict_get _ _) as [tool|]; [| now repeat split].
  destruct (json_loads _) as [tool_args|e|e]; [| now repeat split | now repeat split].
  destruct (observe _ _ _). now repeat split.
Qed.

Lemma dispatch_all_keeps (tcs : list ToolCall) (st : RunState) :
  sent (flow_state (dispatch_all tcs st)) = sent st
  /\ tools (self (flow_state (dispatch_all tcs st))) = tools (self st)
  /\ llm_client (self (flow_state (dispatch_all tcs st))) = llm_client (self st).
Proof.
  revert st. induction tcs as [|tc tcs IH]; intros st; [now repeat split |].
  cbn [dispatch_all]. pose proof (dispatch_keeps st tc) as (H1 & H2 & H3).
  destruct (dispatch st tc) as [st1 | exit result st1 | e st1]; cbn [flow_state] in *.
  - destruct (IH st1) as (H1' & H2' & H3'). repeat split; congruence.
  - now repeat split.
  - now repeat split.
Qed.

Lemma dispatch_all_app (a b : list ToolCall) (st : RunState) :
  dispatch_all (a ++ b) st
  = match dispatch_all a st with
    | Next st' => dispatch_all b st'
    | flow => flow
    end.
Proof.
  revert st. induction a as [|tc a IH]; intros st; [reflexivity |].
  cbn [app dispatch_all]. destruct (dispatch st tc); [apply IH | reflexivity | reflexivity].
Qed.

(** A request whose payload the decoder can take goes on to the next. *)
Lemma dispatch_decodable (st : RunState) (tc : ToolCall) :
  decodable (tools (self st)) tc -> exists st', dispatch st tc = Next st'.
Proof.
  intros Hd. pose proof (dispatch_spec st tc) as H.
  destruct (dispatch st tc) as [st1 | | e st1]; [now exists st1 | destruct H |].
  destruct H as (_ & tool & Htool & He). destruct Hd as [Hnone | Hq].
  - congruence.
  - now destruct (Hq e).
Qed.

(** The same for a batch: the tool-result turns answer the requests one for
    one, in the order of the requests. *)
Lemma dispatch_all_spec (tcs : list ToolCall) (st : RunState) :
  Forall (decodable (tools (self st))) tcs ->
  exists st' new,
    dispatch_all tcs st = Next st'
    /\ history st' = (history st ++ new)%list
    /\ Forall2 (answers (tools (self st))) tcs (tool_results new).
Proof.
  revert st. induction tcs as [|tc tcs IH]; intros st Hd.
  - exists st, []. split; [reflexivity |]. split; [now rewrite app_nil_r | constructor].
  - inversion Hd as [|? ? Htc Htcs]. subst.
    pose proof (dispatch_spec st tc) as Hs. pose proof (dispatch_keeps st tc) as (_ & Ht & _).
    destruct (dispatch_decodable st tc Htc) as (st1 & H1). rewrite H1 in Hs, Ht.
    cbn [flow_state] in Ht. destruct Hs as (chunk & obs & Hh & Hr & Ha).
    rewrite <- Ht in Htcs. destruct (IH st1 Htcs) as (st' & new & H' & Hh' & Hf).
    exists st', (chunk ++ new)%list. cbn [dispatch_all]. rewrite H1.
    split; [exact H' |]. split; [now rewrite Hh', Hh, app_assoc |].
    rewrite tool_results_app, Hr. constructor; [exact Ha | now rewrite <- Ht].
Qed.

Lemma parse_keeps_agent (a : ReActAgent) (response_content : string) :
  snd (_parse_llm_response a response_content) = a.
Proof.
  unfold _parse_llm_response.
  repeat match goal with
         | |- context [if ?b then _ else _] => destruct b
         | |- context [match ?x with _ => _ end] => destruct x
         end; reflexivity.
Qed.

(** Every iteration makes one call, with the chat history as it stands. *)
Lemma iteration_sent (st : RunState) :
  sent (flow_state (iteration st)) = (sent st ++ [history st])%list.
Proof.
  unfold iteration.
  destruct (call_llm _ _ _ _) as [[tcs|content|content|content] w'].
  - now destruct (dispatch_all_keeps tcs (called st w')) as (-> & _).
  - destruct (_parse_llm_response _ _) as [[[]|] self']; reflexivity.
  - reflexivity.
  - reflexivity.
Qed.

Lemma iterate_sent (n : nat) (st st' : RunState) :
  iterate n st = Some st' -> length (sent st') = length (sent st) + n.
Proof.
  revert st. induction n as [|n IH]; intros st H; cbn [iterate] in H.
  - injection H as <-. lia.
  - pose proof (iteration_sent st) as Hs.
    destruct (iteration st) as [st1| |]; [| discriminate H | discriminate H].
    cbn [flow_state] in Hs. rewrite (IH _ H), Hs, length_app. simpl. lia.
Qed.

Lemma loop_sent (n : nat) (st : RunState) :
  length (sent (final (loop n st))) <= length (sent st) + n.
Proof.
  revert st. induction n as [|n IH]; intros st; cbn [loop].
  - simpl. lia.
  - pose proof (iteration_sent st) as Hs.
    destruct (iteration st) as [st1|exit result st1|e st1]; cbn [flow_state] in Hs.
    + specialize (IH st1). rewrite Hs, length_app in IH. simpl in IH. lia.
    + cbn [final]. rewrite Hs, length_app. simpl. lia.
    + cbn [final]. rewrite Hs, length_app. simpl. lia.
Qed.

(** The loop after [k] iterations that went on. *)
Lemma loop_iterate (k n : nat) (st st' : RunState) :
  iterate k st = Some st' -> loop (k + n) st = loop n st'.
Proof.
  revert st. induction k as [|k IH]; intros st H; cbn [iterate] in H.
  - now injection H as <-.
  - cbn [Nat.add loop].
    destruct (iteration st) as [st1| |]; [| discriminate H | discriminate H].
    now apply IH.
Qed.

Lemma loop_exhausted (n : nat) (st st' : RunState) :
  iterate n st = Some st' -> loop n st = Returns ExitMaxSteps max_steps_reached st'.
Proof.
  intros H. rewrite <- (Nat.add_0_r n). now rewrite (loop_iterate n 0 st st' H).
Qed.

Lemma start_sent (agent : ReActAgent) (task : string) (w : World) :
  sent (start agent task w) = [].
Proof. unfold start. now destruct (discover_schema agent w). Qed.

Lemma contains_intro (pre sub post : string) : PyStr.contains (pre ++ sub ++ post) sub.
Proof. now exists pre, post. Qed.

End LoopFacts.

(** ** The properties of the specification *)

Section Properties.

Context {env : Environment}.

(** C2: a run with a step budget of [max_steps] calls the reasoning service
    at most [max_steps] times; when that many iterations go by without a
    return, the run returns the fixed message, after exactly that many
    calls; a batch of call requests, whatever its length, spends one step;
    the default budget is 10. *)
Theorem step_budget (agent : ReActAgent) (task : string) (max_steps : Z) (w : World) :
  (0 <= max_steps)%Z ->
  (Z.of_nat (length (sent (final (run_trace agent task max_steps w)))) <= max_steps)%Z
  /\ (forall st',
        iterate (Z.to_nat max_steps) (start agent task w) = Some st' ->
        run_trace agent task max_steps w
        = Returns ExitMaxSteps "Max steps reached without providing a final answer." st'
        /\ run agent task max_steps w
           = Returned "Max steps reached without providing a final answer."
        /\ Z.of_nat (length (sent st')) = max_steps)
  /\ (forall (n : nat) (st : RunState) (tcs : list ToolCall) (w' : World),
        call_llm (llm_client (self st)) (history st) (capabilities (self st)) (world st)
        = (tool_calls_response tcs, w') ->
        loop (S n) st
        = match dispatch_all tcs (called st w') with
          | Next st' => loop n st'
          | Return exit result st' => Returns exit result st'
          | Raise e st' => Raises e st'
          end)
  /\ default_max_steps = 10%Z.
Proof.
  intros Hpos. unfold run, run_trace. repeat split.
  - pose proof (loop_sent (Z.to_nat max_steps) (start agent task w)) as H.
    rewrite start_sent in H. simpl in H. lia.
  - now apply loop_exhausted.
  - now rewrite (loop_exhausted _ _ _ H).
  - apply iterate_sent in H. rewrite start_sent in H. simpl in H. lia.
  - intros n st tcs w' Hcall. cbn [loop]. unfold iteration. now rewrite Hcall.
Qed.

(** C6: when a call of the reasoning service fails with a connection
    failure, the run returns at once a message that contains "Connection
    Error"; the failed call is the last call of the run. *)
Theorem connection_error_ends_run (agent : ReActAgent) (task : string)
    (max_steps : Z) (w : World) (k : nat) (st : RunState) (err : string) (w' : World) :
  iterate k (start agent task w) = Some st ->
  k < Z.to_nat max_steps ->
  post_completion (llm_client (self st)) (history st) (capabilities (self st)) (world st)
  = (ConnectionError err, w') ->
  run_trace agent task max_steps w
  = Returns ExitCommunicationError
      ("Agent terminated due to LLM communication error: Connection Error: " ++ err)
      (called st w')
  /\ run agent task max_steps w
     = Returned ("Agent terminated due to LLM communication error: Connection Error: "
                   ++ err)
  /\ (exists message,
        run agent task max_steps w = Returned message
        /\ PyStr.contains message "Connection Error")
  /\ length (sent (called st w')) = S k.
Proof.
  intros Hk Hlt Hpost.
  assert (Hrun : run_trace agent task max_steps w
                 = Returns ExitCommunicationError
                     ("Agent terminated due to LLM communication error: Connection Error: "
                        ++ err)
                     (called st w')).
  { unfold run_trace.
    replace (Z.to_nat max_steps) with (k + S (Z.to_nat max_steps - S k)) by lia.
    rewrite (loop_iterate _ _ _ _ Hk). cbn [loop]. unfold iteration, call_llm.
    rewrite Hpost. reflexivity. }
  repeat split.
  - exact Hrun.
  - unfold run. now rewrite Hrun.
  - eexists. unfold run. rewrite Hrun. split; [reflexivity |].
    exact (contains_intro "Agent terminated due to LLM communication error: "
             "Connection Error" (": " ++ err)).
  - cbn [called sent]. rewrite length_app, (iterate_sent _ _ _ Hk), start_sent.
    simpl. lia.
Qed.

(** C10: a decoded completion whose message holds neither call requests nor
    text is classified as "empty", and the run returns at once the fixed
    message for an unexpected response, by a return statement of its own;
    that call is the last call of the run. *)
Theorem empty_response_ends_run (agent : ReActAgent) (task : string)
    (max_steps : Z) (w : World) (k : nat) (st : RunState) (message : ChoiceMessage)
    (w' : World) :
  iterate k (start agent task w) = Some st ->
  k < Z.to_nat max_steps ->
  post_completion (llm_client (self st)) (history st) (capabilities (self st)) (world st)
  = (Completion message, w') ->
  msg_tool_calls message = None \/ msg_tool_calls message = Some [] ->
  msg_content message = None \/ msg_content message = Some EmptyString ->
  response_type (llm_result (Completion message)) = "empty"
  /\ run_trace agent task max_steps w
     = Returns ExitUnexpectedResponse
         "Agent terminated due to unexpected LLM response type."
         (called st w')
  /\ run agent task max_steps w
     = Returned "Agent terminated due to unexpected LLM response type."
  /\ length (sent (called st w')) = S k
  /\ unexpected_response <> max_steps_reached
  /\ (forall content, unexpected_response <> communication_error content).
Proof.
  intros Hk Hlt Hpost Hcalls Hcontent.
  assert (Hres : llm_result (Completion message) = empty_response EmptyString).
  { unfold llm_result. destruct Hcalls as [-> | ->], Hcontent as [-> | ->]; reflexivity. }
  assert (Hrun : run_trace agent task max_steps w
                 = Returns ExitUnexpectedResponse unexpected_response (called st w')).
  { unfold run_trace.
    replace (Z.to_nat max_steps) with (k + S (Z.to_nat max_steps - S k)) by lia.
    rewrite (loop_iterate _ _ _ _ Hk). cbn [loop]. unfold iteration, call_llm.
    rewrite Hpost, Hres. reflexivity. }
  repeat split.
  - now rewrite Hres.
  - exact Hrun.
  - unfold run. now rewrite Hrun.
  - cbn [called sent]. rewrite length_app, (iterate_sent _ _ _ Hk), start_sent.
    simpl. lia.
  - discriminate.
  - intros content. discriminate.
Qed.

(** C3, as amended: a data frame whose rendering has at most 2000 characters
    is observed as that rendering; one whose rendering is longer is observed
    as the rendering of its first 5 rows followed by the truncation notice;
    any other result is observed as its text.  Nothing bounds the rendering
    of the first 5 rows or the text of a result that is not a data frame. *)
Theorem observation_text (observation_result : PyValue) :
  match observation_result with
  | VDataFrame df =>
      (String.length (to_markdown df) <= 2000 ->
       format_observation observation_result = to_markdown df
       /\ String.length (format_observation observation_result) <= 2000)
      /\ (2000 < String.length (to_markdown df) ->
          format_observation observation_result
          = to_markdown (head 5 df) ++ nl
              ++ "... (results truncated due to length, showing first 5 rows)"
          /\ columns (head 5 df) = columns df
          /\ rows (head 5 df) = firstn 5 (rows df))
  | VObject text => format_observation observation_result = text
  end.
Proof.
  destruct observation_result as [df | text]; [| reflexivity].
  cbn [format_observation]. split; intros H.
  - apply Nat.ltb_ge in H. rewrite H. split; [reflexivity | now apply Nat.ltb_ge].
  - apply Nat.ltb_lt in H. rewrite H. repeat split.
Qed.

(** C8, as amended: when the arguments of a tool fail the validation of its
    schema, [Tool.run] raises and returns nothing: the [ValueError] that
    names the tool and carries the validation report or, when the arguments
    hold a key named [self], the [TypeError] of the call itself, before any
    validation.  The handler of the orchestrator around the call turns the
    exception into the observation "Tool execution failed: ...", appended
    after the turn that records the request; the request does not touch the
    world and the batch goes on. *)
Theorem validation_failure_is_observed (st : RunState) (tc : ToolCall) (tool : Tool)
    (schema : BaseModel) (kwargs : dict json) (e : string) :
  dict_get (call_name tc) (tools (self st)) = Some tool ->
  json_loads (call_arguments tc) = Decoded (JObject kwargs) ->
  args_schema tool = Some schema ->
  model_validate schema kwargs = inr e ->
  exists raised,
    Tool_run tool kwargs (world st) = (Raised raised, world st)
    /\ (dict_get "self" kwargs = None ->
        raised = {| exc_class := ValueError;
                    exc_str := "Tool '" ++ name tool
                               ++ "' argument validation failed: " ++ e |})
    /\ (dict_get "self" kwargs <> None ->
        raised = {| exc_class := TypeError;
                    exc_str := "Tool.run() got multiple values for argument 'self'" |})
    /\ dispatch st tc
       = Next (append (ToolMessage "tool" mock_id
                         ("Tool execution failed: " ++ exc_str raised))
                 (append (ToolCallsMessage "assistant"
                            [(mock_id, call_name tc, call_arguments tc)]) st)).
Proof.
  intros Htool Hargs Hschema Hval.
  assert (Hrun : exists raised,
             Tool_run tool kwargs (world st) = (Raised raised, world st)
             /\ (dict_get "self" kwargs = None -> raised = validation_failed tool e)
             /\ (dict_get "self" kwargs <> None -> raised = multiple_values)).
  { unfold Tool_run. destruct (dict_get "self" kwargs) as [v|].
    - exists multiple_values. split; [reflexivity |]. split; [discriminate | reflexivity].
    - rewrite Hschema, Hval. exists (validation_failed tool e).
      split; [reflexivity |]. split; [reflexivity | intros H; now destruct H]. }
  destruct Hrun as (raised & Hrun & Hvalue & Hself).
  exists raised. split; [exact Hrun |]. split; [exact Hvalue |]. split; [exact Hself |].
  unfold dispatch. rewrite Htool, Hargs. unfold observe.
  cbn [append world]. rewrite Hrun. reflexivity.
Qed.

(** C9: interpreting a text does not depend on the agent that interprets it
    and leaves the agent as it was, so that interpreting the same text again
    gives the same result: the same tag with the same fields. *)
Theorem interpretation_is_stateless (self self' : ReActAgent)
    (response_content : string) :
  fst (_parse_llm_response self response_content)
  = fst (_parse_llm_response self' response_content)
  /\ snd (_parse_llm_response self response_content) = self
  /\ (let (first, after) := _parse_llm_response self response_content in
      let (second, after') := _parse_llm_response after response_content in
      second = first
      /\ result_type second = result_type first
      /\ after' = self).
Proof.
  assert (H : forall a, _parse_llm_response a response_content
                        = (fst (_parse_llm_response self response_content), a)).
  { intros a. unfold _parse_llm_response.
    repeat match goal with
           | |- context [if ?b then _ else _] => destruct b
           | |- context [match ?x with _ => _ end] => destruct x
           end; reflexivity. }
  rewrite (H self'), (H self). cbn [fst snd]. rewrite (H self).
  repeat split; reflexivity.
Qed.

End Properties.

(** C5, as amended: a response that begins with the action marker, then
    white space, a name and an argument text in parentheses on one line, on
    no part of which the decoder raises anything but [JSONDecodeError], is an
    action; the name is the tool name, and the arguments are the argument
    text set between braces and read as an object literal, or else the keys
    and values of its pieces between commas, split at [=], each value a
    literal or else its text without surrounding white space and quotes.
    With the reference decoder, the response of the scenario gives the tool
    [sql_query] and the query [SELECT 1]; three more responses show pieces
    between commas, an argument text that is JSON between braces, and a key
    given twice. *)
Theorem action_is_extracted :
  (forall (env : Environment) (self : ReActAgent) (m ws name args rest : string),
      PyStr.lower m = "action:" ->
      PyStr.all PyStr.isspace ws = true ->
      name <> EmptyString ->
      PyStr.all PyStr.isword name = true ->
      PyStr.all PyStr.notnewline args = true ->
      PyStr.mem ")" (PyStr.first_line rest) = false ->
      decodes_quietly ("{" ++ args ++ "}") ->
      exists v,
        _parse_llm_response self (m ++ ws ++ name ++ "(" ++ args ++ ")" ++ rest)
        = (Returned (Action name v), self)
        /\ reads_as args v)
  /\ fst (@_parse_llm_response Demo.environment Demo.agent
            "Action: sql_query(query='SELECT 1')")
     = Returned (Action "sql_query" (JObject [("query", JString "SELECT 1")]))
  /\ fst (@_parse_llm_response Demo.environment Demo.agent
            "Action: sql_query(query='SELECT 1', limit = 5, verbose)")
     = Returned (Action "sql_query"
                   (JObject [("query", JString "SELECT 1"); ("limit", JInt 5)]))
  /\ fst (@_parse_llm_response Demo.environment Demo.agent
            ("Action: sql_query(" ++ Demo.dq ++ "query" ++ Demo.dq ++ ": "
               ++ Demo.dq ++ "SELECT 1" ++ Demo.dq ++ ", "
               ++ Demo.dq ++ "limit" ++ Demo.dq ++ ": 5)"))
     = Returned (Action "sql_query"
                   (JObject [("query", JString "SELECT 1"); ("limit", JInt 5)]))
  /\ fst (@_parse_llm_response Demo.environment Demo.agent
            "Action: sql_query(limit=1, limit = 2)")
     = Returned (Action "sql_query" (JObject [("limit", JInt 2)])).
Proof.
  split; [| repeat split; vm_compute; reflexivity].
  intros env self m ws name args rest. apply parse_action.
Qed.

(** C4, at the input where the program departs from it: with one space
    before the marker the response is still a final answer, but its content
    keeps the end of the marker, and the run returns that content.  Without
    the space the content is the text after the marker. *)
Theorem final_answer_after_leading_space :
  fst (@_parse_llm_response Demo.environment Demo.agent " Final Answer: 42")
  = Returned (FinalAnswer ": 42")
  /\ @run Demo.environment Demo.agent Demo.task 10
       (Demo.script [Demo.says " Final Answer: 42"])
     = Returned ": 42"
  /\ fst (@_parse_llm_response Demo.environment Demo.agent "Final Answer: 42")
     = Returned (FinalAnswer "42")
  /\ @run Demo.environment Demo.agent Demo.task 10
       (Demo.script [Demo.says "Final Answer: 42"])
     = Returned "42".
Proof. repeat split; vm_compute; reflexivity. Qed.

(** C1, at an input where the program departs from it: the second of three
    requests carries an integer of 4301 digits as its payload.  The decoder
    raises a [ValueError], which the handler for [JSONDecodeError] does not
    catch: the run is left by that exception, the chat history holds one
    tool-result turn for three requests, the third request was never looked
    at (one query ran, besides schema discovery), and no further call of the
    reasoning service was made. *)
Theorem requests_left_unanswered :
  length Cases.overlong_batch = 3
  /\ @run Demo.environment Demo.agent Demo.task 10 Cases.overlong_then_answer
     = Raised {| exc_class := ValueError;
                 exc_str := "Exceeds the limit (4300 digits) for integer string conversion: value has 4301 digits; use sys.set_int_max_str_digits() to increase the limit" |}
  /\ tool_results
       (@history Demo.environment
          (final (@run_trace Demo.environment Demo.agent Demo.task 10
                    Cases.overlong_then_answer)))
     = ["| n |" ++ nl ++ "| 3 |"]
  /\ Demo.queries
       (@world Demo.environment
          (final (@run_trace Demo.environment Demo.agent Demo.task 10
                    Cases.overlong_then_answer)))
     = ["PRAGMA table_info(call_records);"; "SELECT 1"]
  /\ length
       (@sent Demo.environment
          (final (@run_trace Demo.environment Demo.agent Demo.task 10
                    Cases.overlong_then_answer)))
     = 1.
Proof. repeat split; vm_compute; reflexivity. Qed.

(** C7, at an input where the program departs from it: the payload of the
    one request is 1000 opening brackets, which is no JSON; the decoder does
    not get to say so, it raises a [RecursionError], and the handler for
    [JSONDecodeError] does not catch it.  The run is left by that exception:
    no observation turn is appended (the chat history is the one the call
    was made with) and the loop does not go on to its next call.  The same
    happens with the integer of 4301 digits, by a [ValueError]. *)
Theorem unparsable_payload_aborts_run :
  @run Demo.environment Demo.agent Demo.task 10 Cases.nested_then_answer
  = Raised {| exc_class := RecursionError;
              exc_str := "maximum recursion depth exceeded while decoding a JSON array from a unicode string" |}
  /\ @history Demo.environment
       (final (@run_trace Demo.environment Demo.agent Demo.task 10
                 Cases.nested_then_answer))
     = @history Demo.environment (Demo.opening Cases.nested_then_answer)
  /\ length
       (@sent Demo.environment
          (final (@run_trace Demo.environment Demo.agent Demo.task 10
                    Cases.nested_then_answer)))
     = 1
  /\ Demo.replies
       (@world Demo.environment
          (final (@run_trace Demo.environment Demo.agent Demo.task 10
                    Cases.nested_then_answer)))
     = [Demo.says "Final Answer: 42"]
  /\ (exists e,
        @run Demo.environment Demo.agent Demo.task 10
          (Demo.script [Demo.calls [Demo.request "sql_query" Cases.long_integer];
                        Demo.says "Final Answer: 42"])
        = Raised e
        /\ exc_class e = ValueError).
Proof.
  repeat split; try (vm_compute; reflexivity).
  eexists. split; vm_compute; reflexivity.
Qed.

(** ** The properties at concrete inputs *)

Section Witnesses.

Import Demo.

#[local] Existing Instance environment.

Lemma step_budget_witness :
  (0 <= 1)%Z
  /\ iterate (Z.to_nat 1) (start agent task batch_then_answer)
     = Some (after_batch batch_then_answer)
  /\ (Z.of_nat (length (sent (final (run_trace agent task 1 batch_then_answer)))) <= 1)%Z
  /\ run agent task 1 batch_then_answer
     = Returned "Max steps reached without providing a final answer."
  /\ Z.of_nat (length (sent (after_batch batch_then_answer))) = 1%Z.
Proof.
  assert (H0 : (0 <= 1)%Z) by lia.
  assert (H1 : iterate (Z.to_nat 1) (start agent task batch_then_answer)
               = Some (after_batch batch_then_answer))
    by reflexivity.
  destruct (step_budget agent task 1 batch_then_answer H0) as (Hle & Hmax & _).
  destruct (Hmax _ H1) as (_ & Hrun & Hlen).
  exact (conj H0 (conj H1 (conj Hle (conj Hrun Hlen)))).
Defined.

Lemma connection_error_ends_run_witness :
  iterate 1 (start agent task batch_then_refused) = Some (after_batch batch_then_refused)
  /\ 1 < Z.to_nat 10
  /\ post_completion (llm_client (self (after_batch batch_then_refused)))
       (history (after_batch batch_then_refused))
       (capabilities (self (after_batch batch_then_refused)))
       (world (after_batch batch_then_refused))
     = (ConnectionError "refused", answered (world (after_batch batch_then_refused)))
  /\ run agent task 10 batch_then_refused
     = Returned "Agent terminated due to LLM communication error: Connection Error: refused"
  /\ exists message,
       run agent task 10 batch_then_refused = Returned message
       /\ PyStr.contains message "Connection Error".
Proof.
  assert (H1 : iterate 1 (start agent task batch_then_refused)
               = Some (after_batch batch_then_refused))
    by reflexivity.
  assert (H2 : 1 < Z.to_nat 10) by (vm_compute; lia).
  assert (H3 : post_completion (llm_client (self (after_batch batch_then_refused)))
                 (history (after_batch batch_then_refused))
                 (capabilities (self (after_batch batch_then_refused)))
                 (world (after_batch batch_then_refused))
               = (ConnectionError "refused",
                  answered (world (after_batch batch_then_refused))))
    by reflexivity.
  destruct (connection_error_ends_run agent task 10 batch_then_refused 1 _ _ _ H1 H2 H3)
    as (_ & Hrun & Hin & _).
  exact (conj H1 (conj H2 (conj H3 (conj Hrun Hin)))).
Defined.

Lemma empty_response_ends_run_witness :
  iterate 1 (start agent task batch_then_nothing) = Some (after_batch batch_then_nothing)
  /\ 1 < Z.to_nat 10
  /\ post_completion (llm_client (self (after_batch batch_then_nothing)))
       (history (after_batch batch_then_nothing))
       (capabilities (self (after_batch batch_then_nothing)))
       (world (after_batch batch_then_nothing))
     = (Completion {| msg_tool_calls := Some []; msg_content := Some EmptyString |},
        answered (world (after_batch batch_then_nothing)))
  /\ run agent task 10 batch_then_nothing
     = Returned "Agent terminated due to unexpected LLM response type."
  /\ length (sent (called (after_batch batch_then_nothing)
                     (answered (world (after_batch batch_then_nothing))))) = 2.
Proof.
  assert (H1 : iterate 1 (start agent task batch_then_nothing)
               = Some (after_batch batch_then_nothing))
    by reflexivity.
  assert (H2 : 1 < Z.to_nat 10) by (vm_compute; lia).
  assert (H3 : post_completion (llm_client (self (after_batch batch_then_nothing)))
                 (history (after_batch batch_then_nothing))
                 (capabilities (self (after_batch batch_then_nothing)))
                 (world (after_batch batch_then_nothing))
               = (Completion {| msg_tool_calls := Some [];
                                msg_content := Some EmptyString |},
                  answered (world (after_batch batch_then_nothing))))
    by reflexivity.
  destruct (empty_response_ends_run agent task 10 batch_then_nothing 1 _ _ _
              H1 H2 H3 (or_intror eq_refl) (or_intror eq_refl))
    as (_ & _ & Hrun & Hlen & _).
  exact (conj H1 (conj H2 (conj H3 (conj Hrun Hlen)))).
Defined.

Lemma observation_text_witness :
  2000 < String.length (to_markdown wide_table)
  /\ format_observation (VDataFrame wide_table)
     = to_markdown (head 5 wide_table) ++ nl
         ++ "... (results truncated due to length, showing first 5 rows)".
Proof.
  assert (H : 2000 < String.length (to_markdown (Environment := environment) wide_table))
    by (apply Nat.ltb_lt; vm_compute; reflexivity).
  split; [exact H |].
  exact (proj1 (proj2 (observation_text (VDataFrame wide_table)) H)).
Defined.

Lemma validation_failure_is_observed_witness :
  dict_get "sql_query" (tools (self (opening batch_then_answer))) = Some sql_query_tool
  /\ json_loads "{}" = Decoded (JObject [])
  /\ args_schema sql_query_tool = Some SQLQueryParams
  /\ model_validate SQLQueryParams []
     = inr (validation_error_str "SQLQueryParams" [("query", None)])
  /\ exists raised,
       Tool_run sql_query_tool [] (world (opening batch_then_answer))
       = (Raised raised, world (opening batch_then_answer))
       /\ raised
          = {| exc_class := ValueError;
               exc_str := "Tool 'sql_query' argument validation failed: "
                          ++ validation_error_str "SQLQueryParams" [("query", None)] |}
       /\ dispatch (opening batch_then_answer) (request "sql_query" "{}")
          = Next (append (ToolMessage "tool" mock_id
                            ("Tool execution failed: " ++ exc_str raised))
                    (append (ToolCallsMessage "assistant"
                               [(mock_id, "sql_query", "{}")])
                       (opening batch_then_answer))).
Proof.
  assert (H1 : dict_get "sql_query" (tools (self (opening batch_then_answer)))
               = Some sql_query_tool) by reflexivity.
  assert (H2 : json_loads (Environment := environment) "{}" = Decoded (JObject []))
    by reflexivity.
  assert (H3 : args_schema (sql_query_tool (env := environment)) = Some SQLQueryParams)
    by reflexivity.
  assert (H4 : model_validate (SQLQueryParams (env := environment)) []
               = inr (validation_error_str "SQLQueryParams" [("query", None)]))
    by reflexivity.
  destruct (validation_failure_is_observed (opening batch_then_answer)
              (request "sql_query" "{}") sql_query_tool SQLQueryParams [] _
              H1 H2 H3 H4) as (raised & Hrun & Hvalue & _ & Hdispatch).
  refine (conj H1 (conj H2 (conj H3 (conj H4 _)))).
  exists raised. exact (conj Hrun (conj (Hvalue eq_refl) Hdispatch)).
Defined.

Lemma action_is_extracted_witness :
  PyStr.lower "Action:" = "action:"
  /\ PyStr.all PyStr.isspace " " = true
  /\ "sql_query" <> EmptyString
  /\ PyStr.all PyStr.isword "sql_query" = true
  /\ PyStr.all PyStr.notnewline "query='SELECT 1', limit = 5, verbose" = true
  /\ PyStr.mem ")" (PyStr.first_line EmptyString) = false
  /\ decodes_quietly "{query='SELECT 1', limit = 5, verbose}"
  /\ exists v,
       _parse_llm_response agent "Action: sql_query(query='SELECT 1', limit = 5, verbose)"
       = (Returned (Action "sql_query" v), agent)
       /\ reads_as "query='SELECT 1', limit = 5, verbose" v.
Proof.
  assert (H1 : PyStr.lower "Action:" = "action:") by reflexivity.
  assert (H2 : PyStr.all PyStr.isspace " " = true) by reflexivity.
  assert (H3 : "sql_query" <> EmptyString) by discriminate.
  assert (H4 : PyStr.all PyStr.isword "sql_query" = true) by reflexivity.
  assert (H5 : PyStr.all PyStr.notnewline "query='SELECT 1', limit = 5, verbose" = true)
    by reflexivity.
  assert (H6 : PyStr.mem ")" (PyStr.first_line EmptyString) = false) by reflexivity.
  assert (H7 : decodes_quietly (env := environment)
                 "{query='SELECT 1', limit = 5, verbose}")
    by (apply quiet_parts; vm_compute; reflexivity).
  refine (conj H1 (conj H2 (conj H3 (conj H4 (conj H5 (conj H6 (conj H7 _))))))).
  exact (proj1 action_is_extracted environment agent "Action:" " " "sql_query"
           "query='SELECT 1', limit = 5, verbose" EmptyString H1 H2 H3 H4 H5 H6 H7).
Defined.

(** ** Where the specification and the program part *)

(** C3 as stated fails: a result that is not a data frame is observed in
    full, and so is the rendering of the first 5 rows; here both are longer
    than 2000 characters, with or without the truncation notice. *)
Lemma observation_exceeds_bound :
  ~ within_bound (format_observation (env := environment) (VObject long_text))
  /\ ~ within_bound (format_observation (env := environment) (VDataFrame wide_table)).
Proof.
  assert (Hn : String.length truncation_notice = 60) by reflexivity.
  split; intros [H | (body & Hb & H)].
  - apply Nat.leb_le in H. vm_compute in H. discriminate H.
  - apply (f_equal String.length) in Hb. rewrite length_append, Hn in Hb.
    assert (Hl : String.length (format_observation (env := environment)
                                  (VObject long_text)) = 2100)
      by (vm_compute; reflexivity).
    rewrite Hl in Hb. lia.
  - apply Nat.leb_le in H. vm_compute in H. discriminate H.
  - apply (f_equal String.length) in Hb. rewrite length_append, Hn in Hb.
    assert (Hl : String.length (format_observation (env := environment)
                                  (VDataFrame wide_table)) = 2173)
      by (vm_compute; reflexivity).
    rewrite Hl in Hb. lia.
Qed.

(** C8 as stated fails: called without its argument, the query tool returns
    no value; [Tool.run] raises a [ValueError]. *)
Lemma validation_failure_is_raised :
  (exists e,
      fst (Tool_run (env := environment) sql_query_tool [] (script [])) = Raised e
      /\ exc_class e = ValueError
      /\ PyStr.startswith (exc_str e) "Tool 'sql_query' argument validation failed: "
         = true)
  /\ forall v, fst (Tool_run (env := environment) sql_query_tool [] (script []))
               <> Returned v.
Proof.
  split.
  - eexists. split; [vm_compute; reflexivity |]. split; reflexivity.
  - intros v H. vm_compute in H. discriminate H.
Qed.

(** C5 as stated fails.  An argument text that is an object literal is not
    read as one: set between braces it is no JSON, it holds no [=], and the
    arguments are empty, where the specification reads the query from it.
    And a call whose argument text runs over two lines is no action at all,
    but an error result. *)
Lemma action_is_not_extracted :
  spec_action_args (env := environment) select_1
  = JObject [("query", JString "SELECT 1")]
  /\ fst (_parse_llm_response agent Cases.action_with_object)
     = Returned (Action "sql_query" (JObject []))
  /\ fst (_parse_llm_response agent Cases.action_with_object)
     <> Returned (Action "sql_query" (spec_action_args select_1))
  /\ fst (_parse_llm_response agent Cases.action_on_two_lines)
     = Returned (Error ("Invalid Action format: " ++ Cases.action_on_two_lines)).
Proof.
  assert (H1 : spec_action_args (env := environment) select_1
               = JObject [("query", JString "SELECT 1")]) by (vm_compute; reflexivity).
  assert (H2 : fst (_parse_llm_response agent Cases.action_with_object)
               = Returned (Action "sql_query" (JObject []))) by (vm_compute; reflexivity).
  split; [exact H1 |]. split; [exact H2 |]. split.
  - rewrite H1, H2. discriminate.
  - vm_compute. reflexivity.
Qed.

End Witnesses.

(** ** Further properties of the loop *)

Section LoopProperties.

Context {env : Environment}.

Lemma agent_eta (a b : ReActAgent) :
  same_setup a b -> chat_history a = chat_history b -> a = b.
Proof.
  destruct a, b. unfold same_setup. cbn. intros (-> & -> & ->) ->. reflexivity.
Qed.

Lemma append_setup (t : Turn) (st : RunState) : same_setup (self (append t st)) (self st).
Proof. repeat split. Qed.

Lemma dispatch_setup (st : RunState) (tc : ToolCall) :
  same_setup (self (flow_state (dispatch st tc))) (self st).
Proof.
  unfold dispatch.
  destruct (dict_get _ _) as [tool|]; [| apply append_setup].
  destruct (json_loads _) as [tool_args|e|e]; [| apply append_setup | repeat split].
  destruct (observe _ _ _). repeat split.
Qed.

Lemma dispatch_all_setup (tcs : list ToolCall) (st : RunState) :
  same_setup (self (flow_state (dispatch_all tcs st))) (self st).
Proof.
  revert st. induction tcs as [|tc tcs IH]; intros st; [repeat split |].
  cbn [dispatch_all]. pose proof (dispatch_setup st tc) as (H1' & H2' & H3').
  destruct (dispatch st tc) as [st1 | exit result st1 | e st1]; cbn [flow_state] in *.
  - destruct (IH st1) as (H1 & H2 & H3). repeat split; congruence.
  - repeat split; assumption.
  - repeat split; assumption.
Qed.

(** What one request appends is conversational. *)
Lemma dispatch_appends (st : RunState) (tc : ToolCall) :
  exists new,
    history (flow_state (dispatch st tc)) = (history st ++ new)%list
    /\ Forall conversational new.
Proof.
  unfold dispatch.
  destruct (dict_get _ _) as [tool|].
  - destruct (json_loads _) as [tool_args|e|e].
    + destruct (observe _ _ _) as [observation_str w'].
      exists [ToolCallsMessage "assistant" [(mock_id, call_name tc, call_arguments tc)];
              ToolMessage "tool" mock_id observation_str].
      split; [unfold history; simpl; now rewrite <- app_assoc |].
      constructor; [now left |]. constructor; [now right | constructor].
    + eexists [_]. split; [reflexivity |]. constructor; [now right | constructor].
    + exists []. split; [cbn [flow_state]; now rewrite app_nil_r | constructor].
  - eexists [_]. split; [reflexivity |]. constructor; [now right | constructor].
Qed.

Lemma dispatch_all_appends (tcs : list ToolCall) (st : RunState) :
  exists new,
    history (flow_state (dispatch_all tcs st)) = (history st ++ new)%list
    /\ Forall conversational new.
Proof.
  revert st. induction tcs as [|tc tcs IH]; intros st.
  - exists []. split; [cbn; now rewrite app_nil_r | constructor].
  - destruct (dispatch_appends st tc) as (a & Ha & Fa). cbn [dispatch_all].
    destruct (dispatch st tc) as [st1 | exit result st1 | e st1]; cbn [flow_state] in *.
    + destruct (IH st1) as (b & Hb & Fb).
      exists (a ++ b)%list. rewrite Hb, Ha, app_assoc.
      split; [reflexivity | now apply Forall_app].
    + now exists a.
    + now exists a.
Qed.

(** One iteration: the chat history grows at its end, by conversational
    turns only, and the set-up of the agent stays. *)
Lemma iteration_appends (st : RunState) :
  exists new,
    history (flow_state (iteration st)) = (history st ++ new)%list
    /\ Forall conversational new
    /\ same_setup (self (flow_state (iteration st))) (self st).
Proof.
  unfold iteration.
  destruct (call_llm _ _ _ _) as [[tcs|content|content|content] w'].
  - destruct (dispatch_all_appends tcs (called st w')) as (new & H & F).
    exists new. split; [exact H |]. split; [exact F |].
    exact (dispatch_all_setup tcs (called st w')).
  - pose proof (parse_keeps_agent (self (called st w')) content) as Hp.
    destruct (_parse_llm_response _ _) as [p self']. cbn [snd] in Hp. subst self'.
    destruct p as [p|e].
    + exists [Message "assistant" content].
      destruct p; cbn [flow_state];
        (split; [reflexivity |];
         split; [constructor; [now left | constructor] | repeat split]).
    + exists []. cbn [flow_state].
      split; [unfold history; cbn; now rewrite app_nil_r |].
      split; [constructor | repeat split].
  - exists []. split; [cbn; now rewrite app_nil_r |]. split; [constructor | repeat split].
  - exists []. split; [cbn; now rewrite app_nil_r |]. split; [constructor | repeat split].
Qed.

Lemma loop_appends (n : nat) (st : RunState) :
  exists new,
    history (final (loop n st)) = (history st ++ new)%list
    /\ Forall conversational new
    /\ same_setup (self (final (loop n st))) (self st).
Proof.
  revert st. induction n as [|n IH]; intros st; cbn [loop].
  - exists []. split; [cbn; now rewrite app_nil_r |]. split; [constructor | repeat split].
  - destruct (iteration_appends st) as (a & Ha & Fa & Sa).
    destruct (iteration st) as [st1 | exit result st1 | e st1]; cbn [flow_state] in *.
    + destruct (IH st1) as (b & Hb & Fb & Sb).
      exists (a ++ b)%list. rewrite Hb, Ha, app_assoc.
      split; [reflexivity |]. split; [now apply Forall_app |].
      destruct Sa as (? & ? & ?), Sb as (? & ? & ?). repeat split; congruence.
    + exists a. cbn [final]. auto.
    + exists a. cbn [final]. auto.
Qed.

Lemma start_history (agent : ReActAgent) (task : string) (w : World) :
  exists system,
    history (start agent task w) = [Message "system" system; Message "user" task]
    /\ same_setup (self (start agent task w)) agent.
Proof.
  unfold start. destruct (discover_schema agent w) as [info w'].
  eexists. split; [reflexivity | repeat split].
Qed.

(** X1: The chat history of a run is one system turn, then the task as the user
    turn, then assistant and tool turns only. *)
Theorem one_system_turn (agent : ReActAgent) (task : string) (max_steps : Z) (w : World) :
  exists system new,
    history (final (run_trace agent task max_steps w))
    = Message "system" system :: Message "user" task :: new
    /\ Forall conversational new
    /\ forall t, In t new -> role_of t <> "system" /\ role_of t <> "user".
Proof.
  unfold run_trace.
  destruct (start_history agent task w) as (system & Hs & _).
  destruct (loop_appends (Z.to_nat max_steps) (start agent task w)) as (new & Hn & Fn & _).
  exists system, new. rewrite Hn, Hs. split; [reflexivity |]. split; [exact Fn |].
  intros t Ht. rewrite Forall_forall in Fn.
  destruct (Fn t Ht) as [-> | ->]; split; discriminate.
Qed.

Lemma loop_sent_prefix (n : nat) (st : RunState) :
  (forall h, In h (sent st) -> exists rest, history st = (h ++ rest)%list) ->
  forall h, In h (sent (final (loop n st))) ->
            exists rest, history (final (loop n st)) = (h ++ rest)%list.
Proof.
  revert st. induction n as [|n IH]; intros st Hst; cbn [loop]; [exact Hst |].
  pose proof (iteration_sent st) as Hsent.
  destruct (iteration_appends st) as (a & Ha & _).
  assert (Hnext : forall h, In h (sent (flow_state (iteration st))) ->
                            exists rest, history (flow_state (iteration st))
                                         = (h ++ rest)%list).
  { intros h Hh. rewrite Hsent in Hh. apply in_app_or in Hh as [Hh | [<- | []]].
    - destruct (Hst h Hh) as (rest & Hr). exists (rest ++ a)%list.
      now rewrite Ha, Hr, app_assoc.
    - now exists a. }
  destruct (iteration st) as [st1 | exit result st1 | e st1]; cbn [flow_state] in *.
  - now apply IH.
  - exact Hnext.
  - exact Hnext.
Qed.

(** X2: Every chat history handed to the reasoning service during a run is a
    beginning of the chat history at the end of the run: turns are only
    ever appended. *)
Theorem transcript_is_append_only (agent : ReActAgent) (task : string)
    (max_steps : Z) (w : World) (h : list Turn) :
  In h (sent (final (run_trace agent task max_steps w))) ->
  exists rest, history (final (run_trace agent task max_steps w)) = (h ++ rest)%list.
Proof.
  unfold run_trace. apply loop_sent_prefix.
  intros h0. now rewrite start_sent.
Qed.

Lemma start_fresh (agent : ReActAgent) (h : list Turn) (task : string) (w : World) :
  start (set_chat_history agent h) task w = start agent task w.
Proof. reflexivity. Qed.

(** X3: A run assigns nothing of the agent but its chat history, and it starts
    from a chat history of its own: what an earlier run left in the agent
    does not change the next run. *)
Theorem run_starts_fresh (agent : ReActAgent) (task task' : string)
    (max_steps max_steps' : Z) (w : World) :
  let st := final (run_trace agent task max_steps w) in
  same_setup (self st) agent
  /\ self st = set_chat_history agent (history st)
  /\ run_trace (self st) task' max_steps' (world st)
     = run_trace agent task' max_steps' (world st).
Proof.
  cbv zeta. unfold run_trace.
  destruct (start_history agent task w) as (system & _ & Ss).
  destruct (loop_appends (Z.to_nat max_steps) (start agent task w)) as (new & _ & _ & Sl).
  set (st := final (loop (Z.to_nat max_steps) (start agent task w))) in *.
  assert (Hs : same_setup (self st) agent).
  { destruct Ss as (? & ? & ?), Sl as (? & ? & ?). repeat split; congruence. }
  assert (He : self st = set_chat_history agent (history st)).
  { apply agent_eta; [| reflexivity].
    destruct Hs as (? & ? & ?). repeat split; assumption. }
  split; [exact Hs |]. split; [exact He |].
  rewrite He at 1. now rewrite start_fresh.
Qed.

End LoopProperties.

(** ** Further properties of the orchestrator *)

Section OrchestratorProperties.

Context {env : Environment}.

(** X4: A text response never runs a tool, even when it reads as an action:
    the world stays as the call of the reasoning service left it.  When the
    interpreter returns, the iteration appends the raw text as one assistant
    turn, returns for a final answer and goes on otherwise; when the
    interpreter raises, nothing is appended and the exception leaves the
    run. *)
Theorem text_response_runs_no_tool (st : RunState) (content : string) (w' : World) :
  call_llm (llm_client (self st)) (history st) (capabilities (self st)) (world st)
  = (text_response content, w') ->
  world (flow_state (iteration st)) = w'
  /\ match fst (_parse_llm_response (self st) content) with
     | Returned p =>
         flow_state (iteration st) = append (Message "assistant" content) (called st w')
         /\ history (flow_state (iteration st))
            = (history st ++ [Message "assistant" content])%list
         /\ match p with
            | FinalAnswer answer =>
                iteration st = Return ExitFinalAnswer answer (flow_state (iteration st))
            | _ => iteration st = Next (flow_state (iteration st))
            end
     | Raised e => iteration st = Raise e (called st w')
     end.
Proof.
  intros Hcall. unfold iteration. rewrite Hcall.
  pose proof (parse_keeps_agent (self (called st w')) content) as Hp.
  change (self (called st w')) with (self st) in *.
  destruct (_parse_llm_response (self st) content) as [p self'].
  cbn [snd fst] in *. subst self'.
  destruct p as [[] | e]; cbn [flow_state]; repeat split; reflexivity.
Qed.

(** X5: A final answer ends the run: after [k] iterations that went on, a text
    response that reads as a final answer makes [run] return its content;
    the response is the last turn of the chat history and its call the last
    call. *)
Theorem final_answer_ends_run (agent : ReActAgent) (task : string) (max_steps : Z)
    (w : World) (k : nat) (st : RunState) (content answer : string) (w' : World) :
  iterate k (start agent task w) = Some st ->
  k < Z.to_nat max_steps ->
  call_llm (llm_client (self st)) (history st) (capabilities (self st)) (world st)
  = (text_response content, w') ->
  fst (_parse_llm_response (self st) content) = Returned (FinalAnswer answer) ->
  run_trace agent task max_steps w
  = Returns ExitFinalAnswer answer (append (Message "assistant" content) (called st w'))
  /\ run agent task max_steps w = Returned answer
  /\ length (sent (final (run_trace agent task max_steps w))) = S k.
Proof.
  intros Hk Hlt Hcall Hparse.
  assert (Hrun : run_trace agent task max_steps w
                 = Returns ExitFinalAnswer answer
                     (append (Message "assistant" content) (called st w'))).
  { unfold run_trace.
    replace (Z.to_nat max_steps) with (k + S (Z.to_nat max_steps - S k)) by lia.
    rewrite (loop_iterate _ _ _ _ Hk). cbn [loop]. unfold iteration. rewrite Hcall.
    pose proof (parse_keeps_agent (self (called st w')) content) as Hp.
    change (self (called st w')) with (self st) in *.
    destruct (_parse_llm_response (self st) content) as [p self'].
    cbn [snd fst] in *. subst. reflexivity. }
  split; [exact Hrun |]. unfold run. rewrite Hrun. split; [reflexivity |].
  cbn [final append called sent]. rewrite length_app, (iterate_sent _ _ _ Hk), start_sent.
  simpl. lia.
Qed.

(** X6: With a budget of zero or less the reasoning service is never called:
    the run returns the budget message right after schema discovery. *)
Theorem no_budget_no_call (agent : ReActAgent) (task : string) (max_steps : Z)
    (w : World) :
  (max_steps <= 0)%Z ->
  run_trace agent task max_steps w
  = Returns ExitMaxSteps "Max steps reached without providing a final answer."
      (start agent task w)
  /\ sent (final (run_trace agent task max_steps w)) = []
  /\ world (final (run_trace agent task max_steps w)) = snd (discover_schema agent w).
Proof.
  intros H. unfold run_trace.
  replace (Z.to_nat max_steps) with 0 by lia. cbn [loop final].
  split; [reflexivity |]. split; [apply start_sent |].
  unfold start. now destruct (discover_schema agent w).
Qed.

(** X7: A call that cannot be made or that fails is observed, not raised: when
    the payload of a known tool decodes to something that is not an object,
    or when the tool raises, the request is recorded as an assistant turn
    and answered by a tool turn that starts with "Tool execution failed: ". *)
Theorem tool_failure_is_observed (st : RunState) (tc : ToolCall) (tool : Tool)
    (tool_args : json) :
  dict_get (call_name tc) (tools (self st)) = Some tool ->
  json_loads (call_arguments tc) = Decoded tool_args ->
  let recorded :=
    append (ToolCallsMessage "assistant" [(mock_id, call_name tc, call_arguments tc)]) st in
  (forall kwargs e w',
      tool_args = JObject kwargs ->
      Tool_run tool kwargs (world st) = (Raised e, w') ->
      dispatch st tc
      = Next (append (ToolMessage "tool" mock_id ("Tool execution failed: " ++ exc_str e))
                (set_world w' recorded)))
  /\ ((forall kwargs, tool_args <> JObject kwargs) ->
      dispatch st tc
      = Next (append (ToolMessage "tool" mock_id
                        ("Tool execution failed: tools.Tool.run() argument after ** must be a mapping, not "
                           ++ json_type_name tool_args))
                recorded)
      /\ world (flow_state (dispatch st tc)) = world st).
Proof.
  intros Htool Hargs. cbv zeta. unfold dispatch. rewrite Htool, Hargs. split.
  - intros kwargs e w' -> Hrun. unfold observe. cbn [append world].
    now rewrite Hrun.
  - intros Hno. unfold observe. cbn [append world].
    destruct tool_args; try (split; reflexivity).
    now destruct (Hno members).
Qed.

(** X8: Whatever handler of [call_llm] runs, the run ends at once with the
    communication-error message that quotes the handler's text. *)
Theorem every_handler_ends_run (agent : ReActAgent) (task : string) (max_steps : Z)
    (w : World) (k : nat) (st : RunState) (response : HttpOutcome) (w' : World) :
  iterate k (start agent task w) = Some st ->
  k < Z.to_nat max_steps ->
  post_completion (llm_client (self st)) (history st) (capabilities (self st)) (world st)
  = (response, w') ->
  handled response ->
  llm_result response = error_response (handler_text response)
  /\ run_trace agent task max_steps w
     = Returns ExitCommunicationError
         ("Agent terminated due to LLM communication error: " ++ handler_text response)
         (called st w')
  /\ length (sent (called st w')) = S k.
Proof.
  intros Hk Hlt Hpost Hh.
  assert (Hres : llm_result response = error_response (handler_text response)).
  { destruct response; try reflexivity. destruct Hh. }
  split; [exact Hres |]. split.
  - unfold run_trace.
    replace (Z.to_nat max_steps) with (k + S (Z.to_nat max_steps - S k)) by lia.
    rewrite (loop_iterate _ _ _ _ Hk). cbn [loop]. unfold iteration, call_llm.
    rewrite Hpost, Hres. reflexivity.
  - cbn [called sent]. rewrite length_app, (iterate_sent _ _ _ Hk), start_sent.
    simpl. lia.
Qed.

(** X25: When one call of the reasoning service returns call requests whose
    payloads the decoder takes or refuses with a [JSONDecodeError], the
    iteration appends one tool-result turn per request, in the order of the
    requests, whether the request names an unknown tool, carries a payload
    that does not decode, or is carried out; the iteration makes that one
    call only, and the next call is made with a chat history that already
    holds all these turns. *)
Theorem tool_result_per_request (st : RunState) (tcs : list ToolCall) (w' : World) :
  call_llm (llm_client (self st)) (history st) (capabilities (self st)) (world st)
  = (tool_calls_response tcs, w') ->
  Forall (decodable (tools (self st))) tcs ->
  exists st' new,
    iteration st = Next st'
    /\ history st' = (history st ++ new)%list
    /\ length (tool_results new) = length tcs
    /\ Forall2 (answers (tools (self st))) tcs (tool_results new)
    /\ sent st' = (sent st ++ [history st])%list
    /\ sent (flow_state (iteration st'))
       = (sent st ++ [history st; history st ++ new])%list.
Proof.
  intros Hcall Hd.
  destruct (dispatch_all_spec tcs (called st w') Hd) as (st' & new & Hnext & Hh & Hf).
  pose proof (dispatch_all_keeps tcs (called st w')) as (Hs & _).
  rewrite Hnext in Hs. cbn [flow_state] in Hs.
  exists st', new.
  assert (Hit : iteration st = Next st').
  { unfold iteration. now rewrite Hcall. }
  repeat split.
  - exact Hit.
  - exact Hh.
  - symmetry. exact (Forall2_length Hf).
  - exact Hf.
  - exact Hs.
  - rewrite iteration_sent, Hs, Hh. cbn [called sent]. now rewrite <- app_assoc.
Qed.

(** X26: A request that names a tool missing from the registry, or whose
    payload the decoder refuses with a [JSONDecodeError], adds one
    observation turn that describes the failure (with the words "not found"
    for a missing tool) and leaves the world alone; the requests after it in
    the batch are dispatched next, and when they go through the iteration
    does not return and the loop takes its next step. *)
Theorem failed_request_is_observed (st : RunState) (before after : list ToolCall)
    (tc : ToolCall) (w' : World) (n : nat) (mid : RunState) :
  call_llm (llm_client (self st)) (history st) (capabilities (self st)) (world st)
  = (tool_calls_response (before ++ tc :: after), w') ->
  dispatch_all before (called st w') = Next mid ->
  dict_get (call_name tc) (tools (self st)) = None
  \/ (exists e, json_loads (call_arguments tc) = DecodeError e) ->
  exists obs,
    let observed := append (ToolMessage "tool" mock_id obs) mid in
    dispatch mid tc = Next observed
    /\ history observed = (history mid ++ [ToolMessage "tool" mock_id obs])%list
    /\ world observed = world mid
    /\ (dict_get (call_name tc) (tools (self st)) = None ->
        obs = "Error: Tool '" ++ call_name tc ++ "' not found."
        /\ PyStr.contains obs "not found")
    /\ (forall tool e,
          dict_get (call_name tc) (tools (self st)) = Some tool ->
          json_loads (call_arguments tc) = DecodeError e ->
          obs = "Error parsing tool arguments for " ++ call_name tc ++ ": " ++ e
                ++ ". Raw arguments: " ++ call_arguments tc)
    /\ iteration st = dispatch_all after observed
    /\ (forall st',
          dispatch_all after observed = Next st' ->
          iteration st = Next st' /\ loop (S n) st = loop n st').
Proof.
  intros Hcall Hmid Hfail.
  assert (Hreg : tools (self mid) = tools (self st)).
  { pose proof (dispatch_all_keeps before (called st w')) as (_ & H & _).
    now rewrite Hmid in H. }
  assert (Hd : exists obs,
             dispatch mid tc = Next (append (ToolMessage "tool" mock_id obs) mid)
             /\ (dict_get (call_name tc) (tools (self st)) = None ->
                 obs = not_found (call_name tc))
             /\ (forall tool e,
                   dict_get (call_name tc) (tools (self st)) = Some tool ->
                   json_loads (call_arguments tc) = DecodeError e ->
                   obs = arguments_error (call_name tc) e (call_arguments tc))).
  { unfold dispatch. rewrite Hreg.
    destruct (dict_get (call_name tc) (tools (self st))) as [tool|] eqn:Htool.
    - destruct Hfail as [Hnone | [e He]]; [discriminate Hnone |]. rewrite He.
      eexists. split; [reflexivity |]. split; [discriminate |].
      intros tool0 e0 _ He0. congruence.
    - eexists. split; [reflexivity |]. split; [reflexivity | discriminate]. }
  destruct Hd as (obs & Hd & Hnf & Hmal).
  assert (Hit : iteration st
                = dispatch_all after (append (ToolMessage "tool" mock_id obs) mid)).
  { unfold iteration. rewrite Hcall, dispatch_all_app, Hmid. cbn [dispatch_all].
    now rewrite Hd. }
  exists obs. cbv zeta. repeat split.
  - exact Hd.
  - exact (Hnf H).
  - rewrite (Hnf H). unfold not_found.
    exists ("Error: Tool '" ++ call_name tc ++ "' "), ".".
    now rewrite !append_assoc.
  - exact Hmal.
  - exact Hit.
  - now rewrite Hit.
  - cbn [loop]. now rewrite Hit, H.
Qed.

(** X27: When the decoder raises anything but a [JSONDecodeError] on the
    payload of a request for a known tool, no handler of [run] catches it:
    the iteration and the run are left by that exception, in the state that
    the requests before it made; no turn is appended for the request and the
    requests after it are not looked at. *)
Theorem decoder_exception_leaves_run (st : RunState) (before after : list ToolCall)
    (tc : ToolCall) (tool : Tool) (e : exception) (w' : World) (n : nat)
    (mid : RunState) :
  call_llm (llm_client (self st)) (history st) (capabilities (self st)) (world st)
  = (tool_calls_response (before ++ tc :: after), w') ->
  dispatch_all before (called st w') = Next mid ->
  dict_get (call_name tc) (tools (self st)) = Some tool ->
  json_loads (call_arguments tc) = DecodeRaised e ->
  dispatch mid tc = Raise e mid
  /\ iteration st = Raise e mid
  /\ loop (S n) st = Raises e mid.
Proof.
  intros Hcall Hmid Htool He.
  assert (Hreg : tools (self mid) = tools (self st)).
  { pose proof (dispatch_all_keeps before (called st w')) as (_ & H & _).
    now rewrite Hmid in H. }
  assert (Hd : dispatch mid tc = Raise e mid).
  { unfold dispatch. now rewrite Hreg, Htool, He. }
  assert (Hit : iteration st = Raise e mid).
  { unfold iteration. rewrite Hcall, dispatch_all_app, Hmid. cbn [dispatch_all].
    now rewrite Hd. }
  split; [exact Hd |]. split; [exact Hit |]. cbn [loop]. now rewrite Hit.
Qed.

Lemma map_tool_call_id (l : list ToolCall) :
  map (fun tc => {| call_name := call_name tc; call_arguments := call_arguments tc |}) l
  = l.
Proof. induction l as [|[] l IH]; cbn; [reflexivity | now rewrite IH]. Qed.

(** X9: What [call_llm] makes of a decoded completion: call requests win over
    text; a list of call requests is never empty and is the list of the
    message, in its order; a text is never empty; anything else is the empty
    response. No completion gives an error response. *)
Theorem llm_result_shape (message : ChoiceMessage) :
  match llm_result (Completion message) with
  | tool_calls_response tcs =>
      tcs <> [] /\ msg_tool_calls message = Some tcs
  | text_response content =>
      content <> EmptyString /\ msg_content message = Some content
      /\ (msg_tool_calls message = None \/ msg_tool_calls message = Some [])
  | empty_response content =>
      content = EmptyString
      /\ (msg_tool_calls message = None \/ msg_tool_calls message = Some [])
      /\ (msg_content message = None \/ msg_content message = Some EmptyString)
  | error_response _ => False
  end.
Proof.
  unfold llm_result.
  destruct message as [[[|tc tcs]|] [[|c s]|]]; cbn [msg_tool_calls msg_content];
    try rewrite map_tool_call_id;
    repeat split; try discriminate; auto.
  all: now rewrite (map_tool_call_id (tc :: tcs)).
Qed.

(** X10: The capability list offered to the reasoning service has one entry per
    registered tool, in the order of the registry, under the tool's own name
    and description. *)
Theorem capabilities_follow_registry (agent : ReActAgent) :
  map fn_name (capabilities agent) = map name (map snd (tools agent))
  /\ map fn_description (capabilities agent) = map description (map snd (tools agent))
  /\ length (capabilities agent) = length (tools agent).
Proof.
  unfold capabilities. repeat split.
  - rewrite map_map. apply map_ext. intros t. unfold to_openai_function_format.
    now destruct (args_schema t).
  - rewrite map_map. apply map_ext. intros t. unfold to_openai_function_format.
    now destruct (args_schema t).
  - now rewrite !length_map.
Qed.

End OrchestratorProperties.

(** ** Further properties of the interpreter of free text *)

Section InterpreterProperties.

Context {env : Environment}.

Import PyStr.

(** Take a marker apart along the hypothesis that spells it in lower case. *)
Ltac spell_out H :=
  repeat match type of H with
         | lower ?m = String _ _ =>
             destruct m as [|? m]; [discriminate H |];
             simpl in H; injection H as ? H
         | lower ?m = EmptyString =>
             destruct m; [clear H | discriminate H]
         end.

Lemma content_lower_thought (m rest : string) :
  lower m = "thought:" ->
  exists tail, lower (strip (m ++ rest)) = "thought:" ++ tail.
Proof.
  intros H. spell_out H.
  exists (lower (rstrip_by isspace rest)).
  unfold strip, strip_by. cbn [String.append].
  rewrite lstrip_by_stop by (eapply not_space_of_lower; [eassumption | reflexivity]).
  match goal with
  | |- context [rstrip_by _ (String ?c1 (String ?c2 (String ?c3 (String ?c4
                  (String ?c5 (String ?c6 (String ?c7 (String ?c8 rest))))))))] =>
      change (String c1 (String c2 (String c3 (String c4
                (String c5 (String c6 (String c7 (String c8 rest))))))))
        with (String c1 (String c2 (String c3 (String c4
                (String c5 (String c6 (String c7 EmptyString))))))
              ++ String c8 rest)
  end.
  rewrite rstrip_by_prefix by (eapply not_space_of_lower; [eassumption | reflexivity]).
  cbn [String.append lower]. congruence.
Qed.

(** X11: A response that begins with the thought marker, in any case and with
    nothing before it, is a thought: the text after the marker, without the
    white space around it. *)
Theorem thought_content (self : ReActAgent) (m rest : string) :
  lower m = "thought:" ->
  _parse_llm_response self (m ++ rest) = (Returned (Thought (strip rest)), self).
Proof.
  intros Hm. unfold _parse_llm_response.
  destruct (content_lower_thought m rest Hm) as [tail ->].
  rewrite startswith_append.
  assert (Hlen : String.length m = String.length "thought:").
  { clear -Hm. spell_out Hm. reflexivity. }
  rewrite <- Hlen, slice_from_append. reflexivity.
Qed.

Lemma rstrip_by_idempotent (p : ascii -> bool) (s : string) :
  rstrip_by p (rstrip_by p s) = rstrip_by p s.
Proof.
  induction s as [|c s IH]; [reflexivity |]. cbn [rstrip_by].
  destruct (rstrip_by p s) as [|d r] eqn:Hr.
  - destruct (p c) eqn:Hc; [reflexivity |]. cbn. now rewrite Hc.
  - cbn [rstrip_by]. cbn [rstrip_by] in IH. rewrite IH. reflexivity.
Qed.

Lemma strip_by_idempotent (p : ascii -> bool) (s : string) :
  strip_by p (strip_by p s) = strip_by p s.
Proof.
  unfold strip_by. pose proof (lstrip_by_head p s) as H.
  destruct (lstrip_by p s) as [|c r]; [reflexivity |].
  rewrite (rstrip_by_cons p c r H), (lstrip_by_stop p c _ H).
  now rewrite <- (rstrip_by_cons p c r H), rstrip_by_idempotent.
Qed.

(** X13: The content of a thought, of a final answer and of a plain text is
    trimmed: it has no white space at either end, so that stripping it again
    changes nothing. *)
Theorem content_is_trimmed (self : ReActAgent) (response_content : string) :
  match fst (_parse_llm_response self response_content) with
  | Returned (Thought content) | Returned (FinalAnswer content)
  | Returned (Text content) => strip content = content
  | Returned (Action _ _) | Returned (Error _) | Raised _ => True
  end.
Proof.
  unfold _parse_llm_response.
  destruct (startswith _ "thought:"); [apply strip_by_idempotent |].
  destruct (startswith _ "action:").
  - destruct (Re.match_ _ _) as [[|? [|? [|]]]|]; try exact I.
    now destruct (parse_action_args _).
  - destruct (startswith _ "final answer:"); apply strip_by_idempotent.
Qed.

End InterpreterProperties.

(** ** What the interpreter accepts as an action *)

Section ActionProperties.

Context {env : Environment}.

Import PyStr Re.

Lemma star_sound (p : ascii -> bool) (s : string) (gs : groups) (k : cont)
    (res : groups) :
  star p s gs k = Some res ->
  exists w rest, s = w ++ rest /\ all p w = true /\ k rest gs = Some res.
Proof.
  induction s as [|c s IH]; cbn [star]; intros H.
  - now exists EmptyString, EmptyString.
  - destruct (p c) eqn:Hc.
    + destruct (star p s gs k) as [r|] eqn:Hs.
      * injection H as <-. destruct (IH eq_refl) as (w & rest & -> & Hw & Hk).
        exists (String c w), rest. cbn. now rewrite Hc.
      * now exists EmptyString, (String c s).
    + now exists EmptyString, (String c s).
Qed.

Lemma exec_literal_sound (l s : string) (gs : groups) (k : cont) (res : groups) :
  exec (literal true l) s gs k = Some res ->
  exists m rest, s = m ++ rest /\ lower m = lower l /\ k rest gs = Some res.
Proof.
  revert s. induction l as [|c l IH]; intros s H.
  - now exists EmptyString, s.
  - cbn [literal exec lit] in H. destruct s as [|d s]; [discriminate H |].
    destruct (Ascii.eqb_spec (lower_char d) (lower_char c)) as [Hd|]; [| discriminate H].
    destruct (IH s H) as (m & rest & -> & Hm & Hk).
    exists (String d m), rest. cbn. now rewrite Hd, Hm.
Qed.

Lemma lower_char_open (c : ascii) :
  Ascii.eqb (lower_char c) (lower_char "(") = Ascii.eqb c "(".
Proof.
  destruct c as [[] [] [] [] [] [] [] []]; vm_compute; reflexivity.
Qed.

(** The pattern of the action branch matches only texts of the shape it
    describes. *)
Lemma match_action_pattern_sound (s : string) (gs : groups) :
  match_ action_pattern s = Some gs ->
  exists m ws name args rest,
    gs = [name; args]
    /\ s = m ++ ws ++ name ++ "(" ++ args ++ ")" ++ rest
    /\ lower m = "action:"
    /\ all isspace ws = true
    /\ name <> EmptyString
    /\ all isword name = true
    /\ all notnewline args = true.
Proof.
  unfold match_, action_pattern. cbn [exec]. intros H.
  apply exec_literal_sound in H as (m & r1 & -> & Hm & H).
  apply star_sound in H as (ws & r2 & -> & Hws & H).
  unfold plus in H. cbn [exec] in H.
  destruct r2 as [|n r2]; [discriminate H |].
  destruct (isword n) eqn:Hn; [| discriminate H].
  apply star_sound in H as (w & r3 & -> & Hw & H).
  change (String n (w ++ r3)) with (String n w ++ r3) in H.
  rewrite slice_to_append in H. cbn [lit exec] in H.
  destruct r3 as [|c r4]; [discriminate H |].
  rewrite lower_char_open in H.
  destruct (Ascii.eqb_spec c "(") as [->|]; [| discriminate H].
  apply star_sound in H as (args & r5 & -> & Hargs & H).
  rewrite slice_to_append in H.
  destruct r5 as [|c' rest]; [discriminate H |].
  rewrite lower_char_paren in H.
  destruct (Ascii.eqb_spec c' ")") as [->|]; [| discriminate H].
  injection H as <-.
  exists m, ws, (String n w), args, rest.
  repeat split; try assumption; try discriminate.
  cbn. now rewrite Hn.
Qed.

(** X14: An action comes only from a response of the shape marker, white space,
    name, parenthesised argument text: the tool name is never empty and
    holds word characters only; and an error always quotes the whole
    response after "Invalid Action format: ". *)
Theorem action_only_from_call_syntax (self : ReActAgent) (response_content : string) :
  match fst (_parse_llm_response self response_content) with
  | Returned (Action tool_name tool_args) =>
      exists m ws args rest,
        response_content = m ++ ws ++ tool_name ++ "(" ++ args ++ ")" ++ rest
        /\ lower m = "action:"
        /\ all isspace ws = true
        /\ tool_name <> EmptyString
        /\ all isword tool_name = true
        /\ all notnewline args = true
        /\ parse_action_args args = Returned tool_args
  | Returned (Error content) =>
      content = "Invalid Action format: " ++ response_content
      /\ startswith (lower (strip response_content)) "action:" = true
  | _ => True
  end.
Proof.
  unfold _parse_llm_response.
  destruct (startswith _ "thought:"); [exact I |].
  destruct (startswith _ "action:") eqn:Ha.
  - destruct (match_ action_pattern response_content) as [gs|] eqn:Hm.
    + destruct (match_action_pattern_sound _ _ Hm)
        as (m & ws & name & args & rest & -> & Hs & H1 & H2 & H3 & H4 & H5).
      destruct (parse_action_args args) as [v|e] eqn:Hv; cbn [fst]; [| exact I].
      exists m, ws, args, rest. repeat split; assumption.
    + cbn [fst]. now split.
  - destruct (startswith _ "final answer:"); exact I.
Qed.

(** *** The fallback reading of the argument text *)

Lemma mem_split (sep c : ascii) (s piece : string) :
  In piece (split sep s) -> mem c piece = true -> mem c s = true.
Proof.
  revert piece. induction s as [|d s IH]; cbn [split]; intros piece Hin Hc.
  - destruct Hin as [<- | []]. discriminate Hc.
  - cbn [mem]. destruct (Ascii.eqb d sep).
    + destruct Hin as [<- | Hin]; [discriminate Hc |].
      rewrite (IH _ Hin Hc). apply orb_true_r.
    + destruct (split sep s) as [|w ws] eqn:Hs.
      * destruct Hin as [<- | []]. cbn [mem] in Hc.
        apply orb_true_iff in Hc as [Hc | Hc]; [now rewrite Hc | discriminate Hc].
      * destruct Hin as [<- | Hin].
        -- cbn [mem] in Hc. apply orb_true_iff in Hc as [Hc | Hc];
             [now rewrite Hc |]. rewrite (IH w (or_introl eq_refl) Hc). apply orb_true_r.
        -- rewrite (IH piece (or_intror Hin) Hc). apply orb_true_r.
Qed.

(** Pieces without [=] leave the dictionary as it is. *)
Lemma parse_pairs_without_pairs (pieces : list string) (args : dict json) :
  (forall piece, In piece pieces -> mem "=" piece = false) ->
  parse_pairs pieces args = Returned args.
Proof.
  induction pieces as [|piece pieces IH]; intros H; [reflexivity |].
  cbn [parse_pairs]. unfold parse_key_value. rewrite (H piece (or_introl eq_refl)).
  apply IH. intros p Hp. apply H. now right.
Qed.

(** X15: When the argument text set between braces is no JSON, the fallback
    either returns a dictionary without repeated keys that holds the keys
    and values of the pieces between commas (each entry read from a piece
    with [=], each such piece with an entry under its key, the last of the
    pieces with one key giving the value), or it raises
    what the decoder raised on one of the values, when that is not a
    [JSONDecodeError]; a text without any [=] gives the empty dictionary. *)
Theorem fallback_arguments (args_str : string) (e : JSONDecodeError) :
  json_loads ("{" ++ args_str ++ "}") = DecodeError e ->
  match parse_action_args args_str with
  | Returned v =>
      exists d, v = JObject d /\ holds_pairs (flat_map cut (split "," args_str)) d
  | Raised x =>
      exists piece key value,
        In piece (split "," args_str)
        /\ split_once "=" piece = Some (key, value)
        /\ json_loads (strip value) = DecodeRaised x
  end
  /\ (mem "=" args_str = false -> parse_action_args args_str = Returned (JObject [])).
Proof.
  intros He. unfold parse_action_args. rewrite He. split.
  - destruct (parse_pairs (split "," args_str) []) as [d|x] eqn:Hp.
    + exists d. split; [reflexivity | now apply parse_pairs_holds].
    + exact (parse_pairs_raised _ _ _ Hp).
  - intros Hno. rewrite parse_pairs_without_pairs; [reflexivity |].
    intros piece Hpiece. destruct (mem "=" piece) eqn:Hm; [| reflexivity].
    now rewrite (mem_split "," "=" _ _ Hpiece Hm) in Hno.
Qed.

End ActionProperties.

(** ** Further properties of the tools and of the client *)

Section ToolProperties.

Context {env : Environment}.

(** X16: With a schema of one required string field and no argument named
    [self], the tool function gets the validated field and nothing else,
    whatever else the arguments hold; when the field is missing or is not a
    string, the function is not called and the [ValueError] of the tool is
    raised in an unchanged world.  An argument named [self] makes the call
    fail with a [TypeError] before anything is validated or called. *)
Theorem run_validated_arguments (tool : Tool) (cls field title field_description : string)
    (kwargs : dict json) (w : World) :
  args_schema tool = Some (str_field_model cls field title field_description) ->
  match dict_get "self" kwargs with
  | Some _ =>
      Tool_run tool kwargs w
      = (Raised {| exc_class := TypeError;
                   exc_str := "Tool.run() got multiple values for argument 'self'" |}, w)
  | None =>
      match dict_get field kwargs with
      | Some (JString q) =>
          Tool_run tool kwargs w = converted tool (func tool [(field, JString q)] w)
      | other =>
          Tool_run tool kwargs w
          = (Raised {| exc_class := ValueError;
                       exc_str := "Tool '" ++ name tool ++ "' argument validation failed: "
                                  ++ validation_error_str cls [(field, other)] |}, w)
      end
  end.
Proof.
  intros Hschema. unfold Tool_run.
  destruct (dict_get "self" kwargs) as [v|]; [reflexivity |].
  rewrite Hschema. cbn [model_validate str_field_model].
  destruct (dict_get field kwargs) as [[]|]; try reflexivity.
  unfold converted. destruct (func tool _ w) as [[v | [[] e]] w']; reflexivity.
Qed.

(** X17: The failure signal of the schema function, a frame with the one column
    "error", is not empty: schema discovery presents it as the schema of the
    table. *)
Theorem error_frame_is_taken_for_schema (agent : ReActAgent) (w w' : World)
    (e : exception) :
  tools agent = ALL_TOOLS ->
  get_table_schema [("table_name", JString "call_records")] w
  = (Returned (VDataFrame (error_frame e)), w') ->
  discover_schema agent w
  = ("Table 'call_records' schema:" ++ nl ++ to_markdown (error_frame e), w').
Proof.
  intros Htools Hschema. unfold discover_schema. rewrite Htools.
  change (dict_get "describe_table" ALL_TOOLS) with (Some describe_table_tool).
  unfold Tool_run.
  change (dict_get "self" [("table_name", JString "call_records")]) with (@None json).
  cbv iota.
  cbn [args_schema describe_table_tool DescribeTableParams str_field_model
         model_validate dict_get func].
  change (String.eqb "table_name" "table_name") with true. cbv iota.
  rewrite Hschema. reflexivity.
Qed.

(** X18: The client that the constructor returns always has a key that is not
    empty: the key given, or else the key of the environment; when both are
    missing or empty the constructor raises a [ValueError]. *)
Theorem client_has_a_key (base : string) (key : option string) (model_name : string)
    (environ_key : option string) :
  match LLMClient_init base key model_name environ_key with
  | Returned client =>
      api_key client <> EmptyString
      /\ api_base client = base
      /\ model client = model_name
      /\ (forall k, key = Some k -> k <> EmptyString -> api_key client = k)
      /\ (key = None \/ key = Some EmptyString -> environ_key = Some (api_key client))
  | Raised e =>
      exc_class e = ValueError
      /\ (key = None \/ key = Some EmptyString)
      /\ (environ_key = None \/ environ_key = Some EmptyString)
  end.
Proof.
  unfold LLMClient_init.
  destruct key as [[|c s]|], environ_key as [[|c' s']|]; cbn;
    repeat split; auto; try discriminate;
    try (intros k Hk; injection Hk as <-; congruence);
    try (intros k Hk; discriminate Hk);
    try (intros [H | H]; discriminate H).
Qed.

End ToolProperties.

(** ** Properties of the storage functions *)

Section DatabaseProperties.

Context {env : Environment} {storage : Storage}.

(** X20: Once the connection is made, [execute_sql_query] returns a data frame
    whatever the query does: its result, or the frame of one cell under the
    column "error" that holds the message of the exception, which is not an
    empty frame; the connection is closed on both paths. *)
Theorem query_always_returns_a_frame (query : string) (w w1 : World) (conn : Connection) :
  sqlite3_connect DATABASE_NAME w = (Returned conn, w1) ->
  exists df w2,
    db_execute_sql_query query w = (Returned df, conn_close conn w2)
    /\ (read_sql_query query conn w1 = (Returned df, w2)
        \/ exists e, read_sql_query query conn w1 = (Raised e, w2)
                     /\ df = {| columns := ["error"]; rows := [[exc_str e]] |}
                     /\ empty df = false).
Proof.
  intros Hconn. unfold db_execute_sql_query. rewrite Hconn.
  destruct (read_sql_query query conn w1) as [[df | e] w2].
  - exists df, w2. split; [reflexivity | now left].
  - exists (error_frame e), w2. split; [reflexivity |]. right. now exists e.
Qed.

Lemma positions_bound (label : string) (labels : list string) (i j : nat) :
  In j (positions label labels i) ->
  i <= j < i + length labels /\ nth (j - i) labels EmptyString = label.
Proof.
  revert i. induction labels as [|l ls IH]; intros i H; [destruct H |].
  cbn [positions] in H. cbn [length].
  destruct (String.eqb_spec l label) as [->|Hne].
  - destruct H as [<- | H].
    + replace (i - i) with 0 by lia. split; [lia | reflexivity].
    + destruct (IH _ H) as (Hb & Hn). split; [lia |].
      replace (j - i) with (S (j - S i)) by lia. exact Hn.
  - destruct (IH _ H) as (Hb & Hn). split; [lia |].
    replace (j - i) with (S (j - S i)) by lia. exact Hn.
Qed.

Lemma positions_absent (label : string) (labels : list string) (i : nat) :
  ~ In label labels -> positions label labels i = [].
Proof.
  revert i. induction labels as [|l ls IH]; intros i H; [reflexivity |].
  cbn [positions]. destruct (String.eqb_spec l label) as [->|Hne].
  - destruct H. now left.
  - apply IH. intros Hin. apply H. now right.
Qed.

Lemma positions_once (label : string) (labels : list string) (i : nat) :
  NoDup labels -> In label labels -> exists j, positions label labels i = [j].
Proof.
  revert i. induction labels as [|l ls IH]; intros i Hnd Hin; [destruct Hin |].
  inversion Hnd as [|? ? Hl Hls]. subst. cbn [positions].
  destruct (String.eqb_spec l label) as [->|Hne].
  - exists i. now rewrite positions_absent.
  - destruct Hin as [-> | Hin]; [contradiction |]. now apply IH.
Qed.

(** X21: The schema frame: an empty answer of the pragma is returned as it is;
    an answer whose columns are distinct and include [name], [type],
    [notnull] and [pk] becomes a frame of the four columns "Column Name",
    "Data Type", "Not Null" and "Primary Key", with one row of four cells per
    row of the answer; an answer that lacks one of the columns is a
    [KeyError]. *)
Theorem schema_frame_shape (schema_df : DataFrame) :
  (empty schema_df = true -> shape_schema schema_df = Returned schema_df)
  /\ (empty schema_df = false ->
      NoDup (columns schema_df) ->
      Forall (fun l => In l (columns schema_df)) ["name"; "type"; "notnull"; "pk"] ->
      exists rows',
        shape_schema schema_df
        = Returned {| columns := ["Column Name"; "Data Type"; "Not Null"; "Primary Key"];
                      rows := rows' |}
        /\ length rows' = length (rows schema_df)
        /\ Forall (fun row => length row = 4) rows')
  /\ (empty schema_df = false ->
      Exists (fun l => ~ In l (columns schema_df)) ["name"; "type"; "notnull"; "pk"] ->
      exists e, shape_schema schema_df = Raised e
                /\ exc_class e = OtherException "KeyError").
Proof.
  unfold shape_schema. split; [intros ->; reflexivity |]. split.
  - intros -> Hnd Hall. cbn [negb]. unfold select_columns.
    inversion Hall as [|? ? H1 Hall1]; subst.
    inversion Hall1 as [|? ? H2 Hall2]; subst.
    inversion Hall2 as [|? ? H3 Hall3]; subst.
    inversion Hall3 as [|? ? H4 _]; subst.
    destruct (positions_once "name" _ 0 Hnd H1) as (j1 & E1).
    destruct (positions_once "type" _ 0 Hnd H2) as (j2 & E2).
    destruct (positions_once "notnull" _ 0 Hnd H3) as (j3 & E3).
    destruct (positions_once "pk" _ 0 Hnd H4) as (j4 & E4).
    cbn [filter flat_map]. rewrite E1, E2, E3, E4. cbn [app map].
    unfold set_columns. cbn [columns length Nat.eqb rows].
    eexists. split; [reflexivity |]. split; [now rewrite length_map |].
    apply Forall_forall. intros row Hrow.
    apply in_map_iff in Hrow as (r & <- & _). reflexivity.
  - intros -> Hex. cbn [negb]. unfold select_columns.
    destruct (filter _ _) as [|l ls] eqn:Hf.
    + exfalso. apply Exists_exists in Hex as (l & Hl & Hno).
      assert (Hin : In l (filter (fun l => match positions l (columns schema_df) 0 with
                                           | [] => true
                                           | _ => false
                                           end) ["name"; "type"; "notnull"; "pk"])).
      { apply filter_In. split; [exact Hl |]. now rewrite positions_absent. }
      rewrite Hf in Hin. destruct Hin.
    + eexists. split; reflexivity.
Qed.

(** X22: Once the connection is made, [get_table_schema] returns a data frame
    whatever happens: the shaped answer of the pragma, or the error frame of
    the exception that the query or the shaping raised; the connection is
    closed on every path. *)
Theorem schema_always_returns_a_frame (table_name : string) (w w1 : World)
    (conn : Connection) :
  sqlite3_connect DATABASE_NAME w = (Returned conn, w1) ->
  exists df w2,
    db_get_table_schema table_name w = (Returned df, conn_close conn w2)
    /\ snd (read_sql_query ("PRAGMA table_info(" ++ table_name ++ ");") conn w1) = w2
    /\ match fst (read_sql_query ("PRAGMA table_info(" ++ table_name ++ ");") conn w1) with
       | Returned schema_df =>
           shape_schema schema_df = Returned df
           \/ exists e, shape_schema schema_df = Raised e
                        /\ df = {| columns := ["error"]; rows := [[exc_str e]] |}
       | Raised e => df = {| columns := ["error"]; rows := [[exc_str e]] |}
       end.
Proof.
  intros Hconn. unfold db_get_table_schema. rewrite Hconn.
  destruct (read_sql_query _ conn w1) as [[schema_df | e] w2]; cbn [fst snd].
  - destruct (shape_schema schema_df) as [df | e] eqn:Hs.
    + exists df, w2. repeat split. now left.
    + exists (error_frame e), w2. repeat split. right. now exists e.
  - exists (error_frame e), w2. repeat split.
Qed.

(** X23: [init_db_from_csv]: when the file does not exist, the answer is [False]
    and nothing is opened or changed; once the connection is made, the
    answer is [True] exactly when reading the file and writing the table
    went through, [False] when any step raised, and the connection is closed
    on both paths. *)
Theorem init_db_outcomes (csv_path table_name : string) (w : World) :
  (path_exists csv_path w = false ->
   init_db_from_csv csv_path table_name w = (Returned false, w))
  /\ (forall conn w1,
        path_exists csv_path w = true ->
        sqlite3_connect DATABASE_NAME w = (Returned conn, w1) ->
        exists loaded w2,
          init_db_from_csv csv_path table_name w = (Returned loaded, conn_close conn w2)
          /\ snd (load_csv csv_path table_name conn w1) = w2
          /\ (loaded = true <->
              exists u, fst (load_csv csv_path table_name conn w1) = Returned u))
  /\ (forall e w1,
        path_exists csv_path w = true ->
        sqlite3_connect DATABASE_NAME w = (Raised e, w1) ->
        init_db_from_csv csv_path table_name w = (Raised e, w1)).
Proof.
  unfold init_db_from_csv. split; [now intros -> |]. split.
  - intros conn w1 -> ->. cbn [negb].
    destruct (load_csv csv_path table_name conn w1) as [[u | e] w2]; cbn [fst snd].
    + exists true, w2. repeat split. now exists u.
    + exists false, w2. repeat split; [discriminate |]. intros (u & Hu). discriminate Hu.
  - now intros e w1 -> ->.
Qed.


End DatabaseProperties.

(** ** The further properties at concrete inputs *)

Section FurtherWitnesses.

Import Demo Cases.

#[local] Existing Instance environment.

Lemma transcript_is_append_only_witness :
  In (history (opening batch_then_answer))
     (sent (final (run_trace agent task 10 batch_then_answer)))
  /\ exists rest,
      history (final (run_trace agent task 10 batch_then_answer))
      = (history (opening batch_then_answer) ++ rest)%list.
Proof.
  assert (H : In (history (opening batch_then_answer))
                 (sent (final (run_trace agent task 10 batch_then_answer))))
    by (left; reflexivity).
  exact (conj H (transcript_is_append_only agent task 10 batch_then_answer _ H)).
Defined.

Lemma text_response_runs_no_tool_witness :
  call_llm (llm_client (self (opening action_as_text))) (history (opening action_as_text))
    (capabilities (self (opening action_as_text))) (world (opening action_as_text))
  = (text_response "Action: sql_query(query='SELECT 1')",
     answered (world (opening action_as_text)))
  /\ fst (_parse_llm_response (self (opening action_as_text))
            "Action: sql_query(query='SELECT 1')")
     = Returned (Action "sql_query" (JObject [("query", JString "SELECT 1")]))
  /\ queries (world (flow_state (iteration (opening action_as_text))))
     = ["PRAGMA table_info(call_records);"]
  /\ history (flow_state (iteration (opening action_as_text)))
     = (history (opening action_as_text)
        ++ [Message "assistant" "Action: sql_query(query='SELECT 1')"])%list
  /\ iteration (opening action_as_text)
     = Next (flow_state (iteration (opening action_as_text))).
Proof.
  assert (H : call_llm (llm_client (self (opening action_as_text)))
                (history (opening action_as_text))
                (capabilities (self (opening action_as_text)))
                (world (opening action_as_text))
              = (text_response "Action: sql_query(query='SELECT 1')",
                 answered (world (opening action_as_text))))
    by reflexivity.
  assert (Hp : fst (_parse_llm_response (self (opening action_as_text))
                      "Action: sql_query(query='SELECT 1')")
               = Returned (Action "sql_query" (JObject [("query", JString "SELECT 1")])))
    by reflexivity.
  destruct (text_response_runs_no_tool (opening action_as_text) _ _ H) as (Hw & Hm).
  rewrite Hp in Hm. destruct Hm as (_ & Hh & Hnext).
  refine (conj H (conj Hp (conj _ (conj Hh Hnext)))). rewrite Hw. reflexivity.
Defined.

Lemma final_answer_ends_run_witness :
  iterate 0 (start agent task answer_at_once) = Some (opening answer_at_once)
  /\ 0 < Z.to_nat 10
  /\ call_llm (llm_client (self (opening answer_at_once))) (history (opening answer_at_once))
       (capabilities (self (opening answer_at_once))) (world (opening answer_at_once))
     = (text_response "Final Answer: 42", answered (world (opening answer_at_once)))
  /\ fst (_parse_llm_response (self (opening answer_at_once)) "Final Answer: 42")
     = Returned (FinalAnswer "42")
  /\ run agent task 10 answer_at_once = Returned "42".
Proof.
  assert (H1 : iterate 0 (start agent task answer_at_once) = Some (opening answer_at_once))
    by reflexivity.
  assert (H2 : 0 < Z.to_nat 10) by (cbn; lia).
  assert (H3 : call_llm (llm_client (self (opening answer_at_once)))
                 (history (opening answer_at_once))
                 (capabilities (self (opening answer_at_once)))
                 (world (opening answer_at_once))
               = (text_response "Final Answer: 42",
                  answered (world (opening answer_at_once))))
    by reflexivity.
  assert (H4 : fst (_parse_llm_response (self (opening answer_at_once)) "Final Answer: 42")
               = Returned (FinalAnswer "42")) by reflexivity.
  exact (conj H1 (conj H2 (conj H3 (conj H4
           (proj1 (proj2 (final_answer_ends_run agent task 10 answer_at_once 0 _ _ _ _
                            H1 H2 H3 H4))))))).
Defined.

Lemma no_budget_no_call_witness :
  (0 <= 0)%Z
  /\ run agent task 0 answer_at_once
     = Returned "Max steps reached without providing a final answer."
  /\ sent (final (run_trace agent task 0 answer_at_once)) = [].
Proof.
  assert (H : (0 <= 0)%Z) by lia.
  destruct (no_budget_no_call agent task 0 answer_at_once H) as (Hrun & Hsent & _).
  refine (conj H (conj _ Hsent)). unfold run. now rewrite Hrun.
Defined.

Lemma tool_failure_is_observed_witness :
  dict_get "sql_query" (tools (self (opening answer_at_once))) = Some sql_query_tool
  /\ json_loads "[1]" = Decoded (JArray [JInt 1])
  /\ (forall kwargs, JArray [JInt 1] <> JObject kwargs)
  /\ tool_results
       [ToolMessage "tool" mock_id
          ("Tool execution failed: tools.Tool.run() argument after ** must be a mapping, not "
             ++ json_type_name (JArray [JInt 1]))]
     = ["Tool execution failed: tools.Tool.run() argument after ** must be a mapping, not list"]
  /\ world (flow_state (dispatch (opening answer_at_once) (request "sql_query" "[1]")))
     = world (opening answer_at_once).
Proof.
  assert (H1 : dict_get "sql_query" (tools (self (opening answer_at_once)))
               = Some sql_query_tool) by reflexivity.
  assert (H2 : json_loads (Environment := environment) "[1]" = Decoded (JArray [JInt 1]))
    by reflexivity.
  assert (H3 : forall kwargs, JArray [JInt 1] <> JObject kwargs) by discriminate.
  destruct (tool_failure_is_observed (opening answer_at_once) (request "sql_query" "[1]")
              sql_query_tool (JArray [JInt 1]) H1 H2) as (_ & Hno).
  destruct (Hno H3) as (_ & Hw).
  exact (conj H1 (conj H2 (conj H3 (conj eq_refl Hw)))).
Defined.

Lemma every_handler_ends_run_witness :
  iterate 0 (start agent task timed_out) = Some (opening timed_out)
  /\ 0 < Z.to_nat 10
  /\ post_completion (llm_client (self (opening timed_out))) (history (opening timed_out))
       (capabilities (self (opening timed_out))) (world (opening timed_out))
     = (Timeout "read timed out", answered (world (opening timed_out)))
  /\ handled (Timeout "read timed out")
  /\ run agent task 10 timed_out
     = Returned "Agent terminated due to LLM communication error: Timeout Error: read timed out".
Proof.
  assert (H1 : iterate 0 (start agent task timed_out) = Some (opening timed_out))
    by reflexivity.
  assert (H2 : 0 < Z.to_nat 10) by (cbn; lia).
  assert (H3 : post_completion (llm_client (self (opening timed_out)))
                 (history (opening timed_out)) (capabilities (self (opening timed_out)))
                 (world (opening timed_out))
               = (Timeout "read timed out", answered (world (opening timed_out))))
    by reflexivity.
  assert (H4 : handled (Timeout "read timed out")) by exact I.
  destruct (every_handler_ends_run agent task 10 timed_out 0 _ _ _ H1 H2 H3 H4)
    as (_ & Hrun & _).
  refine (conj H1 (conj H2 (conj H3 (conj H4 _)))).
  unfold run. rewrite Hrun. reflexivity.
Defined.

Lemma tool_result_per_request_witness :
  call_llm (llm_client (self (opening batch_then_answer)))
    (history (opening batch_then_answer))
    (capabilities (self (opening batch_then_answer)))
    (world (opening batch_then_answer))
  = (tool_calls_response batch, answered (world (opening batch_then_answer)))
  /\ Forall (decodable (tools (self (opening batch_then_answer)))) batch
  /\ exists st' new,
      iteration (opening batch_then_answer) = Next st'
      /\ history st' = (history (opening batch_then_answer) ++ new)%list
      /\ length (tool_results new) = length batch
      /\ Forall2 (answers (tools (self (opening batch_then_answer)))) batch
           (tool_results new)
      /\ sent st' = (sent (opening batch_then_answer)
                     ++ [history (opening batch_then_answer)])%list
      /\ sent (flow_state (iteration st'))
         = (sent (opening batch_then_answer)
            ++ [history (opening batch_then_answer);
                history (opening batch_then_answer) ++ new])%list.
Proof.
  assert (H : call_llm (llm_client (self (opening batch_then_answer)))
                (history (opening batch_then_answer))
                (capabilities (self (opening batch_then_answer)))
                (world (opening batch_then_answer))
              = (tool_calls_response batch,
                 answered (world (opening batch_then_answer))))
    by reflexivity.
  assert (Hd : Forall (decodable (tools (self (opening batch_then_answer)))) batch).
  { constructor; [right; intros e He; discriminate He |].
    constructor; [left; reflexivity |].
    constructor; [right; intros e He; discriminate He | constructor]. }
  exact (conj H (conj Hd (tool_result_per_request (opening batch_then_answer) batch _ H Hd))).
Defined.

Lemma failed_request_is_observed_witness :
  call_llm (llm_client (self (opening batch_then_answer)))
    (history (opening batch_then_answer))
    (capabilities (self (opening batch_then_answer)))
    (world (opening batch_then_answer))
  = (tool_calls_response
       ([request "sql_query" select_1] ++ request "foo_tool" "{}"
          :: [request "sql_query" "{bad"]),
     answered (world (opening batch_then_answer)))
  /\ dispatch_all [request "sql_query" select_1]
       (called (opening batch_then_answer) (answered (world (opening batch_then_answer))))
     = Next (flow_state
               (dispatch_all [request "sql_query" select_1]
                  (called (opening batch_then_answer)
                     (answered (world (opening batch_then_answer))))))
  /\ dict_get "foo_tool" (tools (self (opening batch_then_answer))) = None
  /\ exists obs,
      PyStr.contains obs "not found"
      /\ iteration (opening batch_then_answer)
         = dispatch_all [request "sql_query" "{bad"]
             (append (ToolMessage "tool" mock_id obs)
                (flow_state
                   (dispatch_all [request "sql_query" select_1]
                      (called (opening batch_then_answer)
                         (answered (world (opening batch_then_answer))))))).
Proof.
  assert (H1 : call_llm (llm_client (self (opening batch_then_answer)))
                 (history (opening batch_then_answer))
                 (capabilities (self (opening batch_then_answer)))
                 (world (opening batch_then_answer))
               = (tool_calls_response
                    ([request "sql_query" select_1] ++ request "foo_tool" "{}"
                       :: [request "sql_query" "{bad"]),
                  answered (world (opening batch_then_answer))))
    by reflexivity.
  assert (Hm : dispatch_all [request "sql_query" select_1]
                 (called (opening batch_then_answer)
                    (answered (world (opening batch_then_answer))))
               = Next (flow_state
                         (dispatch_all [request "sql_query" select_1]
                            (called (opening batch_then_answer)
                               (answered (world (opening batch_then_answer)))))))
    by reflexivity.
  assert (H2 : dict_get "foo_tool" (tools (self (opening batch_then_answer))) = None)
    by reflexivity.
  destruct (failed_request_is_observed (opening batch_then_answer)
              [request "sql_query" select_1] [request "sql_query" "{bad"]
              (request "foo_tool" "{}") _ 1 _ H1 Hm (or_introl H2))
    as (obs & _ & _ & _ & Hnf & _ & Hit & _).
  refine (conj H1 (conj Hm (conj H2 _))).
  exists obs. split; [exact (proj2 (Hnf H2)) | exact Hit].
Defined.

Lemma decoder_exception_leaves_run_witness :
  call_llm (llm_client (self (opening overlong_then_answer)))
    (history (opening overlong_then_answer))
    (capabilities (self (opening overlong_then_answer)))
    (world (opening overlong_then_answer))
  = (tool_calls_response
       ([request "sql_query" select_1] ++ request "sql_query" long_integer
          :: [request "sql_query" select_1]),
     answered (world (opening overlong_then_answer)))
  /\ dispatch_all [request "sql_query" select_1]
       (called (opening overlong_then_answer)
          (answered (world (opening overlong_then_answer))))
     = Next (flow_state
               (dispatch_all [request "sql_query" select_1]
                  (called (opening overlong_then_answer)
                     (answered (world (opening overlong_then_answer))))))
  /\ dict_get "sql_query" (tools (self (opening overlong_then_answer)))
     = Some sql_query_tool
  /\ json_loads long_integer
     = DecodeRaised
         {| exc_class := ValueError;
            exc_str := "Exceeds the limit (4300 digits) for integer string conversion: value has 4301 digits; use sys.set_int_max_str_digits() to increase the limit" |}
  /\ exists e mid,
      exc_class e = ValueError
      /\ iteration (opening overlong_then_answer) = Raise e mid
      /\ loop 10 (opening overlong_then_answer) = Raises e mid.
Proof.
  assert (H1 : call_llm (llm_client (self (opening overlong_then_answer)))
                 (history (opening overlong_then_answer))
                 (capabilities (self (opening overlong_then_answer)))
                 (world (opening overlong_then_answer))
               = (tool_calls_response
                    ([request "sql_query" select_1] ++ request "sql_query" long_integer
                       :: [request "sql_query" select_1]),
                  answered (world (opening overlong_then_answer))))
    by reflexivity.
  assert (Hm : dispatch_all [request "sql_query" select_1]
                 (called (opening overlong_then_answer)
                    (answered (world (opening overlong_then_answer))))
               = Next (flow_state
                         (dispatch_all [request "sql_query" select_1]
                            (called (opening overlong_then_answer)
                               (answered (world (opening overlong_then_answer)))))))
    by reflexivity.
  assert (H2 : dict_get "sql_query" (tools (self (opening overlong_then_answer)))
               = Some sql_query_tool) by reflexivity.
  assert (H3 : json_loads (Environment := environment) long_integer
               = DecodeRaised
                   {| exc_class := ValueError;
                      exc_str := "Exceeds the limit (4300 digits) for integer string conversion: value has 4301 digits; use sys.set_int_max_str_digits() to increase the limit" |})
    by (vm_compute; reflexivity).
  destruct (decoder_exception_leaves_run (opening overlong_then_answer)
              [request "sql_query" select_1] [request "sql_query" select_1]
              (request "sql_query" long_integer) sql_query_tool _ _ 9 _ H1 Hm H2 H3)
    as (_ & Hit & Hloop).
  refine (conj H1 (conj Hm (conj H2 (conj H3
            (ex_intro _ _ (ex_intro _ _ (conj _ (conj Hit Hloop)))))))).
  reflexivity.
Defined.

Lemma thought_content_witness :
  PyStr.lower "THOUGHT:" = "thought:"
  /\ _parse_llm_response agent "THOUGHT:  check the schema first  "
     = (Returned (Thought "check the schema first"), agent).
Proof.
  assert (H : PyStr.lower "THOUGHT:" = "thought:") by reflexivity.
  exact (conj H (thought_content agent "THOUGHT:" "  check the schema first  " H)).
Defined.

Lemma parse_final_answer_witness :
  PyStr.lower "final ANSWER:" = "final answer:"
  /\ _parse_llm_response agent "final ANSWER: 42 calls "
     = (Returned (FinalAnswer "42 calls"), agent).
Proof.
  assert (H : PyStr.lower "final ANSWER:" = "final answer:") by reflexivity.
  exact (conj H (parse_final_answer agent "final ANSWER:" " 42 calls " H)).
Defined.

Lemma fallback_arguments_witness :
  json_loads "{query='SELECT 1', limit = 5, verbose}"
  = DecodeError
      "Expecting property name enclosed in double quotes: line 1 column 2 (char 1)"
  /\ parse_action_args "query='SELECT 1', limit = 5, verbose"
     = Returned (JObject [("query", JString "SELECT 1"); ("limit", JInt 5)])
  /\ holds_pairs [("query", "'SELECT 1'"); (" limit ", " 5")]
       [("query", JString "SELECT 1"); ("limit", JInt 5)].
Proof.
  assert (H : json_loads (Environment := environment)
                "{query='SELECT 1', limit = 5, verbose}"
              = DecodeError
                  "Expecting property name enclosed in double quotes: line 1 column 2 (char 1)")
    by reflexivity.
  assert (Hp : parse_action_args (env := environment)
                 "query='SELECT 1', limit = 5, verbose"
               = Returned (JObject [("query", JString "SELECT 1"); ("limit", JInt 5)]))
    by reflexivity.
  destruct (fallback_arguments "query='SELECT 1', limit = 5, verbose" _ H) as (Hf & _).
  change (exists d,
            JObject [("query", JString "SELECT 1"); ("limit", JInt 5)] = JObject d
            /\ holds_pairs [("query", "'SELECT 1'"); (" limit ", " 5")] d) in Hf.
  destruct Hf as (d & Hd & Hh). injection Hd as <-.
  exact (conj H (conj Hp Hh)).
Defined.

Lemma run_validated_arguments_witness :
  args_schema sql_query_tool
  = Some (str_field_model "SQLQueryParams" "query" "Query"
            "The SQL query to execute against the call records database. Ensure the query is valid SQLite syntax. The table name is 'call_records'.")
  /\ Tool_run sql_query_tool [("query", JString "SELECT 1"); ("limit", JInt 5)]
       (script [])
     = converted sql_query_tool (func sql_query_tool [("query", JString "SELECT 1")] (script []))
  /\ Tool_run sql_query_tool [("query", JString "SELECT 1"); ("self", JInt 1)]
       (script [])
     = (Raised {| exc_class := TypeError;
                  exc_str := "Tool.run() got multiple values for argument 'self'" |},
        script []).
Proof.
  assert (H : args_schema (sql_query_tool (env := environment))
              = Some (str_field_model "SQLQueryParams" "query" "Query"
                        "The SQL query to execute against the call records database. Ensure the query is valid SQLite syntax. The table name is 'call_records'."))
    by reflexivity.
  exact (conj H
           (conj (run_validated_arguments sql_query_tool _ _ _ _
                    [("query", JString "SELECT 1"); ("limit", JInt 5)] (script []) H)
                 (run_validated_arguments sql_query_tool _ _ _ _
                    [("query", JString "SELECT 1"); ("self", JInt 1)] (script []) H))).
Defined.

Lemma error_frame_is_taken_for_schema_witness :
  tools broken_agent = ALL_TOOLS
  /\ get_table_schema (Environment := broken_environment)
       [("table_name", JString "call_records")] (script [])
     = (Returned (VDataFrame (error_frame no_such_table)), script [])
  /\ fst (discover_schema broken_agent (script []))
     = "Table 'call_records' schema:" ++ nl
         ++ to_markdown (Environment := broken_environment) (error_frame no_such_table).
Proof.
  assert (H1 : tools broken_agent = ALL_TOOLS) by reflexivity.
  assert (H2 : get_table_schema (Environment := broken_environment)
                 [("table_name", JString "call_records")] (script [])
               = (Returned (VDataFrame (error_frame no_such_table)), script []))
    by reflexivity.
  refine (conj H1 (conj H2 _)).
  now rewrite (error_frame_is_taken_for_schema broken_agent _ _ _ H1 H2).
Defined.

#[local] Existing Instance storage.

Lemma query_always_returns_a_frame_witness :
  sqlite3_connect DATABASE_NAME (script []) = (Returned tt, noted "connect call_records.db" (script []))
  /\ exists df w2,
      db_execute_sql_query "SELEKT 1" (script []) = (Returned df, conn_close tt w2)
      /\ columns df = ["error"].
Proof.
  assert (H : sqlite3_connect (Storage := storage) DATABASE_NAME (script [])
              = (Returned tt, noted "connect call_records.db" (script [])))
    by reflexivity.
  destruct (query_always_returns_a_frame (storage := storage) "SELEKT 1" (script []) _ tt H)
    as (df & w2 & Hq & Hcase).
  refine (conj H (ex_intro _ df (ex_intro _ w2 (conj Hq _)))).
  destruct Hcase as [Hok | (e & _ & -> & _)]; [discriminate Hok | reflexivity].
Defined.

Lemma schema_always_returns_a_frame_witness :
  sqlite3_connect DATABASE_NAME (script []) = (Returned tt, noted "connect call_records.db" (script []))
  /\ exists df w2,
      db_get_table_schema "call_records" (script []) = (Returned df, conn_close tt w2).
Proof.
  assert (H : sqlite3_connect (Storage := storage) DATABASE_NAME (script [])
              = (Returned tt, noted "connect call_records.db" (script [])))
    by reflexivity.
  destruct (schema_always_returns_a_frame (storage := storage) "call_records" (script []) _ tt H)
    as (df & w2 & Hq & _).
  exact (conj H (ex_intro _ df (ex_intro _ w2 Hq))).
Defined.


End FurtherWitnesses.

(** ** The storage properties at concrete inputs *)

Section StorageWitnesses.

Import Demo Cases.

#[local] Existing Instance environment.
#[local] Existing Instance storage.

Lemma schema_frame_shape_witness :
  empty pragma_answer = false
  /\ NoDup (columns pragma_answer)
  /\ Forall (fun l => In l (columns pragma_answer)) ["name"; "type"; "notnull"; "pk"]
  /\ exists rows',
      shape_schema pragma_answer
      = Returned {| columns := ["Column Name"; "Data Type"; "Not Null"; "Primary Key"];
                    rows := rows' |}
      /\ length rows' = length (rows pragma_answer)
      /\ Forall (fun row => length row = 4) rows'.
Proof.
  assert (H1 : empty pragma_answer = false) by reflexivity.
  assert (H2 : NoDup (columns pragma_answer)).
  { repeat (apply NoDup_cons; [cbn; intuition discriminate |]). apply NoDup_nil. }
  assert (H3 : Forall (fun l => In l (columns pragma_answer))
                 ["name"; "type"; "notnull"; "pk"]).
  { repeat (apply Forall_cons; [cbn; auto 10 |]). apply Forall_nil. }
  exact (conj H1 (conj H2 (conj H3
           (proj1 (proj2 (schema_frame_shape (storage := storage) pragma_answer))
              H1 H2 H3)))).
Defined.

Lemma init_db_outcomes_witness :
  path_exists "data/missing.csv" (script []) = false
  /\ init_db_from_csv "data/missing.csv" "call_records" (script [])
     = (Returned false, script []).
Proof.
  assert (H : path_exists (Storage := storage) "data/missing.csv" (script []) = false)
    by reflexivity.
  exact (conj H (proj1 (init_db_outcomes (storage := storage)
                          "data/missing.csv" "call_records" (script [])) H)).
Defined.

End StorageWitnesses.
